(** * aaao-go-backend: onboarding, KYC gates and the sponsor leveling walk

    A shallow embedding of the controllers of the repository:
    - [signupUser], [verifyOTPUser], [resendOtp], [submitKYC] and
      [updateSponsorLevels] of the user controller,
    - [uploadLicense] of the drivers controller,
    - the [TempUser] schema of models/tempUserModel.js.

    Mongo collections are lists of documents in insertion order; a query is
    a filter over that list, and a [save] rewrites the stored document that
    carries the same [_id].  Values produced by collaborators (uuid, OTP
    generator, ObjectId, clock, mail transport, image storage) are inputs. *)

From Stdlib Require Import List String Ascii ZArith Lia Bool Arith PeanoNat.
Import ListNotations.

Local Open Scope string_scope.
Local Open Scope list_scope.

Definition ObjectId := nat.

(** ** JavaScript values used by the handlers *)
Module Js.

(** [!x] on a field of [req.body]: absent and empty strings are falsy. *)
Definition truthy (f : option string) : bool :=
  match f with
  | Some s => negb (s =? "")
  | None => false
  end.

Definition value (f : option string) : string :=
  match f with Some s => s | None => "" end.

(** [s.split(sep)] for a one-character separator. *)
Fixpoint split (sep : ascii) (s : string) : list string :=
  match s with
  | EmptyString => [EmptyString]
  | String c rest =>
      if Ascii.eqb c sep then EmptyString :: split sep rest
      else match split sep rest with
           | w :: ws => String c w :: ws
           | [] => [String c EmptyString]
           end
  end.

(** [arr.filter(Boolean)] on an array of strings. *)
Definition filterBoolean (l : list string) : list string :=
  filter (fun w => negb (w =? "")) l.

(** [const [a, b] = arr]: missing positions are [undefined]. *)
Definition destructure2 (l : list string) : option string * option string :=
  (nth_error l 0, nth_error l 1).

(** Identifier resolution: reading a name no enclosing scope binds throws
    a ReferenceError. *)
Definition bound (scope : list string) (x : string) : bool :=
  existsb (String.eqb x) scope.

Definition referenceError (x : string) : string := x ++ " is not defined".

End Js.

(** ** What a handler produced *)
Inductive Response : Type :=
| Json (status : nat) (message : string)
    (** [res.status(status).json({ message, ... })] *)
| Throw (status : option nat) (message : string).
    (** [res.status(status)] when given, then [throw new Error(message)],
        or an exception raised by the runtime or a collaborator. *)

(** ** models/tempUserModel.js

    The schema also puts a ten-minute TTL index on [createdAt]; the removal
    it triggers is an action of the database, at a time of its choosing, and
    not of any handler: it is not part of the embedding. *)
Module TempUser.

Record doc : Type := mk {
  _id : ObjectId;
  email : string;
  phoneNumber : string;
  tempId : string;
  otp : string;
  createdAt : Z
}.

Definition setTempIdOtp (t : doc) (newTempId newOtp : string) : doc :=
  mk (_id t) (email t) (phoneNumber t) newTempId newOtp (createdAt t).

Definition setOtp (t : doc) (newOtp : string) : doc :=
  mk (_id t) (email t) (phoneNumber t) (tempId t) newOtp (createdAt t).

Definition findOneByEmail (c : list doc) (e : string) : option doc :=
  find (fun t => email t =? e) c.

Definition findOneByTempId (c : list doc) (i : string) : option doc :=
  find (fun t => tempId t =? i) c.

Definition findByIdAndDelete (c : list doc) (i : ObjectId) : list doc :=
  filter (fun t => negb (_id t =? i)%nat) c.

(** A unique index refuses a value that another stored document holds. *)
Definition taken (key : doc -> string) (c : list doc) (self : ObjectId)
    (v : string) : bool :=
  existsb (fun o => negb (_id o =? self)%nat && (key o =? v)) c.

Definition E11000 : string := "E11000 duplicate key error".

(** [TempUser.create({ email, phoneNumber, tempId, otp })]: the three
    [unique: true] paths are checked; [createdAt] takes its default
    [Date.now]. *)
Definition create (c : list doc) (fresh : ObjectId) (now : Z)
    (e p i o : string) : option (list doc) :=
  if taken email c fresh e || taken phoneNumber c fresh p
     || taken tempId c fresh i
  then None
  else Some (c ++ [mk fresh e p i o now]).

(** The stored document with the [_id] of [t] becomes [t]. *)
Definition put (c : list doc) (t : doc) : list doc :=
  map (fun o => if (_id o =? _id t)%nat then t else o) c.

(** [t.save()] after assignments to [t.tempId] and [t.otp]: of the
    modified paths only [tempId] is indexed. *)
Definition saveTempIdOtp (c : list doc) (t : doc) : option (list doc) :=
  if taken tempId c (_id t) (tempId t) then None else Some (put c t).

(** [t.save()] after an assignment to [t.otp]: no indexed path is
    written. *)
Definition saveOtp (c : list doc) (t : doc) : list doc := put c t.

End TempUser.

(** ** The User collection *)
Module User.

Record doc : Type := mk {
  _id : ObjectId;
  firstName : string;
  lastName : string;
  email : string;
  phoneNumber : string;
  password : string;
  gender : option string;
  country : option string;
  isVerified : bool;
  kycLevel : nat;
  cnicImages : option (string * string);
  selfieImage : option string;
  licenseImage : option string;
  sponsorId : string;
  sponsorBy : string;
  sponsorTree : list ObjectId;
  level : nat
}.

Definition setLevel (u : doc) (l : nat) : doc :=
  mk (_id u) (firstName u) (lastName u) (email u) (phoneNumber u)
     (password u) (gender u) (country u) (isVerified u) (kycLevel u)
     (cnicImages u) (selfieImage u) (licenseImage u)
     (sponsorId u) (sponsorBy u) (sponsorTree u) l.

(** [u.sponsorTree.push(child)] on a loaded document. *)
Definition pushSponsorTree (u : doc) (child : ObjectId) : doc :=
  mk (_id u) (firstName u) (lastName u) (email u) (phoneNumber u)
     (password u) (gender u) (country u) (isVerified u) (kycLevel u)
     (cnicImages u) (selfieImage u) (licenseImage u)
     (sponsorId u) (sponsorBy u) (sponsorTree u ++ [child]) (level u).

(** [user.kycLevel = 2; user.licenseImage = url] *)
Definition setLicense (u : doc) (url : string) : doc :=
  mk (_id u) (firstName u) (lastName u) (email u) (phoneNumber u)
     (password u) (gender u) (country u) (isVerified u) 2
     (cnicImages u) (selfieImage u) (Some url)
     (sponsorId u) (sponsorBy u) (sponsorTree u) (level u).

(** The assignments of [submitKYC]: names, country, gender, the three
    image URLs, [kycLevel = 1] and, in the first copy, [isVerified]. *)
Definition setKyc1 (u : doc) (first last : string) (ctry gen : option string)
    (front back selfie : string) (verified : bool) : doc :=
  mk (_id u) first last (email u) (phoneNumber u)
     (password u) gen ctry verified 1
     (Some (front, back)) (Some selfie) (licenseImage u)
     (sponsorId u) (sponsorBy u) (sponsorTree u) (level u).

Definition findById (c : list doc) (i : ObjectId) : option doc :=
  find (fun u => (_id u =? i)%nat) c.

(** [User.findOne({ sponsorId })] *)
Definition findOneBySponsorId (c : list doc) (s : string) : option doc :=
  find (fun u => sponsorId u =? s) c.

(** [User.findOne({ $or: [{ email }, { phoneNumber }] })] *)
Definition findOneByEmailOrPhone (c : list doc) (e p : string) : option doc :=
  find (fun u => (email u =? e) || (phoneNumber u =? p)) c.

(** [User.find({ sponsorBy })] *)
Definition findBySponsorBy (c : list doc) (s : string) : list doc :=
  filter (fun u => sponsorBy u =? s) c.

(** [User.find({ level, sponsorBy })] *)
Definition findByLevelAndSponsorBy (c : list doc) (l : nat) (s : string)
    : list doc :=
  filter (fun u => (level u =? l)%nat && (sponsorBy u =? s)) c.

(** [d.save()] after an assignment to [d.level]: only the modified path is
    written, onto the stored document with the same [_id]. *)
Definition saveLevel (c : list doc) (i : ObjectId) (l : nat) : list doc :=
  map (fun u => if (_id u =? i)%nat then setLevel u l else u) c.

(** [d.save()] of a whole document. *)
Definition save (c : list doc) (d : doc) : list doc :=
  map (fun u => if (_id u =? _id d)%nat then d else u) c.

(** Modelled from the spec: models/userModel.js is not part of the
    sources.  A created user starts with [kycLevel] 0, [level] 0, no KYC
    artifacts and an empty [sponsorTree]; its [_id] and its own referral
    code [sponsorId] are generated values. *)
Definition create (fresh : ObjectId) (code : string)
    (first last mail phone pass sponsor : string) (gen : option string)
    (verified : bool) : doc :=
  mk fresh first last mail phone pass gen None verified 0
     None None None code sponsor [] 0.

End User.

(** ** The referral leveling walk: [updateSponsorLevels] *)
Module Leveling.

Import User.
Local Open Scope nat_scope.

(** The shape shared by the three [for ... of] loops of the function: each
    referral of the snapshot [refs] whose count of sub-referrals, read from
    the collection as it is at that iteration, reaches 3 and whose own
    level is below [target] is set to [target], saved, and counted. *)
Fixpoint promoteReferrals (target : nat)
    (subCount : list doc -> doc -> nat)
    (refs : list doc) (c : list doc) (total : nat) : list doc * nat :=
  match refs with
  | [] => (c, total)
  | referral :: rest =>
      if (3 <=? subCount c referral) && (level referral <? target)
      then promoteReferrals target subCount rest
             (saveLevel c (_id referral) target) (S total)
      else promoteReferrals target subCount rest c total
  end.

(** [User.find({ sponsorBy: referral.sponsorId }).length] *)
Definition subReferrals (c : list doc) (referral : doc) : nat :=
  List.length (findBySponsorBy c (sponsorId referral)).

(** [User.find({ sponsorBy: referral.sponsorId, level: l }).length] *)
Definition subReferralsAt (l : nat) (c : list doc) (referral : doc) : nat :=
  List.length (findByLevelAndSponsorBy c l (sponsorId referral)).

(** One evaluation of a loaded [user]: everything between [findById] and
    the recursive call.  [lv1] .. [lv5] follow the in-memory [user.level];
    the final [user.save()] writes it only if it was assigned. *)
Definition evaluate (c : list doc) (user : doc) : list doc :=
  let directReferrals := List.length (sponsorTree user) in
  let lv1 := if (3 <=? directReferrals) && (level user <? 1)
             then 1 else level user in
  let allReferrals := findBySponsorBy c (sponsorId user) in
  let '(c2, totalLevel2Referrals) :=
    promoteReferrals 2 subReferrals allReferrals c 0 in
  let lv2 := if (3 <=? totalLevel2Referrals) && (lv1 <? 2) then 2 else lv1 in
  let level3Referrals := findByLevelAndSponsorBy c2 2 (sponsorId user) in
  let '(c3, totalLevel3Referrals) :=
    promoteReferrals 3 (subReferralsAt 2) level3Referrals c2 0 in
  let lv3 := if (3 <=? totalLevel3Referrals) && (lv2 <? 3) then 3 else lv2 in
  let level4Referrals := findByLevelAndSponsorBy c3 3 (sponsorId user) in
  let '(c4, totalLevel4Referrals) :=
    promoteReferrals 4 (subReferralsAt 3) level4Referrals c3 0 in
  let lv4 := if (3 <=? totalLevel4Referrals) && (lv3 <? 4) then 4 else lv3 in
  let lv5 := if 4 <? lv4 then 4 else lv4 in
  if lv5 =? level user then c4 else saveLevel c4 (_id user) lv5.

(** [updateSponsorLevels(userId)].  The source recurses without a bound;
    [fuel] counts the evaluations still allowed.  The result carries the
    collection reached and whether the walk came to its end. *)
Fixpoint updateSponsorLevels (fuel : nat) (c : list doc) (userId : ObjectId)
    : bool * list doc :=
  match fuel with
  | 0 => (false, c)
  | S fuel' =>
      match findById c userId with
      | None => (true, c)
      | Some user =>
          let c' := evaluate c user in
          if String.eqb (sponsorBy user) "root" then (true, c')
          else match findOneBySponsorId c' (sponsorBy user) with
               | Some parentSponsor =>
                   updateSponsorLevels fuel' c' (_id parentSponsor)
               | None => (true, c')
               end
      end
  end.

(** The parent chain alone: does the walk from [userId] end within [fuel]
    evaluations? *)
Fixpoint walkEnds (fuel : nat) (c : list doc) (userId : ObjectId) : bool :=
  match fuel with
  | 0 => false
  | S fuel' =>
      match findById c userId with
      | None => true
      | Some user =>
          if String.eqb (sponsorBy user) "root" then true
          else match findOneBySponsorId c (sponsorBy user) with
               | Some parentSponsor => walkEnds fuel' c (_id parentSponsor)
               | None => true
               end
      end
  end.

End Leveling.

(** ** Persistent state and collaborators *)

(** What [sendMail] is handed, as far as it is kept: the recipient, the
    subject and the OTP.  The sender and the [text] and [html] bodies are
    left out; the bodies repeat the OTP and greet by the first and last
    name of the request. *)
Record Mail : Type := mkMail {
  mailTo : string;
  mailSubject : string;
  mailOtp : string
}.

Record Db : Type := mkDb {
  tempUsers : list TempUser.doc;
  users : list User.doc;
  outbox : list Mail
}.

Definition withTempUsers (db : Db) (t : list TempUser.doc) : Db :=
  mkDb t (users db) (outbox db).

Definition withUsers (db : Db) (u : list User.doc) : Db :=
  mkDb (tempUsers db) u (outbox db).

(** [transporter.sendMail(...)] that resolves. *)
Definition sendMail (db : Db) (m : Mail) : Db :=
  mkDb (tempUsers db) (users db) (outbox db ++ [m]).

(** [cloudinary.uploader.upload(path, { folder })] *)
Inductive Uploaded : Type :=
| SecureUrl (url : string)
| UploadError (message : string).

Definition Cloud := string -> string -> Uploaded.

(** The error kinds of the specification, as the handlers report them. *)
Definition NotFound : Response :=
  Throw (Some 404) "Invalid or expired temporary session".
Definition Expired : Response :=
  Throw (Some 400) "OTP has expired. Please restart registration.".
Definition InvalidOtp : Response :=
  Throw (Some 400) "Invalid OTP".
Definition Conflict : Response :=
  Throw (Some 400) "User already exists with this email or phone number".
Definition PermissionDenied : Response :=
  Json 403 "Complete KYC Level 1 first".
Definition NameValidationError : Response :=
  Throw (Some 400) "Full name must contain both first and last names".

(** ** Request bodies *)
Module SignupBody.
Record t : Type := mk {
  firstName : option string;
  lastName : option string;
  email : option string;
  phoneNumber : option string;
  password : option string;
  sponsorBy : option string;
  gender : option string
}.
End SignupBody.

Module VerifyBody.
Record t : Type := mk {
  tempId : option string;
  otp : option string;
  firstName : option string;
  lastName : option string;
  password : option string;
  sponsorBy : option string;
  gender : option string
}.
End VerifyBody.

Module KycBody.
Record t : Type := mk {
  userId : option ObjectId;
  fullName : option string;
  country : option string;
  gender : option string;
  frontImage : option string;
  backImage : option string;
  selfieImage : option string
}.
End KycBody.

(** ** The user controller *)
Module UserController.

(** Names bound at the top level of the module. *)
Definition moduleScope : list string :=
  ["User"; "TempUser"; "asyncHandler"; "nodemailer"; "cloudinary"; "jwt";
   "uuidv4"; "transporter"; "generateOTP"; "signupUser"; "verifyOTPUser";
   "loginUser"; "forgotPassword"; "resetPassword"; "submitKYC"; "logout";
   "resendOtp"; "updateSponsorLevels"].

(** [signupUser]; [tempId] is the value of [uuidv4()], [otp] that of
    [generateOTP()], [fresh] the ObjectId a created document receives and
    [mailError] the rejection of [sendMail], if any. *)
Definition signupUser (now : Z) (fresh : ObjectId) (tempId otp : string)
    (mailError : option string) (body : SignupBody.t) (db : Db)
    : Response * Db :=
  if negb (Js.truthy (SignupBody.firstName body)
           && Js.truthy (SignupBody.lastName body)
           && Js.truthy (SignupBody.email body)
           && Js.truthy (SignupBody.phoneNumber body)
           && Js.truthy (SignupBody.password body)
           && Js.truthy (SignupBody.sponsorBy body)
           && Js.truthy (SignupBody.gender body))
  then (Throw (Some 400) "All fields are required", db)
  else
    let email := Js.value (SignupBody.email body) in
    let phoneNumber := Js.value (SignupBody.phoneNumber body) in
    let written :=
      match TempUser.findOneByEmail (tempUsers db) email with
      | Some tempUser =>
          TempUser.saveTempIdOtp (tempUsers db)
            (TempUser.setTempIdOtp tempUser tempId otp)
      | None =>
          TempUser.create (tempUsers db) fresh now email phoneNumber
            tempId otp
      end in
    match written with
    | None => (Throw None TempUser.E11000, db)
    | Some temps =>
        let db1 := withTempUsers db temps in
        match mailError with
        | Some e => (Throw None e, db1)
        | None =>
            (Json 200 "OTP sent. Please verify to complete registration.",
             sendMail db1
               (mkMail email "Your OTP for Account Verification" otp))
        end
    end.

(** [verifyOTPUser]; [fresh] and [code] are the [_id] and the [sponsorId]
    the created user receives.  The response is [None] when the leveling
    walk has not come to its end within [fuel] evaluations: the handler is
    still awaiting it. *)
Definition verifyOTPUser (fuel : nat) (now : Z) (fresh : ObjectId)
    (code : string) (body : VerifyBody.t) (db : Db)
    : option Response * Db :=
  if negb (Js.truthy (VerifyBody.tempId body)
           && Js.truthy (VerifyBody.otp body)
           && Js.truthy (VerifyBody.firstName body)
           && Js.truthy (VerifyBody.lastName body)
           && Js.truthy (VerifyBody.password body)
           && Js.truthy (VerifyBody.sponsorBy body)
           && Js.truthy (VerifyBody.gender body))
  then (Some (Throw (Some 400)
                "All fields including tempId and OTP are required"), db)
  else
    let sponsorBy := Js.value (VerifyBody.sponsorBy body) in
    match TempUser.findOneByTempId (tempUsers db)
            (Js.value (VerifyBody.tempId body)) with
    | None => (Some NotFound, db)
    | Some tempUser =>
        if (now >? TempUser.createdAt tempUser + 10 * 60 * 1000)%Z
        then (Some Expired,
              withTempUsers db
                (TempUser.findByIdAndDelete (tempUsers db)
                   (TempUser._id tempUser)))
        else if negb (TempUser.otp tempUser
                      =? Js.value (VerifyBody.otp body))
        then (Some InvalidOtp, db)
        else
          match User.findOneByEmailOrPhone (users db)
                  (TempUser.email tempUser)
                  (TempUser.phoneNumber tempUser) with
          | Some _ => (Some Conflict, db)
          | None =>
              let user :=
                User.create fresh code
                  (Js.value (VerifyBody.firstName body))
                  (Js.value (VerifyBody.lastName body))
                  (TempUser.email tempUser)
                  (TempUser.phoneNumber tempUser)
                  (Js.value (VerifyBody.password body))
                  sponsorBy (VerifyBody.gender body) true in
              let created := users db ++ [user] in
              let cleaned :=
                TempUser.findByIdAndDelete (tempUsers db)
                  (TempUser._id tempUser) in
              let done := Json 201 "Registration completed successfully" in
              match User.findOneBySponsorId created sponsorBy with
              | Some sponsor =>
                  (* the push lands on the loaded copy of the sponsor;
                     that copy is never saved *)
                  let sponsor' :=
                    User.pushSponsorTree sponsor (User._id user) in
                  let '(ended, leveled) :=
                    Leveling.updateSponsorLevels fuel created
                      (User._id sponsor') in
                  if ended
                  then (Some done, mkDb cleaned leveled (outbox db))
                  else (None, withUsers db leveled)
              | None => (Some done, mkDb cleaned created (outbox db))
              end
          end
    end.

(** [resendOtp]; [newOtp] is the value of [generateOTP()].  The mail body
    is built from [firstName] and [lastName], which are resolved against
    the names in scope before [sendMail] is called. *)
Definition resendOtp (newOtp : string) (mailError : option string)
    (tempId : option string) (db : Db) : Response * Db :=
  if negb (Js.truthy tempId)
  then (Throw (Some 400) "tempId is required", db)
  else
    match TempUser.findOneByTempId (tempUsers db) (Js.value tempId) with
    | None => (NotFound, db)
    | Some tempUser =>
        let db1 :=
          withTempUsers db
            (TempUser.saveOtp (tempUsers db)
               (TempUser.setOtp tempUser newOtp)) in
        let scope :=
          ["req"; "res"; "tempId"; "tempUser"; "newOtp"] ++ moduleScope in
        if negb (Js.bound scope "firstName")
        then (Throw None (Js.referenceError "firstName"), db1)
        else if negb (Js.bound scope "lastName")
        then (Throw None (Js.referenceError "lastName"), db1)
        else
          match mailError with
          | Some e => (Throw None e, db1)
          | None =>
              (Json 200 "New OTP sent successfully",
               sendMail db1
                 (mkMail (TempUser.email tempUser)
                    "Your New OTP for Account Verification" newOtp))
          end
    end.

(** [submitKYC].  The copy in controllers/userController.js differs from
    the later one only in also setting [isVerified]; [alsoVerify] selects
    it. *)
Definition submitKYCWith (alsoVerify : bool) (cloud : Cloud)
    (body : KycBody.t) (db : Db) : Response * Db :=
  match KycBody.userId body, KycBody.frontImage body,
        KycBody.backImage body, KycBody.selfieImage body with
  | Some userId, Some frontImage, Some backImage, Some selfieImage =>
      if negb (Js.truthy (KycBody.fullName body)
               && Js.truthy (KycBody.country body))
      then (Throw (Some 400)
              "All fields including userId, full name, CNIC images, and selfie image are required",
            db)
      else
        let '(firstName, lastName) :=
          Js.destructure2
            (Js.filterBoolean
               (Js.split " " (Js.value (KycBody.fullName body)))) in
        if negb (Js.truthy firstName && Js.truthy lastName)
        then (NameValidationError, db)
        else
          match User.findById (users db) userId with
          | None =>
              (Throw (Some 404)
                 "User not found. Please provide a valid user ID.", db)
          | Some user =>
              match cloud frontImage "kyc/front" with
              | UploadError e => (Throw None e, db)
              | SecureUrl front =>
                  match cloud backImage "kyc/back" with
                  | UploadError e => (Throw None e, db)
                  | SecureUrl back =>
                      match cloud selfieImage "kyc/selfie" with
                      | UploadError e => (Throw None e, db)
                      | SecureUrl selfie =>
                          let user' :=
                            User.setKyc1 user (Js.value firstName)
                              (Js.value lastName) (KycBody.country body)
                              (KycBody.gender body) front back selfie
                              (alsoVerify || User.isVerified user) in
                          (Json 200 "KYC Level 1 completed successfully",
                           withUsers db (User.save (users db) user'))
                      end
                  end
              end
          end
  | _, _, _, _ =>
      (Throw (Some 400)
         "All fields including userId, full name, CNIC images, and selfie image are required",
       db)
  end.

Definition submitKYC := submitKYCWith false.
Definition submitKYC_controllers := submitKYCWith true.

End UserController.

(** ** The drivers controller *)
Module DriversController.

(** Names bound at the top level of the module: its three imports and its
    own functions. *)
Definition moduleScope : list string :=
  ["Vehicle"; "User"; "cloudinary"; "kycLevel1Check"; "uploadLicense";
   "handleVehicleDecision"; "registerVehicle"].

(** [uploadLicense]; [licenseImage] is [req.files.licenseImage[0].path]
    when the request carries the file.  Everything from the upload on runs
    inside the [try]: whatever is thrown there is answered with status
    500 and the error's message. *)
Definition uploadLicense (cloud : Cloud) (userId : option ObjectId)
    (licenseImage : option string) (db : Db) : Response * Db :=
  match match userId with
        | Some i => User.findById (users db) i
        | None => None
        end with
  | None => (Json 404 "User not found", db)
  | Some user =>
      if (User.kycLevel user <? 1)%nat then (PermissionDenied, db)
      else
        match licenseImage with
        | None => (Json 400 "License image is required for KYC Level 2", db)
        | Some path =>
            match cloud path "kyc/license" with
            | UploadError e => (Json 500 e, db)
            | SecureUrl url =>
                let db1 :=
                  withUsers db
                    (User.save (users db) (User.setLicense user url)) in
                let scope :=
                  ["req"; "res"; "userId"; "licenseImage"; "user";
                   "uploadResult"] ++ moduleScope in
                if negb (Js.bound scope "jwt")
                then (Json 500 (Js.referenceError "jwt"), db1)
                else (Json 200 "KYC Level 2 (License) uploaded successfully",
                      db1)
            end
        end
  end.

End DriversController.

(** ** Histories of the persistent state *)
Module History.

(** An admission is one call of [verifyOTPUser]; a leveling run is one
    call of [updateSponsorLevels] on the stored users. *)
Inductive Op : Type :=
| Admit (fuel : nat) (now : Z) (fresh : ObjectId) (code : string)
    (body : VerifyBody.t)
| Relevel (fuel : nat) (userId : ObjectId).

Definition step (db : Db) (op : Op) : Db :=
  match op with
  | Admit fuel now fresh code body =>
      snd (UserController.verifyOTPUser fuel now fresh code body db)
  | Relevel fuel userId =>
      withUsers db
        (snd (Leveling.updateSponsorLevels fuel (users db) userId))
  end.

Definition run (ops : list Op) (db : Db) : Db := fold_left step ops db.

End History.

(** ** Reading a collection *)

(** A document with its level blanked: what the leveling walk never
    changes. *)
Definition shape (u : User.doc) : User.doc := User.setLevel u 0.

Definition levelOf (c : list User.doc) (i : ObjectId) : option nat :=
  option_map User.level (User.findById c i).

Definition sponsorTreeOf (c : list User.doc) (i : ObjectId)
    : option (list ObjectId) :=
  option_map User.sponsorTree (User.findById c i).

Definition kycLevelOf (c : list User.doc) (i : ObjectId) : option nat :=
  option_map User.kycLevel (User.findById c i).

(** The sponsor network is a forest: identifiers and referral codes are
    unique and no user carries the code of the synthetic root. *)
Definition forest (c : list User.doc) : Prop :=
  NoDup (map User._id c) /\ NoDup (map User.sponsorId c)
  /\ Forall (fun u => User.sponsorId u <> "root") c.

Definition capped (c : list User.doc) : Prop :=
  Forall (fun u => (User.level u <= 4)%nat) c.

(** ** Sample data *)
Module Sample.

Definition member (i : ObjectId) (code sponsor : string)
    (tree : list ObjectId) (l : nat) : User.doc :=
  User.mk i "Ada" "Khan" ("u" ++ code ++ "@x.io")%string ("+92" ++ code)%string "pw"
    (Some "f") None true 0 None None None code sponsor tree l.

Definition pending (i : ObjectId) (n : string) (at_ : Z) : TempUser.doc :=
  TempUser.mk i ("c" ++ n ++ "@x.io")%string ("+1" ++ n)%string
    ("T" ++ n)%string ("11111" ++ n)%string
    at_.

Definition verifyBody (n sponsor : string) : VerifyBody.t :=
  VerifyBody.mk (Some ("T" ++ n)%string) (Some ("11111" ++ n)%string)
    (Some "Bea")
    (Some "Roy") (Some "pw") (Some sponsor) (Some "f").

Definition signupBody (mail phone : string) : SignupBody.t :=
  SignupBody.mk (Some "Bea") (Some "Roy") (Some mail) (Some phone)
    (Some "pw") (Some "root") (Some "f").

(** A sponsor with code N and three pending registrations. *)
Definition threePending : Db :=
  mkDb [pending 100 "1" 0; pending 101 "2" 0; pending 102 "3" 0]
       [member 1 "N" "root" [] 0] [].

Definition threeAdmissions : list History.Op :=
  [History.Admit 5 1000 11 "A" (verifyBody "1" "N");
   History.Admit 5 2000 12 "B" (verifyBody "2" "N");
   History.Admit 5 3000 13 "C" (verifyBody "3" "N")].

(** P sponsors C, and C has three referrals of its own. *)
Definition twoGenerations : list User.doc :=
  [member 0 "P" "root" [] 0; member 1 "C" "P" [] 0;
   member 2 "G1" "C" [] 0; member 3 "G2" "C" [] 0; member 4 "G3" "C" [] 0].

(** A user whose stored [sponsorTree] lists three referrals. *)
Definition threeListed : list User.doc :=
  [member 1 "N" "root" [11; 12; 13] 0; member 11 "A" "N" [] 0;
   member 12 "B" "N" [] 0; member 13 "C" "N" [] 0].

Definition oneSession : Db :=
  mkDb [pending 100 "1" 0] [member 1 "N" "root" [] 0] [].

Definition cloudOk : Cloud := fun path folder => SecureUrl (folder ++ "/" ++ path)%string.

Definition kycBody (i : ObjectId) (name : string) : KycBody.t :=
  KycBody.mk (Some i) (Some name) (Some "PK") (Some "f")
    (Some "front.png") (Some "back.png") (Some "selfie.png").

Definition atKyc (k : nat) : Db :=
  mkDb []
    [User.mk 7 "Ada" "Khan" "a@x.io" "+921" "pw" (Some "f") (Some "PK")
       true k None None None "N" "root" [] 0] [].

End Sample.

Local Open Scope nat_scope.

(** [c'] holds the documents of [c], position by position, with levels
    that are nowhere lower. *)
Definition raised (c c' : list User.doc) : Prop :=
  Forall2 (fun u u' => shape u = shape u' /\ (User.level u <= User.level u')%nat)
    c c'.

(** What Mongo and the three unique indexes of the schema guarantee of the
    stored sessions. *)
Definition indexed (c : list TempUser.doc) : Prop :=
  NoDup (map TempUser._id c) /\ NoDup (map TempUser.email c)
  /\ NoDup (map TempUser.phoneNumber c) /\ NoDup (map TempUser.tempId c).

(** ** Reading one evaluation of the leveling walk *)

(** The test of the three loops. *)
Definition qualifies (target : nat) (subCount : list User.doc -> User.doc -> nat)
    (c : list User.doc) (r : User.doc) : bool :=
  (3 <=? subCount c r) && (User.level r <? target).

(** What a loop over the answer to the query [sel] amounts to when no
    count changes under way: every selected, qualifying document gets the
    target level. *)
Definition promoted (target : nat) (sel : User.doc -> bool)
    (subCount : list User.doc -> User.doc -> nat) (c : list User.doc)
    : list User.doc :=
  map (fun w => if sel w && qualifies target subCount c w
                then User.setLevel w target else w) c.

(** [c'] differs from [c] at most in the levels of the users that [may]
    admits. *)
Definition touches (may : User.doc -> Prop) (c c' : list User.doc) : Prop :=
  Forall2 (fun w w' => shape w = shape w' /\ (w' = w \/ may w)) c c'.

(** An evaluation of [u] on [c] would find nothing to do. *)
Definition stable (c : list User.doc) (u : User.doc) : Prop :=
  ~ (3 <= List.length (User.sponsorTree u) /\ User.level u < 1)
  /\ User.level u <= 4
  /\ forall x, In x c -> User.sponsorBy x = User.sponsorId u ->
       ~ (3 <= Leveling.subReferrals c x /\ User.level x < 2)
       /\ (User.level x = 2 -> Leveling.subReferralsAt 2 c x < 3)
       /\ (User.level x = 3 -> Leveling.subReferralsAt 3 c x < 3).

Definition stableAt (c : list User.doc) (i : ObjectId) : Prop :=
  forall u, User.findById c i = Some u -> stable c u.

(** The number of evaluations the walk from [userId] makes, when it ends
    within [fuel]. *)
Fixpoint walkLength (fuel : nat) (c : list User.doc) (userId : ObjectId)
    : option nat :=
  match fuel with
  | 0 => None
  | S fuel' =>
      match User.findById c userId with
      | None => Some 0
      | Some user =>
          if String.eqb (User.sponsorBy user) "root" then Some 1
          else match User.findOneBySponsorId c (User.sponsorBy user) with
               | Some parentSponsor =>
                   option_map S (walkLength fuel' c (User._id parentSponsor))
               | None => Some 1
               end
      end
  end.

(** * The other handlers

    [loginUser], [forgotPassword] and [resetPassword] of the user
    controller, the earlier copy of the user controller in
    controllers/userController.js, and [kycLevel1Check],
    [handleVehicleDecision] and [registerVehicle] of the drivers controller
    with the Vehicle schema. *)

(** ** Paths of the User document beyond those of [User.doc] *)

(** A string path that may never have been set, or been set to [null]. *)
Inductive Stored : Type :=
| Unset
| Null
| Held (s : string).

(** [stored !== given], where an absent body field is [undefined]. *)
Definition differs (stored : Stored) (given : option string) : bool :=
  match stored, given with
  | Unset, None => false
  | Held a, Some b => negb (a =? b)%string
  | _, _ => true
  end.

(** ** models/vehicleModel.js *)
Module Vehicle.

Record doc : Type := mk {
  _id : ObjectId;
  userId : ObjectId;
  licenseImage : option string;
  vehicleRegistrationCardFront : option string;
  vehicleRegistrationCardBack : option string;
  roadAuthorityCertificate : option string;
  vehicleOwnerName : option string;
  companyName : option string;
  vehiclePlateNumber : option string;
  vehicleMakeModel : option string;
  chassisNumber : option string;
  vehicleColor : option string;
  registrationExpiryDate : option Z;
  insuranceCertificate : option string;
  vehicleType : option string;
  vehicleImages : list string;
  createdAt : Z
}.

End Vehicle.

(** Modelled from the spec: models/userModel.js is not part of the
    sources.  The User document also has the paths [otp], [resetOtp],
    [resetOtpExpires] and [role], one of customer and driver; they are
    kept here as one column per path, keyed by [_id], beside the
    collections. *)
Module Site.

Record t : Type := mk {
  db : Db;
  otp : ObjectId -> Stored;
  resetOtp : ObjectId -> Stored;
  resetOtpExpires : ObjectId -> option Z;
  role : ObjectId -> string;
  vehicles : list Vehicle.doc
}.

(** Writing a path of the document [i]. *)
Definition put {A : Type} (col : ObjectId -> A) (i : ObjectId) (v : A)
    : ObjectId -> A :=
  fun j => if (j =? i)%nat then v else col j.

Definition withDb (s : t) (d : Db) : t :=
  mk d (otp s) (resetOtp s) (resetOtpExpires s) (role s) (vehicles s).

Definition withOtp (s : t) (i : ObjectId) (v : Stored) : t :=
  mk (db s) (put (otp s) i v) (resetOtp s) (resetOtpExpires s) (role s)
     (vehicles s).

Definition withReset (s : t) (i : ObjectId) (v : Stored) (e : option Z) : t :=
  mk (db s) (otp s) (put (resetOtp s) i v) (put (resetOtpExpires s) i e)
     (role s) (vehicles s).

Definition withRole (s : t) (i : ObjectId) (r : string) : t :=
  mk (db s) (otp s) (resetOtp s) (resetOtpExpires s) (put (role s) i r)
     (vehicles s).

Definition withVehicle (s : t) (v : Vehicle.doc) : t :=
  mk (db s) (otp s) (resetOtp s) (resetOtpExpires s) (role s)
     (vehicles s ++ [v]).

End Site.

(** [user.password = password] *)
Definition setPassword (u : User.doc) (p : string) : User.doc :=
  User.mk (User._id u) (User.firstName u) (User.lastName u) (User.email u)
    (User.phoneNumber u) p (User.gender u) (User.country u)
    (User.isVerified u) (User.kycLevel u) (User.cnicImages u)
    (User.selfieImage u) (User.licenseImage u) (User.sponsorId u)
    (User.sponsorBy u) (User.sponsorTree u) (User.level u).

(** [user.isVerified = true] *)
Definition setVerified (u : User.doc) : User.doc :=
  User.mk (User._id u) (User.firstName u) (User.lastName u) (User.email u)
    (User.phoneNumber u) (User.password u) (User.gender u) (User.country u)
    true (User.kycLevel u) (User.cnicImages u)
    (User.selfieImage u) (User.licenseImage u) (User.sponsorId u)
    (User.sponsorBy u) (User.sponsorTree u) (User.level u).

(** A condition [{ path: given }] of a query on a path every stored user
    holds as a string: an absent value selects nobody. *)
Definition selects (held : string) (given : option string) : bool :=
  match given with
  | Some v => (held =? v)%string
  | None => false
  end.

(** [given === literal] for a body field and a string literal. *)
Definition strictEq (given : option string) (literal : string) : bool :=
  match given with
  | Some v => (v =? literal)%string
  | None => false
  end.

(** [User.findOne({ $or: [{ email }, { phoneNumber }] })] with the values
    as the body gave them. *)
Definition findOneByEmailOrPhoneGiven (c : list User.doc)
    (e p : option string) : option User.doc :=
  find (fun u => selects (User.email u) e || selects (User.phoneNumber u) p) c.

(** [User.findOne({ email })] *)
Definition findOneByEmail (c : list User.doc) (e : string) : option User.doc :=
  find (fun u => (User.email u =? e)%string) c.

(** Modelled from the spec: models/userModel.js is not part of the
    sources.  [user.comparePassword(candidate)] is a method of that model;
    it stands here for the relation between the value a controller
    assigned to [password] and a candidate, whatever the model stores. *)
Definition ComparePassword := string -> string -> bool.

(** ** The rest of the user controller *)
Module Accounts.

(** [loginUser]; the two copies differ in the message for an unverified
    user only. *)
Definition loginUserWith (unverified : string) (compare : ComparePassword)
    (email phoneNumber password : option string) (c : list User.doc)
    : Response :=
  if (negb (Js.truthy email) && negb (Js.truthy phoneNumber))
     || negb (Js.truthy password)
  then Throw (Some 400) "Email or phone number and password are required"
  else
    match findOneByEmailOrPhoneGiven c email phoneNumber with
    | None => Throw (Some 401) "Invalid email or phone number"
    | Some user =>
        if negb (User.isVerified user)
        then Throw (Some 403) unverified
        else if negb (compare (User.password user) (Js.value password))
        then Throw (Some 401) "Invalid password"
        else Json 200 "Login successful"
    end.

Definition loginUser :=
  loginUserWith "User not verified. Please complete registration.".

(** [forgotPassword]; [otp] is the value of [generateOTP()]. *)
Definition forgotPassword (now : Z) (otp : string)
    (mailError : option string) (email : option string) (s : Site.t)
    : Response * Site.t :=
  if negb (Js.truthy email)
  then (Throw (Some 400) "Email is required", s)
  else
    match findOneByEmail (users (Site.db s)) (Js.value email) with
    | None => (Throw (Some 404) "User not found", s)
    | Some user =>
        let s1 :=
          Site.withReset s (User._id user) (Held otp)
            (Some (now + 10 * 60 * 1000)%Z) in
        match mailError with
        | Some e => (Throw None e, s1)
        | None =>
            (Json 200 "Reset OTP sent to email",
             Site.withDb s1
               (sendMail (Site.db s1)
                  (mkMail (Js.value email) "Your OTP for Password Reset"
                     otp)))
        end
    end.

(** [resetPassword] *)
Definition resetPassword (now : Z) (userId : option ObjectId)
    (resetOtp password : option string) (s : Site.t) : Response * Site.t :=
  match userId with
  | Some i =>
      if negb (Js.truthy resetOtp && Js.truthy password)
      then (Throw (Some 400)
              "User ID, reset OTP, and password are required", s)
      else
        match User.findById (users (Site.db s)) i with
        | None => (Throw (Some 404) "User not found", s)
        | Some user =>
            if differs (Site.resetOtp s (User._id user)) resetOtp
               || match Site.resetOtpExpires s (User._id user) with
                  | None => true
                  | Some expires => (expires <? now)%Z
                  end
            then (Throw (Some 400) "Invalid or expired reset OTP", s)
            else
              let s1 :=
                Site.withDb s
                  (withUsers (Site.db s)
                     (User.save (users (Site.db s))
                        (setPassword user (Js.value password)))) in
              (Json 200 "Password reset successful",
               Site.withReset s1 (User._id user) Null None)
        end
  | None =>
      (Throw (Some 400) "User ID, reset OTP, and password are required", s)
  end.

End Accounts.

(** ** controllers/userController.js: the earlier copy *)
Module FirstUserController.

(** [signupUser]: the user is created at once, with the OTP on the
    document and [isVerified] at its default, false, which
    [verifyOTPUser] and [loginUser] of this copy test.  [fresh] and
    [code] are the [_id] and the [sponsorId] the created user receives,
    [otp] the value of [generateOTP()]. *)
Definition signupUser (fresh : ObjectId) (code otp : string)
    (mailError : option string) (body : SignupBody.t) (s : Site.t)
    : Response * Site.t :=
  if negb (Js.truthy (SignupBody.firstName body)
           && Js.truthy (SignupBody.lastName body)
           && Js.truthy (SignupBody.email body)
           && Js.truthy (SignupBody.phoneNumber body)
           && Js.truthy (SignupBody.password body)
           && Js.truthy (SignupBody.sponsorBy body))
  then (Throw (Some 400) "All fields are required", s)
  else
    match findOneByEmailOrPhoneGiven (users (Site.db s))
            (SignupBody.email body) (SignupBody.phoneNumber body) with
    | Some _ => (Conflict, s)
    | None =>
        let user :=
          User.create fresh code
            (Js.value (SignupBody.firstName body))
            (Js.value (SignupBody.lastName body))
            (Js.value (SignupBody.email body))
            (Js.value (SignupBody.phoneNumber body))
            (Js.value (SignupBody.password body))
            (Js.value (SignupBody.sponsorBy body))
            (SignupBody.gender body) false in
        let s1 :=
          Site.withOtp
            (Site.withDb s
               (withUsers (Site.db s) (users (Site.db s) ++ [user])))
            fresh (Held otp) in
        match mailError with
        | Some e => (Throw None e, s1)
        | None =>
            (Json 201 "User registered. Verify OTP sent to your email.",
             Site.withDb s1
               (sendMail (Site.db s1)
                  (mkMail (Js.value (SignupBody.email body))
                     "Your OTP for Account Verification" otp)))
        end
    end.

(** [verifyOTPUser]: by user id, with no clock involved. *)
Definition verifyOTPUser (userId : option ObjectId) (otp : option string)
    (s : Site.t) : Response * Site.t :=
  match match userId with
        | Some i => User.findById (users (Site.db s)) i
        | None => None
        end with
  | None => (Throw (Some 404) "User not found", s)
  | Some user =>
      if User.isVerified user
      then (Throw (Some 400) "User already verified", s)
      else if differs (Site.otp s (User._id user)) otp
      then (InvalidOtp, s)
      else
        (Json 200 "OTP verified successfully",
         Site.withOtp
           (Site.withDb s
              (withUsers (Site.db s)
                 (User.save (users (Site.db s)) (setVerified user))))
           (User._id user) Null)
  end.

Definition loginUser :=
  Accounts.loginUserWith "Please verify your email with OTP".

End FirstUserController.

(** ** The rest of the drivers controller *)
Module VehicleBody.
Record t : Type := mk {
  userId : option ObjectId;
  licenseImage : option string;
  vehicleRegistrationCard : option (option string * option string);
  roadAuthorityCertificate : option string;
  vehicleOwnerName : option string;
  companyName : option string;
  vehiclePlateNumber : option string;
  vehicleMakeModel : option string;
  chassisNumber : option string;
  vehicleColor : option string;
  registrationExpiryDate : option string;
  insuranceCertificate : option string;
  vehicleType : option string;
  vehicleImages : option (list string)
}.
End VehicleBody.

(** [req.files]: the path of the first file of each field, and the paths
    of the vehicle images. *)
Module VehicleFiles.
Record t : Type := mk {
  licenseImage : option string;
  vehicleRegistrationCardFront : option string;
  vehicleRegistrationCardBack : option string;
  roadAuthorityCertificate : option string;
  insuranceCertificate : option string;
  vehicleImages : option (list string)
}.
End VehicleFiles.

Module Vehicles.

(** [kycLevel1Check]: [None] stands for [next()]. *)
Definition kycLevel1Check (authenticated : ObjectId) (c : list User.doc)
    : option Response :=
  match User.findById c authenticated with
  | Some user =>
      if (User.kycLevel user <? 1)%nat
      then Some (Json 403
                   "KYC Level 1 must be completed before proceeding to Level 2")
      else None
  | None =>
      Some (Json 403
              "KYC Level 1 must be completed before proceeding to Level 2")
  end.

Definition KycLevel2Required : Response :=
  Json 403 "Complete KYC Level 2 first".

(** [handleVehicleDecision].  The handler has no [try] and is not
    wrapped: what is thrown leaves it as a rejection. *)
Definition handleVehicleDecision (userId : option ObjectId)
    (hasVehicle : option string) (s : Site.t) : Response * Site.t :=
  match match userId with
        | Some i => User.findById (users (Site.db s)) i
        | None => None
        end with
  | None => (KycLevel2Required, s)
  | Some user =>
      if (User.kycLevel user <? 2)%nat then (KycLevel2Required, s)
      else
        let scope :=
          ["req"; "res"; "userId"; "hasVehicle"; "user"]
          ++ DriversController.moduleScope in
        if strictEq hasVehicle "no"
        then
          let s1 := Site.withRole s (User._id user) "driver" in
          if negb (Js.bound scope "jwt")
          then (Throw None (Js.referenceError "jwt"), s1)
          else (Json 200
                  "Role updated to driver. You can switch back to customer and book rides.",
                s1)
        else if strictEq hasVehicle "yes"
        then
          if negb (Js.bound scope "jwt")
          then (Throw None (Js.referenceError "jwt"), s)
          else (Json 200
                  "Please register your vehicle (all fields are optional)",
                s)
        else (Json 400 "Please select Yes or No for vehicle ownership", s)
  end.

(** [req.files?.x ? await uploadToCloudinary(req.files.x[0]) : given] *)
Definition uploadOr (cloud : Cloud) (file given : option string)
    : string + option string :=
  match file with
  | Some path =>
      match cloud path "vehicles" with
      | SecureUrl url => inr (Some url)
      | UploadError e => inl e
      end
  | None => inr given
  end.

(** [Promise.all(files.map(uploadToCloudinary))]; the storage is taken to
    answer in the order of the requests, so that the first failure in the
    list is the one reported. *)
Fixpoint uploadAll (cloud : Cloud) (paths : list string)
    : string + list string :=
  match paths with
  | [] => inr []
  | path :: rest =>
      match cloud path "vehicles" with
      | UploadError e => inl e
      | SecureUrl url =>
          match uploadAll cloud rest with
          | inl e => inl e
          | inr urls => inr (url :: urls)
          end
      end
  end.

(** The message of the schema's refusal of an invalid date, in short. *)
Definition CastToDateFailed : string := "Cast to date failed".

(** [registerVehicle]; [fresh] is the [_id] the created vehicle receives
    and [parseDate] stands for [new Date(string)], [None] being an
    invalid date, which the schema refuses on [save].  All of it from the
    uploads on runs inside the [try]. *)
Definition registerVehicle (cloud : Cloud) (parseDate : string -> option Z)
    (now : Z) (fresh : ObjectId) (body : VehicleBody.t)
    (files : VehicleFiles.t) (s : Site.t) : Response * Site.t :=
  match match VehicleBody.userId body with
        | Some i => User.findById (users (Site.db s)) i
        | None => None
        end,
        VehicleBody.userId body with
  | Some user, Some userId =>
      if (User.kycLevel user <? 2)%nat then (KycLevel2Required, s)
      else
        match uploadOr cloud (VehicleFiles.licenseImage files)
                (VehicleBody.licenseImage body) with
        | inl e => (Json 500 e, s)
        | inr uploadedLicenseImage =>
        match uploadOr cloud (VehicleFiles.vehicleRegistrationCardFront files)
                (match VehicleBody.vehicleRegistrationCard body with
                 | Some card => fst card
                 | None => None
                 end) with
        | inl e => (Json 500 e, s)
        | inr vehicleRegistrationCardFront =>
        match uploadOr cloud (VehicleFiles.vehicleRegistrationCardBack files)
                (match VehicleBody.vehicleRegistrationCard body with
                 | Some card => snd card
                 | None => None
                 end) with
        | inl e => (Json 500 e, s)
        | inr vehicleRegistrationCardBack =>
        match uploadOr cloud (VehicleFiles.roadAuthorityCertificate files)
                (VehicleBody.roadAuthorityCertificate body) with
        | inl e => (Json 500 e, s)
        | inr roadAuthorityCertificateUrl =>
        match uploadOr cloud (VehicleFiles.insuranceCertificate files)
                (VehicleBody.insuranceCertificate body) with
        | inl e => (Json 500 e, s)
        | inr insuranceCertificateUrl =>
        match match VehicleFiles.vehicleImages files with
              | Some paths => uploadAll cloud paths
              | None =>
                  inr match VehicleBody.vehicleImages body with
                      | Some given => given
                      | None => []
                      end
              end with
        | inl e => (Json 500 e, s)
        | inr vehicleImagesUrls =>
        match match VehicleBody.registrationExpiryDate body with
              | Some d =>
                  if (d =? "")%string then Some None
                  else option_map Some (parseDate d)
              | None => Some None
              end with
        | None => (Json 500 CastToDateFailed, s)
        | Some registrationExpiryDate =>
            let vehicle :=
              Vehicle.mk fresh userId uploadedLicenseImage
                vehicleRegistrationCardFront vehicleRegistrationCardBack
                roadAuthorityCertificateUrl
                (VehicleBody.vehicleOwnerName body)
                (VehicleBody.companyName body)
                (VehicleBody.vehiclePlateNumber body)
                (VehicleBody.vehicleMakeModel body)
                (VehicleBody.chassisNumber body)
                (VehicleBody.vehicleColor body)
                registrationExpiryDate insuranceCertificateUrl
                (VehicleBody.vehicleType body) vehicleImagesUrls now in
            let s1 :=
              Site.withRole (Site.withVehicle s vehicle) (User._id user)
                "driver" in
            let scope :=
              ["req"; "res"; "userId"; "licenseImage";
               "vehicleRegistrationCard"; "roadAuthorityCertificate";
               "vehicleOwnerName"; "companyName"; "vehiclePlateNumber";
               "vehicleMakeModel"; "chassisNumber"; "vehicleColor";
               "registrationExpiryDate"; "insuranceCertificate";
               "vehicleType"; "vehicleImages"; "user";
               "uploadToCloudinary"; "uploadedLicenseImage";
               "vehicleRegistrationCardFront";
               "vehicleRegistrationCardBack"; "roadAuthorityCertificateUrl";
               "insuranceCertificateUrl"; "vehicleImagesUrls";
               "vehicleData"; "vehicle"]
              ++ DriversController.moduleScope in
            if negb (Js.bound scope "jwt")
            then (Json 500 (Js.referenceError "jwt"), s1)
            else (Json 201 "Vehicle registered successfully", s1)
        end end end end end end end
  | _, _ => (KycLevel2Required, s)
  end.

End Vehicles.

(** ** routes/driversRoutes.js *)

(** What multer leaves on the request for the handler. *)
Module Multer.

Record Request : Type := mk {
  file : option string;
  files : option (list (string * list string))
}.

(** [upload.single(name)]: the path of the file posted under [name], if
    the request carries one, goes to [req.file]; [req.files] is not
    set. *)
Definition single (posted : option string) : Request := mk posted None.

(** [req.files?.name ? req.files.name[0] : null] in a handler. *)
Definition first (req : Request) (name : string) : option string :=
  match files req with
  | Some fields =>
      match find (fun f => (fst f =? name)%string) fields with
      | Some (_, path :: _) => Some path
      | _ => None
      end
  | None => None
  end.

End Multer.

Module DriversRoutes.

(** [router.post("/upload-license", authHandler,
    upload.single("licenseImage"), uploadLicense)], the same in both
    copies of the routes, for a request that the authentication lets
    through; [posted] is the path of the file posted as
    [licenseImage]. *)
Definition uploadLicense (cloud : Cloud) (userId : option ObjectId)
    (posted : option string) (db : Db) : Response * Db :=
  let req := Multer.single posted in
  DriversController.uploadLicense cloud userId
    (Multer.first req "licenseImage") db.

End DriversRoutes.

(** ** Requests as the routes deliver them

    The requests that reach a handler of the user controller or of the
    drivers controller through userRoutes.js and driversRoutes.js and can
    write: [login] and [logout] write nothing, and a request that the
    authentication refuses reaches no handler.  The later copy of
    driversRoutes.js also mounts [updateVehicle], [getUserVehicleInfo]
    and [getCurrentUser], which the drivers controller of the sources
    does not define; they have no request here. *)
Module Routed.

Inductive Request : Type :=
| Signup (now : Z) (fresh : ObjectId) (tempId otp : string)
    (mailError : option string) (body : SignupBody.t)
| VerifyOtp (fuel : nat) (now : Z) (fresh : ObjectId) (code : string)
    (body : VerifyBody.t)
| ResendOtp (newOtp : string) (mailError : option string)
    (tempId : option string)
| ForgotPassword (now : Z) (otp : string) (mailError : option string)
    (email : option string)
| ResetPassword (now : Z) (userId : option ObjectId)
    (resetOtp password : option string)
| SubmitKyc (cloud : Cloud) (body : KycBody.t)
| UploadLicense (cloud : Cloud) (userId : option ObjectId)
    (posted : option string)
| VehicleDecision (userId : option ObjectId) (hasVehicle : option string)
| RegisterVehicle (cloud : Cloud) (parseDate : string -> option Z)
    (now : Z) (fresh : ObjectId) (body : VehicleBody.t)
    (files : VehicleFiles.t).

Definition serve (s : Site.t) (q : Request) : Site.t :=
  match q with
  | Signup now fresh tempId otp mailError body =>
      Site.withDb s
        (snd (UserController.signupUser now fresh tempId otp mailError body
                (Site.db s)))
  | VerifyOtp fuel now fresh code body =>
      Site.withDb s
        (snd (UserController.verifyOTPUser fuel now fresh code body
                (Site.db s)))
  | ResendOtp newOtp mailError tempId =>
      Site.withDb s
        (snd (UserController.resendOtp newOtp mailError tempId (Site.db s)))
  | ForgotPassword now otp mailError email =>
      snd (Accounts.forgotPassword now otp mailError email s)
  | ResetPassword now userId resetOtp password =>
      snd (Accounts.resetPassword now userId resetOtp password s)
  | SubmitKyc cloud body =>
      Site.withDb s
        (snd (UserController.submitKYC cloud body (Site.db s)))
  | UploadLicense cloud userId posted =>
      Site.withDb s
        (snd (DriversRoutes.uploadLicense cloud userId posted (Site.db s)))
  | VehicleDecision userId hasVehicle =>
      snd (Vehicles.handleVehicleDecision userId hasVehicle s)
  | RegisterVehicle cloud parseDate now fresh body files =>
      snd (Vehicles.registerVehicle cloud parseDate now fresh body files s)
  end.

Definition run (qs : list Request) (s : Site.t) : Site.t :=
  fold_left serve qs s.

End Routed.

(** No stored user is beyond KYC level 1. *)
Definition belowLevel2 (c : list User.doc) : Prop :=
  Forall (fun u => User.kycLevel u <= 1) c.

(** ** Reading the walk *)

(** The users the walk from [userId] evaluates, in order, as far as [fuel]
    reaches. *)
Fixpoint trail (fuel : nat) (c : list User.doc) (userId : ObjectId)
    : list ObjectId :=
  match fuel with
  | 0 => []
  | S fuel' =>
      match User.findById c userId with
      | None => []
      | Some user =>
          userId ::
          (if String.eqb (User.sponsorBy user) "root" then []
           else match User.findOneBySponsorId c (User.sponsorBy user) with
                | Some parentSponsor => trail fuel' c (User._id parentSponsor)
                | None => []
                end)
      end
  end.

(** No stored child list has an entry. *)
Definition childless (c : list User.doc) : Prop :=
  Forall (fun u => User.sponsorTree u = []) c.

(** Users in the order they were stored, none of them naming as sponsor
    its own code or the code of a user stored after it: every [sponsorBy]
    that names a stored user names an earlier one. *)
Inductive seniority : list User.doc -> Prop :=
| seniority_nil : seniority []
| seniority_snoc (c : list User.doc) (u : User.doc) :
    seniority c ->
    User.sponsorBy u <> User.sponsorId u ->
    (forall w, In w c -> User.sponsorBy w <> User.sponsorId u) ->
    seniority (c ++ [u]).

(** ** More sample data *)
Module Fixture.

(** A sponsor with two referrals, both in its stored child list. *)
Definition twoReferrals : list User.doc :=
  [Sample.member 1 "N" "root" [11; 12] 0; Sample.member 11 "A" "N" [] 0;
   Sample.member 12 "B" "N" [] 0].

(** P sponsors C, C has two referrals, and two registrations are
    pending. *)
Definition thirdPending : Db :=
  mkDb [Sample.pending 100 "1" 0; Sample.pending 101 "2" 0]
    [Sample.member 0 "P" "root" [] 0; Sample.member 1 "C" "P" [] 0;
     Sample.member 2 "G1" "C" [] 0; Sample.member 3 "G2" "C" [] 0] [].

(** The user of [Sample.atKyc]. *)
Definition ada (k : nat) : User.doc :=
  User.mk 7 "Ada" "Khan" "a@x.io" "+921" "pw" (Some "f") (Some "PK")
    true k None None None "N" "root" [] 0.

Definition site (d : Db) : Site.t :=
  Site.mk d (fun _ => Unset) (fun _ => Unset) (fun _ => None)
    (fun _ => "customer") [].

(** Plain comparison stands in for the user model's [comparePassword]. *)
Definition samePassword : ComparePassword := String.eqb.

Definition noBody (i : ObjectId) : VehicleBody.t :=
  VehicleBody.mk (Some i) None None None None None None None None None None
    None None None.

Definition noFiles : VehicleFiles.t :=
  VehicleFiles.mk None None None None None None.

Definition noDate : string -> option Z := fun _ => None.

Definition cloudDown : Cloud := fun _ _ => UploadError "storage is down".

End Fixture.

(** * Properties *)

(** ** What the leveling walk leaves alone *)
Section ShapeFacts.

Import User Leveling.

Lemma shape_setLevel (u : doc) (l : nat) : shape (setLevel u l) = shape u.
Proof. reflexivity. Qed.

Lemma shape_saveLevel (c : list doc) (i : ObjectId) (l : nat) :
  map shape (saveLevel c i l) = map shape c.
Proof.
  unfold saveLevel. rewrite map_map. apply map_ext.
  intros u. destruct (_id u =? i); reflexivity.
Qed.

Lemma shape_promoteReferrals target subCount refs :
  forall c total,
    map shape (fst (promoteReferrals target subCount refs c total))
    = map shape c.
Proof.
  induction refs as [|r rest IH]; intros c total; cbn [promoteReferrals];
    [reflexivity|].
  destruct ((3 <=? subCount c r) && (level r <? target)).
  - rewrite IH. apply shape_saveLevel.
  - apply IH.
Qed.

Lemma shape_evaluate (c : list doc) (user : doc) :
  map shape (evaluate c user) = map shape c.
Proof.
  unfold evaluate.
  destruct (promoteReferrals 2 _ _ c 0) as [c2 t2] eqn:E2.
  destruct (promoteReferrals 3 _ _ c2 0) as [c3 t3] eqn:E3.
  destruct (promoteReferrals 4 _ _ c3 0) as [c4 t4] eqn:E4.
  apply (f_equal fst) in E2, E3, E4. simpl in E2, E3, E4.
  assert (H : map shape c4 = map shape c).
  { rewrite <- E4, shape_promoteReferrals, <- E3, shape_promoteReferrals,
      <- E2, shape_promoteReferrals. reflexivity. }
  match goal with |- context [if ?b then _ else _] => destruct b end.
  - exact H.
  - rewrite shape_saveLevel. exact H.
Qed.

(** Any reading that ignores levels sees the same thing in two
    collections of the same shape. *)
Lemma shape_map {A : Type} (f : doc -> A) (c c' : list doc) :
  (forall u, f u = f (shape u)) ->
  map shape c = map shape c' -> map f c = map f c'.
Proof.
  intros Hf H.
  rewrite (map_ext f (fun u => f (shape u)) Hf c).
  rewrite (map_ext f (fun u => f (shape u)) Hf c').
  rewrite <- !(map_map shape f). now rewrite H.
Qed.

Lemma shape_find (p : doc -> bool) :
  (forall u, p u = p (shape u)) ->
  forall c c', map shape c = map shape c' ->
    option_map shape (find p c) = option_map shape (find p c').
Proof.
  intros Hp. induction c as [|u c IH]; intros [|u' c'] H; cbn [map] in H;
    try discriminate; [reflexivity|].
  assert (Hu : shape u = shape u') by congruence.
  assert (Hc : map shape c = map shape c') by congruence.
  cbn [find]. rewrite (Hp u), (Hp u'), Hu.
  destruct (p (shape u')); cbn [option_map]; [now rewrite Hu | now apply IH].
Qed.

Lemma findById_shape (c c' : list doc) (i : ObjectId) :
  map shape c = map shape c' ->
  option_map shape (findById c i) = option_map shape (findById c' i).
Proof. apply shape_find. reflexivity. Qed.

Lemma findOneBySponsorId_shape (c c' : list doc) (s : string) :
  map shape c = map shape c' ->
  option_map shape (findOneBySponsorId c s)
  = option_map shape (findOneBySponsorId c' s).
Proof. apply shape_find. reflexivity. Qed.

Lemma shape_updateSponsorLevels (fuel : nat) :
  forall c i, map shape (snd (updateSponsorLevels fuel c i)) = map shape c.
Proof.
  induction fuel as [|fuel IH]; intros c i; simpl; [reflexivity|].
  destruct (findById c i) as [user|]; [|reflexivity].
  destruct (String.eqb (sponsorBy user) "root"); simpl;
    [apply shape_evaluate|].
  destruct (findOneBySponsorId (evaluate c user) (sponsorBy user));
    simpl; [|apply shape_evaluate].
  rewrite IH. apply shape_evaluate.
Qed.

(** The walk ends exactly when the parent chain does. *)
Lemma updateSponsorLevels_ends (fuel : nat) :
  forall c c0 i, map shape c = map shape c0 ->
    fst (updateSponsorLevels fuel c i) = walkEnds fuel c0 i.
Proof.
  induction fuel as [|fuel IH]; intros c c0 i H; simpl; [reflexivity|].
  pose proof (findById_shape c c0 i H) as Hi.
  destruct (findById c i) as [user|], (findById c0 i) as [user0|];
    cbn [option_map] in Hi; try discriminate; [|reflexivity].
  assert (Hu : shape user = shape user0) by congruence. clear Hi.
  rename Hu into Hi.
  assert (Hby : sponsorBy user = sponsorBy user0)
    by (change (sponsorBy (shape user) = sponsorBy (shape user0));
        now rewrite Hi).
  rewrite <- Hby.
  destruct (String.eqb (sponsorBy user) "root"); [reflexivity|].
  assert (H' : map shape (evaluate c user) = map shape c0)
    by (now rewrite shape_evaluate).
  pose proof (findOneBySponsorId_shape _ _ (sponsorBy user) H') as Hp.
  destruct (findOneBySponsorId (evaluate c user) (sponsorBy user)) as [p|],
    (findOneBySponsorId c0 (sponsorBy user)) as [p0|];
    cbn [option_map] in Hp; try discriminate; [|reflexivity].
  assert (Hq : shape p = shape p0) by congruence. clear Hp.
  rename Hq into Hp.
  assert (Hid : _id p = _id p0)
    by (change (_id (shape p) = _id (shape p0)); now rewrite Hp).
  rewrite Hid. now apply IH.
Qed.

End ShapeFacts.

(** ** The cap *)
Section CapFacts.

Import User Leveling.

Lemma capped_saveLevel (c : list doc) (i : ObjectId) (l : nat) :
  l <= 4 -> capped c -> capped (saveLevel c i l).
Proof.
  intros Hl Hc. unfold capped, saveLevel. rewrite Forall_map.
  eapply Forall_impl; [|exact Hc].
  intros u Hu. destruct (_id u =? i); [exact Hl | exact Hu].
Qed.

Lemma capped_promoteReferrals target subCount refs :
  target <= 4 ->
  forall c total, capped c ->
    capped (fst (promoteReferrals target subCount refs c total)).
Proof.
  intros Ht. induction refs as [|r rest IH]; intros c total Hc;
    cbn [promoteReferrals]; [exact Hc|].
  destruct ((3 <=? subCount c r) && (level r <? target)).
  - apply IH. now apply capped_saveLevel.
  - now apply IH.
Qed.

Lemma capped_evaluate (c : list doc) (user : doc) :
  capped c -> capped (evaluate c user).
Proof.
  intros Hc. unfold evaluate.
  destruct (promoteReferrals 2 _ _ c 0) as [c2 t2] eqn:E2.
  destruct (promoteReferrals 3 _ _ c2 0) as [c3 t3] eqn:E3.
  destruct (promoteReferrals 4 _ _ c3 0) as [c4 t4] eqn:E4.
  apply (f_equal fst) in E2, E3, E4. cbn [fst] in E2, E3, E4.
  assert (H4 : capped c4).
  { rewrite <- E4. apply capped_promoteReferrals; [lia|].
    rewrite <- E3. apply capped_promoteReferrals; [lia|].
    rewrite <- E2. now apply capped_promoteReferrals; [lia|]. }
  match goal with |- context [if ?b =? _ then _ else _] =>
    destruct (b =? level user) end; [exact H4|].
  apply capped_saveLevel; [|exact H4].
  match goal with |- (if 4 <? ?x then _ else _) <= 4 =>
    destruct (Nat.ltb_spec 4 x); lia end.
Qed.

Lemma capped_updateSponsorLevels (fuel : nat) :
  forall c i, capped c -> capped (snd (updateSponsorLevels fuel c i)).
Proof.
  induction fuel as [|fuel IH]; intros c i Hc; cbn [updateSponsorLevels];
    [exact Hc|].
  destruct (findById c i) as [user|]; [|exact Hc].
  pose proof (capped_evaluate c user Hc) as He.
  destruct (String.eqb (sponsorBy user) "root"); [exact He|].
  destruct (findOneBySponsorId (evaluate c user) (sponsorBy user));
    [now apply IH | exact He].
Qed.

End CapFacts.

Lemma capped_verifyOTPUser fuel now fresh code body db :
  capped (users db) ->
  capped (users (snd (UserController.verifyOTPUser fuel now fresh code body db))).
Proof.
  intros Hc. unfold UserController.verifyOTPUser.
  destruct (negb _); [exact Hc|].
  destruct (TempUser.findOneByTempId _ _) as [t|]; [|exact Hc].
  destruct (_ >? _)%Z; [exact Hc|].
  destruct (negb _); [exact Hc|].
  destruct (User.findOneByEmailOrPhone _ _ _); [exact Hc|].
  set (user := User.create _ _ _ _ _ _ _ _ _ _).
  assert (Hn : capped (users db ++ [user])).
  { apply Forall_app. split; [exact Hc|]. constructor; [|constructor].
    cbn. lia. }
  destruct (User.findOneBySponsorId _ _) as [sponsor|]; [|exact Hn].
  pose proof (capped_updateSponsorLevels fuel (users db ++ [user])
                (User._id (User.pushSponsorTree sponsor (User._id user))) Hn)
    as Hl.
  destruct (Leveling.updateSponsorLevels _ _ _) as [ended leveled].
  destruct ended; exact Hl.
Qed.

(** C5.  Level cap: along any history of admissions and leveling runs,
    started from stored levels of at most 4, no stored user ever has a
    level above 4, whatever the shape of the network and whether or not
    the runs came to their end. *)
Theorem level_never_exceeds_four (ops : list History.Op) (db : Db) :
  capped (users db) ->
  forall u, In u (users (History.run ops db)) -> User.level u <= 4.
Proof.
  intros Hc. apply Forall_forall. change (capped (users (History.run ops db))).
  revert db Hc. induction ops as [|op ops IH]; intros db Hc; [exact Hc|].
  cbn [History.run fold_left]. apply IH.
  destruct op as [fuel now fresh code body | fuel userId]; cbn [History.step].
  - now apply capped_verifyOTPUser.
  - cbn [withUsers users]. now apply capped_updateSponsorLevels.
Qed.

Lemma level_never_exceeds_four_witness :
  capped (users Sample.threePending)
  /\ Forall (fun u => User.level u <= 4)
       (users (History.run (Sample.threeAdmissions ++ [History.Relevel 5 1])
                 Sample.threePending)).
Proof.
  split; [repeat constructor|].
  apply Forall_forall.
  apply (level_never_exceeds_four
           (Sample.threeAdmissions ++ [History.Relevel 5 1])
           Sample.threePending).
  repeat constructor.
Defined.

(** ** Levels only go up *)

Lemma bump_bounds (b : bool) (lv k : nat) :
  lv <= (if b && (lv <? k) then k else lv) <= Nat.max lv k
  /\ (b = true -> k <= (if b && (lv <? k) then k else lv)).
Proof.
  destruct b; cbn [andb]; [|split; [lia | discriminate]].
  destruct (Nat.ltb_spec lv k); lia.
Qed.

(** Names, innermost first, the successive values of the in-memory
    [user.level] and records the bounds of each. *)
Ltac name_levels :=
  repeat match goal with
         | |- context [if ?a && (?lv <? ?k) then ?k else ?lv] =>
             is_var lv;
             let H := fresh "Hlv" in
             let x := fresh "lv" in
             pose proof (bump_bounds a lv k) as H;
             remember (if a && (lv <? k) then k else lv) as x eqn:Ex;
             clear Ex
         end.

Section RaisedFacts.

Import User Leveling.

(** Two stored documents with the same key are the same document. *)
Lemma unique_key {A B : Type} (key : A -> B) (l : list A) :
  NoDup (map key l) ->
  forall x y, In x l -> In y l -> key x = key y -> x = y.
Proof.
  induction l as [|a l IH]; cbn [map]; intros Hnd x y Hx Hy Hk; [easy|].
  inversion Hnd as [|? ? Hnot Hnd']; subst.
  destruct Hx as [->|Hx], Hy as [->|Hy]; auto.
  - exfalso. apply Hnot. rewrite Hk. now apply in_map.
  - exfalso. apply Hnot. rewrite <- Hk. now apply in_map.
Qed.

(** The answer to a query holds no identifier twice. *)
Lemma query_ids_unique (p : doc -> bool) (c : list doc) :
  NoDup (map _id c) -> NoDup (map _id (filter p c)).
Proof.
  induction c as [|u c IH]; intros Hnd; [exact Hnd|].
  apply NoDup_cons_iff in Hnd as [Hnot Hnd]. cbn [filter].
  destruct (p u); [|now apply IH].
  cbn [map]. apply NoDup_cons; [|now apply IH].
  contradict Hnot. apply in_map_iff in Hnot as (v & Hv & Hin).
  apply in_map_iff. exists v. split; [exact Hv|].
  now apply filter_In in Hin.
Qed.

Lemma raised_refl (c : list doc) : raised c c.
Proof. induction c; constructor; auto. Qed.

Lemma raised_trans (c1 c2 c3 : list doc) :
  raised c1 c2 -> raised c2 c3 -> raised c1 c3.
Proof.
  intros H12. revert c3. induction H12 as [|u u' c c' [Hs Hl] _ IH];
    intros c3 H23; inversion H23 as [|? u'' ? c'' [Hs' Hl'] H23']; subst;
    constructor; [split; [congruence | lia] | now apply IH].
Qed.

Lemma raised_shape (c c' : list doc) :
  raised c c' -> map shape c = map shape c'.
Proof.
  induction 1 as [|u u' c c' [Hs _] _ IH]; cbn [map]; [reflexivity|].
  now rewrite Hs, IH.
Qed.

Lemma raised_saveLevel_from (c c4 : list doc) (i : ObjectId) (l : nat) :
  raised c c4 ->
  (forall u, In u c -> _id u = i -> level u <= l) ->
  raised c (saveLevel c4 i l).
Proof.
  induction 1 as [|u u' c c' [Hs Hl] _ IH]; intros Hi; cbn [saveLevel map];
    constructor.
  - assert (Hid : _id u' = _id u)
      by (change (_id (shape u') = _id (shape u)); now rewrite Hs).
    destruct (Nat.eqb_spec (_id u') i) as [E|E]; [|now split].
    split; [now rewrite shape_setLevel|].
    cbn [level setLevel]. apply Hi; [now left | congruence].
  - apply IH. intros v Hv. apply Hi. now right.
Qed.

Lemma raised_promoteReferrals target subCount refs :
  NoDup (map _id refs) ->
  forall c total,
    (forall r u, In r refs -> In u c -> _id u = _id r -> level u <= level r) ->
    raised c (fst (promoteReferrals target subCount refs c total)).
Proof.
  induction refs as [|r rest IH]; intros Hnd c total Hag;
    cbn [promoteReferrals]; [apply raised_refl|].
  inversion Hnd as [|? ? Hnot Hnd']; subst.
  destruct (3 <=? subCount c r); cbn [andb].
  2:{ apply IH; [exact Hnd'|]. intros r' u Hr'. apply Hag. now right. }
  destruct (Nat.ltb_spec (level r) target) as [Hlt|Hge].
  2:{ apply IH; [exact Hnd'|]. intros r' u Hr'. apply Hag. now right. }
  apply raised_trans with (saveLevel c (_id r) target).
  - apply raised_saveLevel_from; [apply raised_refl|].
    intros u Hu Hid. specialize (Hag r u (or_introl eq_refl) Hu Hid). lia.
  - apply IH; [exact Hnd'|].
    intros r' u Hr' Hu Hid. unfold saveLevel in Hu.
    apply in_map_iff in Hu as (u0 & Hu0 & Hin0).
    destruct (Nat.eqb_spec (_id u0) (_id r)) as [E|E]; subst u.
    + exfalso. apply Hnot. cbn [_id setLevel] in Hid.
      rewrite <- E, Hid. now apply in_map.
    + apply Hag; [now right | exact Hin0 | exact Hid].
Qed.

Lemma raised_promote_find target subCount (p : doc -> bool) (c : list doc)
    (total : nat) :
  NoDup (map _id c) ->
  raised c (fst (promoteReferrals target subCount (filter p c) c total)).
Proof.
  intros Hnd. apply raised_promoteReferrals; [now apply query_ids_unique|].
  intros r u Hr Hu Hid. apply filter_In in Hr as [Hr _].
  now rewrite (unique_key _id c Hnd u r Hu Hr Hid).
Qed.

Lemma raised_ids (c c' : list doc) :
  raised c c' -> map _id c = map _id c'.
Proof. intros H. apply shape_map; [reflexivity | now apply raised_shape]. Qed.

Lemma raised_evaluate (c : list doc) (user : doc) :
  NoDup (map _id c) -> In user c -> level user <= 4 ->
  raised c (evaluate c user).
Proof.
  intros Hnd Hin Hcap. unfold evaluate.
  pose proof (raised_promote_find 2 subReferrals
                (fun u => String.eqb (sponsorBy u) (sponsorId user)) c 0 Hnd)
    as R2.
  change (filter _ c) with (findBySponsorBy c (sponsorId user)) in R2.
  destruct (promoteReferrals 2 _ _ c 0) as [c2 t2]. cbn [fst] in R2.
  assert (Hnd2 : NoDup (map _id c2)) by (now rewrite <- (raised_ids c c2)).
  pose proof (raised_promote_find 3 (subReferralsAt 2)
                (fun u => (level u =? 2)
                          && String.eqb (sponsorBy u) (sponsorId user))
                c2 0 Hnd2) as R3.
  change (filter _ c2) with (findByLevelAndSponsorBy c2 2 (sponsorId user))
    in R3.
  destruct (promoteReferrals 3 _ _ c2 0) as [c3 t3]. cbn [fst] in R3.
  assert (Hnd3 : NoDup (map _id c3)) by (now rewrite <- (raised_ids c2 c3)).
  pose proof (raised_promote_find 4 (subReferralsAt 3)
                (fun u => (level u =? 3)
                          && String.eqb (sponsorBy u) (sponsorId user))
                c3 0 Hnd3) as R4.
  change (filter _ c3) with (findByLevelAndSponsorBy c3 3 (sponsorId user))
    in R4.
  destruct (promoteReferrals 4 _ _ c3 0) as [c4 t4]. cbn [fst] in R4.
  assert (R : raised c c4)
    by (eapply raised_trans; [eapply raised_trans|]; eassumption).
  match goal with |- context [if ?b =? _ then _ else _] =>
    destruct (b =? level user); [exact R|];
    apply raised_saveLevel_from; [exact R|];
    intros u Hu Hid;
    rewrite (unique_key _id c Hnd u user Hu Hin Hid)
  end.
  remember (level user) as l0 eqn:El0. clear El0.
  name_levels.
  match goal with |- _ <= (if 4 <? ?x then _ else _) =>
    destruct (Nat.ltb_spec 4 x); lia end.
Qed.

Lemma findById_In (c : list doc) (i : ObjectId) (u : doc) :
  findById c i = Some u -> In u c /\ _id u = i.
Proof.
  intros H. apply find_some in H as [Hin Hid]. split; [exact Hin|].
  now apply Nat.eqb_eq.
Qed.

Lemma raised_updateSponsorLevels (fuel : nat) :
  forall c i, NoDup (map _id c) -> capped c ->
    raised c (snd (updateSponsorLevels fuel c i)).
Proof.
  induction fuel as [|fuel IH]; intros c i Hnd Hc;
    cbn [updateSponsorLevels]; [apply raised_refl|].
  destruct (findById c i) as [user|] eqn:Hf; [|apply raised_refl].
  apply findById_In in Hf as [Hin _].
  assert (He : raised c (evaluate c user)).
  { apply raised_evaluate; auto.
    unfold capped in Hc. rewrite Forall_forall in Hc. now apply Hc. }
  destruct (String.eqb (sponsorBy user) "root"); [exact He|].
  destruct (findOneBySponsorId (evaluate c user) (sponsorBy user));
    [|exact He].
  eapply raised_trans; [exact He|]. apply IH.
  - now rewrite <- (raised_ids c (evaluate c user)).
  - now apply capped_evaluate.
Qed.

Lemma raised_findById (c c' : list doc) (i : ObjectId) (u : doc) :
  raised c c' -> findById c i = Some u ->
  exists u', findById c' i = Some u' /\ level u <= level u'.
Proof.
  induction 1 as [|v v' c c' [Hs Hl] _ IH]; cbn [findById find];
    [discriminate|].
  assert (Hid : _id v' = _id v)
    by (change (_id (shape v') = _id (shape v)); now rewrite Hs).
  rewrite Hid. destruct (_id v =? i).
  - intros [= <-]. now exists v'.
  - exact IH.
Qed.

End RaisedFacts.

(** ** Ranks gained in one run *)

(** C2, as stated, fails.  C is sponsored by P and has three referrals; one
    run started at C evaluates C, then P, and P's second-level loop sets C
    from 0 straight to 2. *)
Lemma one_rank_per_run_counterexample :
  levelOf Sample.twoGenerations 1 = Some 0
  /\ fst (Leveling.updateSponsorLevels 5 Sample.twoGenerations 1) = true
  /\ levelOf (snd (Leveling.updateSponsorLevels 5 Sample.twoGenerations 1)) 1
     = Some 2
  /\ ~ 2 <= 0 + 1.
Proof. repeat split. lia. Qed.

(** C2, amended.  In one run of the walk, over a collection with unique
    identifiers and levels of at most 4, a user at rank [r] ends at a rank
    between [r] and 4: ranks never drop and never pass the cap, but a rise
    is not limited to one. *)
Theorem rank_rises_within_cap (fuel : nat) (c : list User.doc)
    (i j : ObjectId) (r : nat) :
  NoDup (map User._id c) -> capped c ->
  levelOf c j = Some r ->
  exists r',
    levelOf (snd (Leveling.updateSponsorLevels fuel c i)) j = Some r'
    /\ r <= r' <= 4.
Proof.
  intros Hnd Hc Hr. unfold levelOf in *.
  destruct (User.findById c j) as [u|] eqn:Hu; [|discriminate].
  injection Hr as <-.
  destruct (raised_findById c _ j u
              (raised_updateSponsorLevels fuel c i Hnd Hc) Hu)
    as (u' & Hu' & Hle).
  exists (User.level u'). rewrite Hu'. split; [reflexivity|].
  split; [exact Hle|].
  pose proof (capped_updateSponsorLevels fuel c i Hc) as Hc'.
  unfold capped in Hc'. rewrite Forall_forall in Hc'. apply Hc'.
  now apply findById_In in Hu'.
Qed.

Lemma rank_rises_within_cap_witness :
  NoDup (map User._id Sample.twoGenerations)
  /\ capped Sample.twoGenerations
  /\ levelOf Sample.twoGenerations 1 = Some 0
  /\ exists r',
       levelOf (snd (Leveling.updateSponsorLevels 5 Sample.twoGenerations 1)) 1
       = Some r'
       /\ 0 <= r' <= 4.
Proof.
  assert (Hnd : NoDup (map User._id Sample.twoGenerations)).
  { cbn. repeat (constructor; [cbn; intuition discriminate|]). constructor. }
  assert (Hc : capped Sample.twoGenerations) by (repeat constructor).
  repeat split; [exact Hnd | exact Hc |].
  exact (rank_rises_within_cap 5 Sample.twoGenerations 1 1 0 Hnd Hc eq_refl).
Defined.

(** ** The stored child lists *)

Lemma findById_app (c : list User.doc) (x : User.doc) (i : ObjectId)
    (u : User.doc) :
  User.findById c i = Some u -> User.findById (c ++ [x]) i = Some u.
Proof.
  unfold User.findById. induction c as [|v c IH]; cbn [find app];
    [discriminate|].
  destruct (User._id v =? i); [trivial | exact IH].
Qed.

Lemma sponsorTreeOf_shape (c c' : list User.doc) (i : ObjectId) :
  map shape c = map shape c' -> sponsorTreeOf c i = sponsorTreeOf c' i.
Proof.
  intros H. unfold sponsorTreeOf.
  pose proof (findById_shape c c' i H) as Hf.
  destruct (User.findById c i) as [u|], (User.findById c' i) as [u'|];
    cbn [option_map] in *; try discriminate; [|reflexivity].
  assert (Hs : shape u = shape u') by congruence.
  change (Some (User.sponsorTree (shape u))
          = Some (User.sponsorTree (shape u'))).
  now rewrite Hs.
Qed.

(** No admission changes the [sponsorTree] stored for any user: the only
    write to a child list in [verifyOTPUser] lands on a loaded copy. *)
Lemma verifyOTPUser_keeps_sponsorTree fuel now fresh code body db i tree :
  sponsorTreeOf (users db) i = Some tree ->
  sponsorTreeOf
    (users (snd (UserController.verifyOTPUser fuel now fresh code body db))) i
  = Some tree.
Proof.
  intros Ht. unfold UserController.verifyOTPUser.
  destruct (negb _); [exact Ht|].
  destruct (TempUser.findOneByTempId _ _) as [t|]; [|exact Ht].
  destruct (_ >? _)%Z; [exact Ht|].
  destruct (negb _); [exact Ht|].
  destruct (User.findOneByEmailOrPhone _ _ _); [exact Ht|].
  set (user := User.create _ _ _ _ _ _ _ _ _ _).
  assert (Hn : sponsorTreeOf (users db ++ [user]) i = Some tree).
  { unfold sponsorTreeOf in *.
    destruct (User.findById (users db) i) as [u|] eqn:Hu; [|discriminate].
    now rewrite (findById_app _ user _ _ Hu). }
  destruct (User.findOneBySponsorId _ _) as [sponsor|]; [|exact Hn].
  pose proof (shape_updateSponsorLevels fuel (users db ++ [user])
                (User._id (User.pushSponsorTree sponsor (User._id user))))
    as Hs.
  destruct (Leveling.updateSponsorLevels _ _ _) as [ended leveled].
  cbn [snd] in Hs.
  destruct ended; cbn [snd users withUsers];
    now rewrite (sponsorTreeOf_shape _ _ i Hs).
Qed.

(** C3.  One admission under the sponsor with code N: the registration
    completes and user 11 is stored with [sponsorBy] N, but the child list
    stored for the sponsor is still empty. *)
Theorem admission_leaves_sponsorTree_behind :
  let r := UserController.verifyOTPUser 5 1000 11 "A"
             (Sample.verifyBody "1" "N") Sample.oneSession in
  fst r = Some (Json 201 "Registration completed successfully")
  /\ option_map User.sponsorBy (User.findById (users (snd r)) 11) = Some "N"
  /\ option_map User.sponsorId
       (User.findOneBySponsorId (users (snd r)) "N") = Some "N"
  /\ sponsorTreeOf (users (snd r)) 1 = Some [].
Proof. repeat split. Qed.

(** ** The first promotion *)

(** The rule itself: a user whose stored child list has three entries is
    set from 0 to 1 by one evaluation, one with two entries is not. *)
Lemma three_listed_referrals_promote :
  levelOf Sample.threeListed 1 = Some 0
  /\ levelOf (snd (Leveling.updateSponsorLevels 5 Sample.threeListed 1)) 1
     = Some 1.
Proof. split; reflexivity. Qed.

(** C1.  Three admissions in a row under the sponsor with code N, each
    followed by the leveling walk: three users are stored with [sponsorBy]
    N, yet the sponsor's stored child list is empty and its level is still
    0 after the third. *)
Theorem third_admission_does_not_promote :
  let db := History.run Sample.threeAdmissions Sample.threePending in
  map User._id (User.findBySponsorBy (users db) "N") = [11; 12; 13]
  /\ tempUsers db = []
  /\ sponsorTreeOf (users db) 1 = Some []
  /\ levelOf (users db) 1 = Some 0.
Proof. repeat split. Qed.

(** ** Consuming a verification session *)

Lemma truthy_Some (s : string) : s <> "" -> Js.truthy (Some s) = true.
Proof.
  intros H. unfold Js.truthy. destruct (String.eqb_spec s ""); [easy|reflexivity].
Qed.

Lemma find_exists {A : Type} (p : A -> bool) (l : list A) (x : A) :
  In x l -> p x = true -> exists y, find p l = Some y.
Proof.
  induction l as [|a l IH]; cbn [find]; [easy|].
  intros [->|Hin] Hp.
  - rewrite Hp. eauto.
  - destruct (p a); eauto.
Qed.

Lemma findByIdAndDelete_gone (c : list TempUser.doc) (i : ObjectId)
    (t : TempUser.doc) :
  In t (TempUser.findByIdAndDelete c i) -> TempUser._id t <> i.
Proof.
  unfold TempUser.findByIdAndDelete. intros H.
  apply filter_In in H as [_ H]. apply negb_true_iff in H.
  now apply Nat.eqb_neq.
Qed.

Section Consume.

Variables (fuel : nat) (now : Z) (fresh : ObjectId) (code : string).
Variables (tempId otp firstName lastName password sponsorBy gender : string).
Variable db : Db.

Hypothesis tempId_given : tempId <> "".
Hypothesis otp_given : otp <> "".
Hypothesis firstName_given : firstName <> "".
Hypothesis lastName_given : lastName <> "".
Hypothesis password_given : password <> "".
Hypothesis sponsorBy_given : sponsorBy <> "".
Hypothesis gender_given : gender <> "".

Let body : VerifyBody.t :=
  VerifyBody.mk (Some tempId) (Some otp) (Some firstName) (Some lastName)
    (Some password) (Some sponsorBy) (Some gender).

Let result : option Response * Db :=
  UserController.verifyOTPUser fuel now fresh code body db.

Lemma consume_fields_pass :
  negb (Js.truthy (VerifyBody.tempId body)
        && Js.truthy (VerifyBody.otp body)
        && Js.truthy (VerifyBody.firstName body)
        && Js.truthy (VerifyBody.lastName body)
        && Js.truthy (VerifyBody.password body)
        && Js.truthy (VerifyBody.sponsorBy body)
        && Js.truthy (VerifyBody.gender body)) = false.
Proof.
  subst body. cbn [VerifyBody.tempId VerifyBody.otp VerifyBody.firstName
    VerifyBody.lastName VerifyBody.password VerifyBody.sponsorBy
    VerifyBody.gender].
  now rewrite !truthy_Some.
Qed.

Lemma consume_not_found :
  TempUser.findOneByTempId (tempUsers db) tempId = None ->
  result = (Some NotFound, db).
Proof.
  intros H. subst result. unfold UserController.verifyOTPUser.
  rewrite consume_fields_pass. cbn [VerifyBody.tempId body Js.value].
  now rewrite H.
Qed.

Section Found.

Variable t : TempUser.doc.
Hypothesis found : TempUser.findOneByTempId (tempUsers db) tempId = Some t.

Lemma consume_expired :
  (now > TempUser.createdAt t + 10 * 60 * 1000)%Z ->
  result
  = (Some Expired,
     withTempUsers db
       (TempUser.findByIdAndDelete (tempUsers db) (TempUser._id t))).
Proof.
  intros H. subst result. unfold UserController.verifyOTPUser.
  rewrite consume_fields_pass. cbn [VerifyBody.tempId body Js.value].
  rewrite found.
  destruct (Z.gtb_spec now (TempUser.createdAt t + 10 * 60 * 1000));
    [reflexivity | lia].
Qed.

Hypothesis live : (now <= TempUser.createdAt t + 10 * 60 * 1000)%Z.

Lemma consume_invalid_otp :
  TempUser.otp t <> otp -> result = (Some InvalidOtp, db).
Proof.
  intros H. subst result. unfold UserController.verifyOTPUser.
  rewrite consume_fields_pass.
  cbn [VerifyBody.tempId VerifyBody.otp body Js.value].
  rewrite found.
  destruct (Z.gtb_spec now (TempUser.createdAt t + 10 * 60 * 1000));
    [lia|].
  destruct (String.eqb_spec (TempUser.otp t) otp); [easy | reflexivity].
Qed.

Hypothesis otp_matches : TempUser.otp t = otp.

Lemma consume_conflict (u : User.doc) :
  In u (users db) ->
  User.email u = TempUser.email t
  \/ User.phoneNumber u = TempUser.phoneNumber t ->
  result = (Some Conflict, db).
Proof.
  intros Hin Hu. subst result. unfold UserController.verifyOTPUser.
  rewrite consume_fields_pass.
  cbn [VerifyBody.tempId VerifyBody.otp body Js.value].
  rewrite found.
  destruct (Z.gtb_spec now (TempUser.createdAt t + 10 * 60 * 1000));
    [lia|].
  rewrite otp_matches, String.eqb_refl. cbn [negb].
  destruct (find_exists
              (fun v => String.eqb (User.email v) (TempUser.email t)
                        || String.eqb (User.phoneNumber v)
                             (TempUser.phoneNumber t))
              (users db) u Hin) as [y Hy].
  { apply orb_true_iff.
    destruct Hu as [->| ->]; [left|right]; apply String.eqb_refl. }
  unfold User.findOneByEmailOrPhone. now rewrite Hy.
Qed.

Hypothesis no_such_user :
  User.findOneByEmailOrPhone (users db) (TempUser.email t)
    (TempUser.phoneNumber t) = None.

Let user : User.doc :=
  User.create fresh code firstName lastName (TempUser.email t)
    (TempUser.phoneNumber t) password sponsorBy (Some gender) true.

Let created : list User.doc := users db ++ [user].

Lemma consume_unsponsored :
  User.findOneBySponsorId created sponsorBy = None ->
  result
  = (Some (Json 201 "Registration completed successfully"),
     mkDb (TempUser.findByIdAndDelete (tempUsers db) (TempUser._id t))
       created (outbox db)).
Proof.
  intros H. subst result. unfold UserController.verifyOTPUser.
  rewrite consume_fields_pass.
  cbn [VerifyBody.tempId VerifyBody.otp VerifyBody.firstName
    VerifyBody.lastName VerifyBody.password VerifyBody.sponsorBy
    VerifyBody.gender body Js.value].
  rewrite found.
  destruct (Z.gtb_spec now (TempUser.createdAt t + 10 * 60 * 1000));
    [lia|].
  rewrite otp_matches, String.eqb_refl. cbn [negb].
  rewrite no_such_user. fold user. fold created. now rewrite H.
Qed.

Lemma consume_sponsored (sponsor : User.doc) :
  User.findOneBySponsorId created sponsorBy = Some sponsor ->
  Leveling.walkEnds fuel created (User._id sponsor) = true ->
  fst (Leveling.updateSponsorLevels fuel created (User._id sponsor)) = true
  /\ result
     = (Some (Json 201 "Registration completed successfully"),
        mkDb (TempUser.findByIdAndDelete (tempUsers db) (TempUser._id t))
          (snd (Leveling.updateSponsorLevels fuel created
                  (User._id sponsor)))
          (outbox db)).
Proof.
  intros H Hw.
  pose proof (updateSponsorLevels_ends fuel created created
                (User._id sponsor) eq_refl) as He.
  rewrite Hw in He. split; [exact He|].
  subst result. unfold UserController.verifyOTPUser.
  rewrite consume_fields_pass.
  cbn [VerifyBody.tempId VerifyBody.otp VerifyBody.firstName
    VerifyBody.lastName VerifyBody.password VerifyBody.sponsorBy
    VerifyBody.gender body Js.value].
  rewrite found.
  destruct (Z.gtb_spec now (TempUser.createdAt t + 10 * 60 * 1000));
    [lia|].
  rewrite otp_matches, String.eqb_refl. cbn [negb].
  rewrite no_such_user. fold user. fold created. rewrite H.
  change (User._id (User.pushSponsorTree sponsor (User._id user)))
    with (User._id sponsor).
  destruct (Leveling.updateSponsorLevels fuel created (User._id sponsor))
    as [ended leveled].
  cbn [fst snd] in *. now rewrite He.
Qed.

End Found.

End Consume.

(** ** Signing up twice *)

Section Overwrite.

Import TempUser.

Lemma find_put (p : doc -> bool) (c : list doc) (t t' : doc) :
  _id t' = _id t -> In t c -> p t' = true ->
  (forall o, In o c -> _id o <> _id t -> p o = false) ->
  find p (put c t') = Some t'.
Proof.
  intros Hid Hin Hp Hothers. unfold put.
  induction c as [|o c IH]; [easy|].
  cbn [map find]. rewrite Hid.
  destruct (Nat.eqb_spec (_id o) (_id t)) as [E|E].
  - now rewrite Hp.
  - rewrite (Hothers o (or_introl eq_refl) E). rewrite <- Hid.
    destruct Hin as [->|Hin]; [easy|].
    apply IH; [exact Hin|]. intros o' Ho'. apply Hothers. now right.
Qed.

Lemma find_none_iff {A : Type} (p : A -> bool) (l : list A) :
  (forall x, In x l -> p x = false) -> find p l = None.
Proof.
  induction l as [|a l IH]; intros H; cbn [find]; [reflexivity|].
  rewrite (H a (or_introl eq_refl)). apply IH. intros x Hx. apply H.
  now right.
Qed.

Lemma filter_none {A : Type} (p : A -> bool) (l : list A) :
  (forall x, In x l -> p x = false) -> filter p l = [].
Proof.
  induction l as [|a l IH]; intros H; cbn [filter]; [reflexivity|].
  rewrite (H a (or_introl eq_refl)). apply IH. intros x Hx. apply H.
  now right.
Qed.

Lemma count_unique {B : Type} (f : doc -> B) (eqb : B -> B -> bool)
    (c : list doc) (t : doc) :
  (forall a b, eqb a b = true <-> a = b) ->
  NoDup (map f c) -> In t c ->
  List.length (filter (fun o => eqb (f o) (f t)) c) = 1.
Proof.
  intros Heqb. induction c as [|o c IH]; cbn [map filter]; intros Hnd Hin;
    [easy|].
  inversion Hnd as [|? ? Hnot Hnd']; subst.
  destruct Hin as [->|Hin].
  - rewrite (proj2 (Heqb (f t) (f t)) eq_refl). cbn [List.length].
    f_equal. rewrite filter_none; [reflexivity|].
    intros x Hx. destruct (eqb (f x) (f t)) eqn:E; [|reflexivity].
    exfalso. apply Hnot. apply Heqb in E. rewrite <- E. now apply in_map.
  - destruct (eqb (f o) (f t)) eqn:E; [|now apply IH].
    exfalso. apply Hnot. apply Heqb in E. rewrite E. now apply in_map.
Qed.

Lemma filter_put (p : doc -> bool) (c : list doc) (t' : doc) :
  (forall o, In o c -> _id o = _id t' -> p t' = p o) ->
  List.length (filter p (put c t')) = List.length (filter p c).
Proof.
  unfold put. induction c as [|o c IH]; intros H; [reflexivity|].
  cbn [map filter].
  assert (IH' : List.length
                  (filter p (map (fun o => if _id o =? _id t' then t'
                                           else o) c))
                = List.length (filter p c))
    by (apply IH; intros o' Ho'; apply H; now right).
  assert (Ho : p (if _id o =? _id t' then t' else o) = p o).
  { destruct (Nat.eqb_spec (_id o) (_id t')) as [E|E];
      [now apply H; [left|] | reflexivity]. }
  rewrite Ho. destruct (p o); cbn [List.length]; now rewrite IH'.
Qed.

Lemma taken_false (key : doc -> string) (c : list doc) (self : ObjectId)
    (v : string) :
  (forall o, In o c -> _id o <> self -> key o <> v) ->
  taken key c self v = false.
Proof.
  intros H. unfold taken. apply not_true_is_false. intros E.
  apply existsb_exists in E as (o & Ho & E).
  apply andb_true_iff in E as [Hid E]. apply negb_true_iff in Hid.
  apply Nat.eqb_neq in Hid. apply String.eqb_eq in E.
  now apply (H o Ho Hid).
Qed.

Variables (now : Z) (fresh : ObjectId) (newTempId newOtp : string).
Variable mailError : option string.
Variables (firstName lastName mail phone password sponsorBy gender : string).
Variable db : Db.

Hypothesis firstName_given : firstName <> "".
Hypothesis lastName_given : lastName <> "".
Hypothesis mail_given : mail <> "".
Hypothesis phone_given : phone <> "".
Hypothesis password_given : password <> "".
Hypothesis sponsorBy_given : sponsorBy <> "".
Hypothesis gender_given : gender <> "".
Hypothesis db_indexed : indexed (tempUsers db).
Hypothesis newTempId_unused : ~ In newTempId (map tempId (tempUsers db)).

Let body : SignupBody.t :=
  SignupBody.mk (Some firstName) (Some lastName) (Some mail) (Some phone)
    (Some password) (Some sponsorBy) (Some gender).

Let result : Response * Db :=
  UserController.signupUser now fresh newTempId newOtp mailError body db.

Lemma signup_fields_pass :
  negb (Js.truthy (SignupBody.firstName body)
        && Js.truthy (SignupBody.lastName body)
        && Js.truthy (SignupBody.email body)
        && Js.truthy (SignupBody.phoneNumber body)
        && Js.truthy (SignupBody.password body)
        && Js.truthy (SignupBody.sponsorBy body)
        && Js.truthy (SignupBody.gender body)) = false.
Proof.
  subst body. cbn [SignupBody.firstName SignupBody.lastName
    SignupBody.email SignupBody.phoneNumber SignupBody.password
    SignupBody.sponsorBy SignupBody.gender].
  now rewrite !truthy_Some.
Qed.

Lemma signup_written (temps : list doc) :
  match findOneByEmail (tempUsers db) mail with
  | Some tempUser =>
      saveTempIdOtp (tempUsers db) (setTempIdOtp tempUser newTempId newOtp)
  | None => create (tempUsers db) fresh now mail phone newTempId newOtp
  end = Some temps ->
  tempUsers (snd result) = temps.
Proof.
  intros H. subst result. unfold UserController.signupUser.
  rewrite signup_fields_pass.
  cbn [SignupBody.email SignupBody.phoneNumber body Js.value].
  rewrite H. now destruct mailError.
Qed.

Lemma signup_overwrites (t : doc) :
  findOneByEmail (tempUsers db) mail = Some t ->
  let t' := setTempIdOtp t newTempId newOtp in
  tempUsers (snd result) = put (tempUsers db) t'
  /\ findOneByEmail (tempUsers (snd result)) mail = Some t'
  /\ List.length (filter (fun o => String.eqb (email o) mail)
                    (tempUsers (snd result))) = 1
  /\ findOneByTempId (tempUsers (snd result)) newTempId = Some t'
  /\ findOneByTempId (tempUsers (snd result)) (tempId t) = None.
Proof.
  intros Hf t'. destruct db_indexed as (Hid & Hem & Hph & Htm).
  apply find_some in Hf as Hin. destruct Hin as [Hin Hmail].
  apply String.eqb_eq in Hmail.
  assert (Hother : forall o, In o (tempUsers db) -> _id o <> _id t ->
            email o <> email t /\ phoneNumber o <> phoneNumber t
            /\ tempId o <> tempId t).
  { intros o Ho Hne. repeat split; intros E; apply Hne; f_equal.
    - exact (unique_key email _ Hem o t Ho Hin E).
    - exact (unique_key phoneNumber _ Hph o t Ho Hin E).
    - exact (unique_key tempId _ Htm o t Ho Hin E). }
  assert (Hdup : taken tempId (tempUsers db) (_id t') (tempId t') = false).
  { apply taken_false. intros o Ho _ E. apply newTempId_unused.
    cbn [tempId setTempIdOtp t'] in E. rewrite <- E. now apply in_map. }
  assert (Hw : tempUsers (snd result) = put (tempUsers db) t').
  { apply signup_written. rewrite Hf. unfold saveTempIdOtp. fold t'.
    now rewrite Hdup. }
  rewrite Hw. split; [reflexivity|]. split; [|split; [|split]].
  - apply find_put with t; trivial.
    + cbn. rewrite Hmail. apply String.eqb_refl.
    + intros o Ho Hne. apply String.eqb_neq. rewrite <- Hmail.
      now apply Hother.
  - rewrite filter_put.
    + rewrite <- Hmail.
      apply (count_unique email String.eqb); trivial.
      apply String.eqb_eq.
    + intros o Ho E.
      rewrite (unique_key _id _ Hid o t Ho Hin E). reflexivity.
  - apply find_put with t; trivial.
    + cbn. apply String.eqb_refl.
    + intros o Ho _. apply String.eqb_neq. intros E.
      apply newTempId_unused. rewrite <- E. now apply in_map.
  - apply find_none_iff. intros o' Ho'.
    apply in_map_iff in Ho' as (o & <- & Ho).
    destruct (Nat.eqb_spec (_id o) (_id t')) as [E|E].
    + apply String.eqb_neq. cbn. intros E'. apply newTempId_unused.
      rewrite E'. now apply in_map.
    + apply String.eqb_neq. now apply Hother.
Qed.

Lemma signup_inserts :
  findOneByEmail (tempUsers db) mail = None ->
  ~ In phone (map phoneNumber (tempUsers db)) ->
  tempUsers (snd result)
  = tempUsers db ++ [mk fresh mail phone newTempId newOtp now].
Proof.
  intros Hf Hphone. apply signup_written. rewrite Hf. unfold create.
  rewrite !taken_false; [reflexivity| | |].
  - intros o Ho _ E. apply newTempId_unused. rewrite <- E.
    now apply in_map.
  - intros o Ho _ E. apply Hphone. rewrite <- E. now apply in_map.
  - intros o Ho _ E. apply (find_none _ _ Hf) in Ho.
    apply String.eqb_neq in Ho. contradiction.
Qed.

End Overwrite.

(** A session created at time 0 and signed up for again at time 300000
    gets the new [tempId] and [otp] but keeps [createdAt] 0: the overwrite
    branch assigns two fields only. *)
Lemma second_signup_keeps_createdAt :
  let r := UserController.signupUser 300000 200 "T9" "999999" None
             (Sample.signupBody "c1@x.io" "+11") Sample.oneSession in
  fst r = Json 200 "OTP sent. Please verify to complete registration."
  /\ option_map TempUser.createdAt
       (TempUser.findOneByEmail (tempUsers Sample.oneSession) "c1@x.io")
     = Some 0%Z
  /\ option_map TempUser.tempId
       (TempUser.findOneByEmail (tempUsers (snd r)) "c1@x.io") = Some "T9"
  /\ option_map TempUser.createdAt
       (TempUser.findOneByEmail (tempUsers (snd r)) "c1@x.io") = Some 0%Z
  /\ 0%Z <> 300000%Z.
Proof. repeat split. discriminate. Qed.

(** X30.  On a request that carries every field, with the stored
    sessions unique in [_id], email, phone and [tempId] and the generated
    [tempId] not in use: a second signup for an email that has a session
    rewrites that session in place, keeping its [_id], email, phone and
    [createdAt] and replacing [tempId] and [otp]; the email still has
    exactly one session, the new [tempId] opens it with the new OTP and the
    old [tempId] opens nothing.  For an email without a session, and a
    phone number no stored session holds, a new record is appended with
    [createdAt] the current time. *)
Theorem second_signup_overwrites (now : Z) (fresh : ObjectId)
    (newTempId newOtp : string) (mailError : option string)
    (firstName lastName mail phone password sponsorBy gender : string)
    (db : Db) :
  firstName <> "" -> lastName <> "" -> mail <> "" -> phone <> "" ->
  password <> "" -> sponsorBy <> "" -> gender <> "" ->
  indexed (tempUsers db) ->
  ~ In newTempId (map TempUser.tempId (tempUsers db)) ->
  let body :=
    SignupBody.mk (Some firstName) (Some lastName) (Some mail) (Some phone)
      (Some password) (Some sponsorBy) (Some gender) in
  let r :=
    UserController.signupUser now fresh newTempId newOtp mailError body db in
  (forall t,
     TempUser.findOneByEmail (tempUsers db) mail = Some t ->
     TempUser.findOneByEmail (tempUsers (snd r)) mail
     = Some (TempUser.mk (TempUser._id t) (TempUser.email t)
               (TempUser.phoneNumber t) newTempId newOtp
               (TempUser.createdAt t))
     /\ List.length (filter (fun o => String.eqb (TempUser.email o) mail)
                       (tempUsers (snd r))) = 1
     /\ List.length (tempUsers (snd r)) = List.length (tempUsers db)
     /\ option_map TempUser.otp
          (TempUser.findOneByTempId (tempUsers (snd r)) newTempId)
        = Some newOtp
     /\ TempUser.findOneByTempId (tempUsers (snd r)) (TempUser.tempId t)
        = None)
  /\ (TempUser.findOneByEmail (tempUsers db) mail = None ->
      ~ In phone (map TempUser.phoneNumber (tempUsers db)) ->
      tempUsers (snd r)
      = tempUsers db ++ [TempUser.mk fresh mail phone newTempId newOtp now]).
Proof.
  intros H1 H2 H3 H4 H5 H6 H7 Hidx Hnew body r. split.
  - intros t Ht.
    destruct (signup_overwrites now fresh newTempId newOtp mailError
                firstName lastName mail phone password sponsorBy gender db
                H1 H2 H3 H4 H5 H6 H7 Hidx Hnew t Ht)
      as (Hw & He & Hc & Hn & Ho).
    fold body in Hw, He, Hc, Hn, Ho. fold r in Hw, He, Hc, Hn, Ho.
    repeat split; trivial.
    + rewrite Hw. apply length_map.
    + now rewrite Hn.
  - intros Hf Hp.
    exact (signup_inserts now fresh newTempId newOtp mailError firstName
             lastName mail phone password sponsorBy gender db
             H1 H2 H3 H4 H5 H6 H7 Hnew Hf Hp).
Qed.

Lemma second_signup_overwrites_witness :
  let r := UserController.signupUser 300000 200 "T9" "999999" None
             (Sample.signupBody "c1@x.io" "+11") Sample.oneSession in
  TempUser.findOneByEmail (tempUsers (snd r)) "c1@x.io"
  = Some (TempUser.mk 100 "c1@x.io" "+11" "T9" "999999" 0)
  /\ List.length (filter (fun o => String.eqb (TempUser.email o) "c1@x.io")
                    (tempUsers (snd r))) = 1
  /\ TempUser.findOneByTempId (tempUsers (snd r)) "T1" = None.
Proof.
  assert (Hidx : indexed (tempUsers Sample.oneSession)).
  { repeat split; cbn; (constructor; [intros []|constructor]). }
  assert (Hnew : ~ In "T9" (map TempUser.tempId (tempUsers Sample.oneSession))).
  { cbn. intros [H|[]]. discriminate. }
  destruct (second_signup_overwrites 300000 200 "T9" "999999" None "Bea" "Roy"
              "c1@x.io" "+11" "pw" "root" "f" Sample.oneSession)
    as [H _]; try discriminate; trivial.
  destruct (H (Sample.pending 100 "1" 0) eq_refl) as (He & Hc & _ & _ & Ho).
  cbv zeta. split; [exact He|]. split; [exact Hc | exact Ho].
Defined.

(** ** The ten minutes of a session signed up for again *)

(** C7.  A second signup does not renew the ten minutes.  With the stored
    sessions unique in [_id], email, phone and [tempId] and the generated
    [tempId] not in use: a second signup for an email that has a session,
    at whatever time, answers 200 and is mailed like a first one, but the
    session keeps its [createdAt]; [verifyOTPUser] with the new [tempId]
    and the new OTP, later than ten minutes after the first signup, is
    answered with Expired, however short the time since the second
    signup, and the session of that email is deleted. *)
Theorem resignup_keeps_the_first_window (fuel : nat) (now1 now2 : Z)
    (fresh fresh' : ObjectId) (newTempId newOtp code : string)
    (firstName lastName mail phone password sponsorBy gender : string)
    (t : TempUser.doc) (db : Db) :
  firstName <> "" -> lastName <> "" -> mail <> "" -> phone <> "" ->
  password <> "" -> sponsorBy <> "" -> gender <> "" ->
  newTempId <> "" -> newOtp <> "" ->
  indexed (tempUsers db) ->
  ~ In newTempId (map TempUser.tempId (tempUsers db)) ->
  TempUser.findOneByEmail (tempUsers db) mail = Some t ->
  (now2 > TempUser.createdAt t + 10 * 60 * 1000)%Z ->
  let r1 :=
    UserController.signupUser now1 fresh newTempId newOtp None
      (SignupBody.mk (Some firstName) (Some lastName) (Some mail)
         (Some phone) (Some password) (Some sponsorBy) (Some gender)) db in
  let r2 :=
    UserController.verifyOTPUser fuel now2 fresh' code
      (VerifyBody.mk (Some newTempId) (Some newOtp) (Some firstName)
         (Some lastName) (Some password) (Some sponsorBy) (Some gender))
      (snd r1) in
  fst r1 = Json 200 "OTP sent. Please verify to complete registration."
  /\ outbox (snd r1)
     = outbox db ++ [mkMail mail "Your OTP for Account Verification" newOtp]
  /\ TempUser.findOneByTempId (tempUsers (snd r1)) newTempId
     = Some (TempUser.mk (TempUser._id t) (TempUser.email t)
               (TempUser.phoneNumber t) newTempId newOtp
               (TempUser.createdAt t))
  /\ fst r2 = Some Expired
  /\ TempUser.findOneByEmail (tempUsers (snd r2)) mail = None
  /\ users (snd r2) = users db.
Proof.
  intros H1 H2 H3 H4 H5 H6 H7 Ht Ho Hidx Hnew Hf Hlate r1 r2.
  destruct (signup_overwrites now1 fresh newTempId newOtp None firstName
              lastName mail phone password sponsorBy gender db
              H1 H2 H3 H4 H5 H6 H7 Hidx Hnew t Hf)
    as (Hput & _ & _ & Hopen & _).
  fold r1 in Hput, Hopen. cbv zeta in Hput, Hopen.
  set (t' := TempUser.setTempIdOtp t newTempId newOtp) in *.
  assert (E1 : fst r1 = Json 200 "OTP sent. Please verify to complete registration."
               /\ outbox (snd r1)
                  = outbox db
                    ++ [mkMail mail "Your OTP for Account Verification"
                          newOtp]
               /\ users (snd r1) = users db).
  { subst r1. unfold UserController.signupUser.
    rewrite (signup_fields_pass firstName lastName mail phone password
               sponsorBy gender H1 H2 H3 H4 H5 H6 H7).
    cbn [SignupBody.email SignupBody.phoneNumber Js.value]. rewrite Hf.
    unfold TempUser.saveTempIdOtp. rewrite taken_false; [now repeat split|].
    intros o Hin _ E. apply Hnew. cbn [TempUser.tempId TempUser.setTempIdOtp]
      in E. rewrite <- E. now apply in_map. }
  destruct E1 as (E1 & Eout & Eusers).
  split; [exact E1|]. split; [exact Eout|]. split; [exact Hopen|].
  pose proof (consume_expired fuel now2 fresh' code newTempId newOtp
                firstName lastName password sponsorBy gender (snd r1)
                Ht Ho H1 H2 H5 H6 H7 t' Hopen Hlate) as E2.
  fold r2 in E2. rewrite E2.
  cbn [fst snd tempUsers users withTempUsers].
  split; [reflexivity|]. split; [|exact Eusers].
  apply find_none_iff. intros o Hoin.
  pose proof (findByIdAndDelete_gone _ _ _ Hoin) as Hne.
  apply filter_In in Hoin as [Hoin _]. rewrite Hput in Hoin.
  apply in_map_iff in Hoin as (o0 & Eo & Hin0).
  destruct (Nat.eqb_spec (TempUser._id o0) (TempUser._id t')) as [E|E].
  - subst o. now elim Hne.
  - subst o. apply String.eqb_neq. intros Email.
    apply find_some in Hf as [Hin Hmail]. apply String.eqb_eq in Hmail.
    destruct Hidx as (_ & Hem & _).
    apply E. cbn [TempUser._id TempUser.setTempIdOtp t']. f_equal.
    apply (unique_key TempUser.email _ Hem o0 t Hin0 Hin). congruence.
Qed.

Lemma resignup_keeps_the_first_window_witness :
  TempUser.findOneByEmail (tempUsers Sample.oneSession) "c1@x.io"
  = Some (Sample.pending 100 "1" 0)
  /\ (601000 <= 599000 + 10 * 60 * 1000)%Z
  /\ fst (UserController.verifyOTPUser 5 601000 11 "A"
            (VerifyBody.mk (Some "T9") (Some "999999") (Some "Bea")
               (Some "Roy") (Some "pw") (Some "N") (Some "f"))
            (snd (UserController.signupUser 599000 200 "T9" "999999" None
                    (SignupBody.mk (Some "Bea") (Some "Roy") (Some "c1@x.io")
                       (Some "+11") (Some "pw") (Some "N") (Some "f"))
                    Sample.oneSession)))
     = Some Expired.
Proof.
  assert (Hidx : indexed (tempUsers Sample.oneSession)).
  { repeat split; cbn; (constructor; [intros []|constructor]). }
  assert (Hnew : ~ In "T9" (map TempUser.tempId (tempUsers Sample.oneSession))).
  { cbn. intros [H|[]]. discriminate. }
  split; [reflexivity|]. split; [lia|].
  refine (proj1 (proj2 (proj2 (proj2
            (resignup_keeps_the_first_window 5 599000 601000 200 11 "T9"
               "999999" "A" "Bea" "Roy" "c1@x.io" "+11" "pw" "N" "f"
               (Sample.pending 100 "1" 0) Sample.oneSession
               _ _ _ _ _ _ _ _ _ Hidx Hnew eq_refl _)))));
    try discriminate.
  cbn. lia.
Defined.

(** ** Resending the OTP *)

(** Whatever the request, [resendOtp] hands no mail to the transport and
    never answers 200: [firstName] is not bound where the mail is built. *)
Lemma resendOtp_never_dispatches newOtp mailError tempId db :
  let r := UserController.resendOtp newOtp mailError tempId db in
  outbox (snd r) = outbox db
  /\ fst r <> Json 200 "New OTP sent successfully".
Proof.
  unfold UserController.resendOtp.
  destruct (negb (Js.truthy tempId)); [split; [reflexivity | discriminate]|].
  destruct (TempUser.findOneByTempId _ _) as [t|];
    [|split; [reflexivity | discriminate]].
  change (Js.bound _ "firstName") with false.
  split; [reflexivity | discriminate].
Qed.

(** C8.  Resending for the live session T1: the new OTP is stored under
    the same [tempId] with [createdAt] untouched, then the handler throws
    a ReferenceError; nothing reaches the outbox. *)
Theorem resend_stores_then_throws :
  let r := UserController.resendOtp "654321" None (Some "T1")
             Sample.oneSession in
  fst r = Throw None "firstName is not defined"
  /\ TempUser.findOneByTempId (tempUsers (snd r)) "T1"
     = Some (TempUser.mk 100 "c1@x.io" "+11" "T1" "654321" 0)
  /\ outbox (snd r) = [].
Proof. repeat split. Qed.

(** The part of C8 on a missing session holds. *)
Lemma resend_not_found newOtp mailError tempId db :
  tempId <> "" ->
  TempUser.findOneByTempId (tempUsers db) tempId = None ->
  UserController.resendOtp newOtp mailError (Some tempId) db = (NotFound, db).
Proof.
  intros H Hf. unfold UserController.resendOtp.
  rewrite truthy_Some by exact H. cbn [negb Js.value]. now rewrite Hf.
Qed.

(** ** The license gate *)

(** The gate of C9 holds: below KYC level 1 the answer is 403 and nothing
    is written. *)
Lemma uploadLicense_gate cloud userId licenseImage db user :
  User.findById (users db) userId = Some user ->
  User.kycLevel user = 0 ->
  DriversController.uploadLicense cloud (Some userId) licenseImage db
  = (PermissionDenied, db).
Proof.
  intros Hu Hk. unfold DriversController.uploadLicense.
  now rewrite Hu, Hk.
Qed.

(** No call of [uploadLicense] is answered with 200. *)
Lemma uploadLicense_never_succeeds cloud userId licenseImage db :
  forall m,
    fst (DriversController.uploadLicense cloud userId licenseImage db)
    <> Json 200 m.
Proof.
  intros m. unfold DriversController.uploadLicense.
  destruct (match userId with Some i => _ | None => _ end) as [user|];
    [|discriminate].
  destruct (User.kycLevel user <? 1); [discriminate|].
  destruct licenseImage as [path|]; [|discriminate].
  destruct (cloud path "kyc/license"); [|discriminate].
  change (Js.bound _ "jwt") with false. discriminate.
Qed.

(** The handler itself, handed a license file in [req.files], which no
    route does: for a user at KYC level 1 and a file that the storage
    accepts, level 2 and the image are saved, then signing the token throws
    because [jwt] is not bound in the drivers controller, and the [catch]
    answers 500. *)
Lemma license_saved_then_500 :
  let r := DriversController.uploadLicense Sample.cloudOk (Some 7)
             (Some "lic.png") (Sample.atKyc 1) in
  kycLevelOf (users (Sample.atKyc 1)) 7 = Some 1
  /\ fst r = Json 500 "jwt is not defined"
  /\ kycLevelOf (users (snd r)) 7 = Some 2.
Proof. repeat split. Qed.

(** ** Splitting the full name *)

Lemma filterBoolean_truthy (l : list string) (t : string) :
  In t (Js.filterBoolean l) -> Js.truthy (Some t) = true.
Proof.
  unfold Js.filterBoolean. intros H. apply filter_In in H as [_ H]. exact H.
Qed.

Lemma findById_save (c : list User.doc) (i : ObjectId) (u u' : User.doc) :
  User.findById c i = Some u -> User._id u' = User._id u ->
  User.findById (User.save c u') i = Some u'.
Proof.
  unfold User.findById, User.save. intros Hf Hid.
  induction c as [|o c IH]; cbn [find map] in *; [discriminate|].
  destruct (Nat.eqb_spec (User._id o) i) as [E|E].
  - injection Hf as ->. rewrite Hid, Nat.eqb_refl, Hid, E.
    now rewrite Nat.eqb_refl.
  - assert (Ho : (User._id o =? User._id u') = false).
    { apply Nat.eqb_neq. rewrite Hid.
      apply find_some in Hf as [_ Hu]. apply Nat.eqb_eq in Hu. congruence. }
    rewrite Ho. apply Nat.eqb_neq in E. rewrite E. now apply IH.
Qed.

(** C10.  [submitKYC] (either copy) on a request with a user id, a country
    and the three images: a full name with three or more non-empty
    space-separated tokens is accepted once the user exists and the uploads
    succeed, the first token is stored as [firstName], the second as
    [lastName] and the others are dropped; a full name with exactly one
    non-empty token is rejected with the name validation error and nothing
    is written. *)
Theorem full_name_tokens (alsoVerify : bool) (cloud : Cloud)
    (userId : ObjectId) (fullName country : string) (gender : option string)
    (frontImage backImage selfieImage : string) (db : Db) :
  country <> "" ->
  let body :=
    KycBody.mk (Some userId) (Some fullName) (Some country) gender
      (Some frontImage) (Some backImage) (Some selfieImage) in
  let r := UserController.submitKYCWith alsoVerify cloud body db in
  let tokens := Js.filterBoolean (Js.split " " fullName) in
  (forall t1 t2 t3 rest user front back selfie,
     tokens = t1 :: t2 :: t3 :: rest ->
     User.findById (users db) userId = Some user ->
     cloud frontImage "kyc/front" = SecureUrl front ->
     cloud backImage "kyc/back" = SecureUrl back ->
     cloud selfieImage "kyc/selfie" = SecureUrl selfie ->
     fst r = Json 200 "KYC Level 1 completed successfully"
     /\ option_map
          (fun u => (User.firstName u, User.lastName u, User.kycLevel u))
          (User.findById (users (snd r)) userId)
        = Some (t1, t2, 1))
  /\ (forall t1, tokens = [t1] -> r = (NameValidationError, db)).
Proof.
  intros Hc body r tokens.
  assert (Hfull : forall t l, tokens = t :: l -> Js.truthy (Some fullName) = true).
  { intros t l Ht. apply truthy_Some. intros ->.
    subst tokens. discriminate. }
  split.
  - intros t1 t2 t3 rest user front back selfie Ht Hu Hf Hb Hs.
    subst r. unfold UserController.submitKYCWith.
    cbn [KycBody.userId KycBody.frontImage KycBody.backImage
      KycBody.selfieImage KycBody.fullName KycBody.country KycBody.gender
      body Js.value].
    rewrite (Hfull _ _ Ht), (truthy_Some country Hc). cbn [andb negb].
    fold tokens. rewrite Ht. cbn [Js.destructure2 nth_error].
    assert (H1 : Js.truthy (Some t1) = true)
      by (apply filterBoolean_truthy with (Js.split " " fullName);
          fold tokens; rewrite Ht; now left).
    assert (H2 : Js.truthy (Some t2) = true)
      by (apply filterBoolean_truthy with (Js.split " " fullName);
          fold tokens; rewrite Ht; right; now left).
    rewrite H1, H2. cbn [andb negb]. rewrite Hu, Hf, Hb, Hs.
    cbn [fst snd users withUsers]. split; [reflexivity|].
    erewrite findById_save; [reflexivity | exact Hu | reflexivity].
  - intros t1 Ht. subst r. unfold UserController.submitKYCWith.
    cbn [KycBody.userId KycBody.frontImage KycBody.backImage
      KycBody.selfieImage KycBody.fullName KycBody.country KycBody.gender
      body Js.value].
    rewrite (Hfull _ _ Ht), (truthy_Some country Hc). cbn [andb negb].
    fold tokens. rewrite Ht. cbn [Js.destructure2 nth_error Js.truthy].
    rewrite andb_false_r. reflexivity.
Qed.

Lemma full_name_tokens_witness :
  let r := UserController.submitKYC Sample.cloudOk
             (Sample.kycBody 7 "Mary Ann  Lee") (Sample.atKyc 0) in
  (fst r = Json 200 "KYC Level 1 completed successfully"
   /\ option_map
        (fun u => (User.firstName u, User.lastName u, User.kycLevel u))
        (User.findById (users (snd r)) 7)
      = Some ("Mary", "Ann", 1))
  /\ UserController.submitKYC_controllers Sample.cloudOk
       (Sample.kycBody 7 " Mary ") (Sample.atKyc 0)
     = (NameValidationError, Sample.atKyc 0).
Proof.
  cbv zeta. split.
  - destruct (full_name_tokens false Sample.cloudOk 7 "Mary Ann  Lee" "PK"
                (Some "f") "front.png" "back.png" "selfie.png"
                (Sample.atKyc 0)) as [H _]; [discriminate|].
    exact (H "Mary" "Ann" "Lee" [] _ _ _ _ eq_refl eq_refl eq_refl eq_refl
             eq_refl).
  - destruct (full_name_tokens true Sample.cloudOk 7 " Mary " "PK"
                (Some "f") "front.png" "back.png" "selfie.png"
                (Sample.atKyc 0)) as [_ H]; [discriminate|].
    exact (H "Mary" eq_refl).
Defined.

(** ** Running the walk twice *)
Section LoopFacts.

Import User Leveling.

Lemma promoteReferrals_idle target subCount refs (c : list doc) total :
  (forall r, In r refs -> qualifies target subCount c r = false) ->
  promoteReferrals target subCount refs c total = (c, total).
Proof.
  induction refs as [|r rest IH]; intros H; cbn [promoteReferrals];
    [reflexivity|].
  pose proof (H r (or_introl eq_refl)) as Hr. unfold qualifies in Hr.
  rewrite Hr. apply IH. intros r' Hr'. apply H. now right.
Qed.

Lemma saveLevel_miss (l : list doc) (i : ObjectId) (t : nat) :
  ~ In i (map _id l) -> saveLevel l i t = l.
Proof.
  induction l as [|w l IH]; intros H; [reflexivity|].
  cbn [saveLevel map] in *.
  destruct (Nat.eqb_spec (_id w) i) as [E|E];
    [exfalso; apply H; now left|].
  f_equal. apply IH. intros Hi. apply H. now right.
Qed.

Lemma saveLevel_app (l1 l2 : list doc) (i : ObjectId) (t : nat) :
  saveLevel (l1 ++ l2) i t = saveLevel l1 i t ++ saveLevel l2 i t.
Proof. apply map_app. Qed.

(** The loop over the answer to a query, unrolled along the collection:
    [pre] has been passed, [post] is still ahead. *)
Lemma promoteReferrals_unrolled target sel subCount (c : list doc) :
  NoDup (map _id c) ->
  let F := fun w => if sel w && qualifies target subCount c w
                    then setLevel w target else w in
  (forall pre post r, c = pre ++ r :: post -> sel r = true ->
     subCount (map F pre ++ r :: post) r = subCount c r) ->
  forall post pre total, c = pre ++ post ->
    fst (promoteReferrals target subCount (filter sel post)
           (map F pre ++ post) total)
    = map F c.
Proof.
  intros Hnd F Hcount. induction post as [|w post IH]; intros pre total Hc.
  - cbn [filter promoteReferrals fst]. rewrite Hc, !app_nil_r.
    reflexivity.
  - assert (Hc' : c = (pre ++ [w]) ++ post)
      by (now rewrite <- app_assoc).
    assert (Hstep : forall fw, map F pre ++ fw :: post
                               = (map F pre ++ [fw]) ++ post)
      by (intros; now rewrite <- app_assoc).
    cbn [filter]. destruct (sel w) eqn:Hsel.
    + cbn [promoteReferrals]. rewrite (Hcount pre post w Hc Hsel).
      fold (qualifies target subCount c w).
      assert (HF : F w = if qualifies target subCount c w
                         then setLevel w target else w)
        by (unfold F; now rewrite Hsel).
      destruct (qualifies target subCount c w).
      * assert (Hsave : saveLevel (map F pre ++ w :: post) (_id w) target
                        = map F (pre ++ [w]) ++ post).
        { rewrite Hc in Hnd. rewrite map_app in Hnd. cbn [map] in Hnd.
          apply NoDup_remove_2 in Hnd.
          rewrite saveLevel_app. cbn [saveLevel map].
          rewrite Nat.eqb_refl.
          change (map (fun u => if _id u =? _id w then setLevel u target
                                else u) post)
            with (saveLevel post (_id w) target).
          change (map (fun u => if _id u =? _id w then setLevel u target
                                else u) (map F pre))
            with (saveLevel (map F pre) (_id w) target).
          rewrite !saveLevel_miss.
          - rewrite map_app. cbn [map]. rewrite HF.
            now rewrite <- app_assoc.
          - intros Hin. apply Hnd. apply in_or_app. now right.
          - intros Hin. apply Hnd. apply in_or_app. left.
            rewrite map_map in Hin.
            erewrite map_ext in Hin; [exact Hin|].
            intros a. unfold F.
            now destruct (sel a && qualifies target subCount c a). }
        rewrite Hsave. now apply IH.
      * rewrite Hstep, <- HF.
        change (map F pre ++ [F w]) with (map F pre ++ map F [w]).
        rewrite <- map_app. now apply IH.
    + assert (HF : F w = w) by (unfold F; now rewrite Hsel).
      rewrite Hstep. rewrite <- HF at 1.
      change (map F pre ++ [F w]) with (map F pre ++ map F [w]).
      rewrite <- map_app. now apply IH.
Qed.

Lemma promoteReferrals_promoted target sel subCount (c : list doc) total :
  NoDup (map _id c) ->
  (forall pre post r, c = pre ++ r :: post -> sel r = true ->
     subCount
       (map (fun w => if sel w && qualifies target subCount c w
                      then setLevel w target else w) pre ++ r :: post) r
     = subCount c r) ->
  fst (promoteReferrals target subCount (filter sel c) c total)
  = promoted target sel subCount c.
Proof.
  intros Hnd Hcount.
  exact (promoteReferrals_unrolled target sel subCount c Hnd Hcount c []
           total eq_refl).
Qed.

End LoopFacts.

Section FrameFacts.

Import User Leveling.

Variable may : doc -> Prop.

Lemma touches_refl (c : list doc) : touches may c c.
Proof. induction c; constructor; auto. Qed.

Lemma touches_trans (c1 c2 c3 : list doc) :
  (forall w w', shape w = shape w' -> may w' -> may w) ->
  touches may c1 c2 -> touches may c2 c3 -> touches may c1 c3.
Proof.
  intros Hmay H12. revert c3.
  induction H12 as [|w w2 c c2 [Hs Hw] _ IH]; intros c3 H23;
    inversion H23 as [|? w3 ? c3' [Hs' Hw'] H23']; subst; constructor;
    [|now apply IH].
  split; [congruence|].
  destruct Hw as [->|Hw]; [exact Hw'|]. now right.
Qed.

Lemma touches_shape (c c' : list doc) :
  touches may c c' -> map shape c = map shape c'.
Proof.
  induction 1 as [|w w' c c' [Hs _] _ IH]; cbn [map]; [reflexivity|].
  now rewrite Hs, IH.
Qed.

Lemma touches_map (F : doc -> doc) (c : list doc) :
  (forall w, shape w = shape (F w) /\ (F w = w \/ may w)) ->
  touches may c (map F c).
Proof. intros H. induction c; cbn [map]; constructor; auto. Qed.

Lemma touches_promoted_upto target sel subCount (c0 pre post : list doc) :
  (forall w, sel w = true -> may w) ->
  touches may (pre ++ post)
    (map (fun w => if sel w && qualifies target subCount c0 w
                   then setLevel w target else w) pre ++ post).
Proof.
  intros Hsel. apply Forall2_app; [|apply touches_refl].
  apply touches_map. intros w. destruct (sel w) eqn:E; cbn [andb].
  - destruct (qualifies target subCount c0 w); [|now split; [|left]].
    split; [reflexivity|]. right. now apply Hsel.
  - now split; [|left].
Qed.

Lemma touches_promoted target sel subCount (c : list doc) :
  (forall w, sel w = true -> may w) ->
  touches may c (promoted target sel subCount c).
Proof.
  intros Hsel.
  pose proof (touches_promoted_upto target sel subCount c c [] Hsel) as H.
  now rewrite !app_nil_r in H.
Qed.

Lemma touches_saveLevel (c : list doc) (i : ObjectId) (l : nat) :
  (forall w, _id w = i -> may w) ->
  touches may c (saveLevel c i l).
Proof.
  intros Hi. apply touches_map. intros w.
  destruct (Nat.eqb_spec (_id w) i); [|now split; [|left]].
  split; [reflexivity|]. right. now apply Hi.
Qed.

Lemma touches_In (c c' : list doc) (w' : doc) :
  touches may c c' -> In w' c' ->
  exists w, In w c /\ shape w = shape w' /\ (w' = w \/ may w).
Proof.
  induction 1 as [|w w0 c c' [Hs Hw] _ IH]; intros Hin; [destruct Hin|].
  destruct Hin as [<-|Hin].
  - exists w. split; [now left | now split].
  - destruct (IH Hin) as (x & Hx & H). exists x. split; [now right | exact H].
Qed.

(** A count by sponsor code and level is the same in [c] and [c'] when
    nobody with that sponsor code may have been touched. *)
Lemma count_frame (c c' : list doc) (l : nat) (s : string) :
  touches may c c' ->
  (forall z, In z c -> sponsorBy z = s -> ~ may z) ->
  findByLevelAndSponsorBy c' l s = findByLevelAndSponsorBy c l s.
Proof.
  unfold findByLevelAndSponsorBy.
  induction 1 as [|w w' c c' [Hs Hw] _ IH]; intros Hz; [reflexivity|].
  cbn [filter].
  assert (Hby : sponsorBy w' = sponsorBy w)
    by (change (sponsorBy (shape w') = sponsorBy (shape w));
        now rewrite Hs).
  rewrite IH by (intros z Hin; apply Hz; now right).
  rewrite Hby. destruct (String.eqb_spec (sponsorBy w) s) as [E|E].
  - destruct Hw as [->|Hw]; [reflexivity|].
    now destruct (Hz w (or_introl eq_refl) E).
  - now rewrite !andb_false_r.
Qed.

End FrameFacts.

Lemma touches_weaken (may may' : User.doc -> Prop) (c c' : list User.doc) :
  (forall w, may w -> may' w) -> touches may c c' -> touches may' c c'.
Proof.
  intros H. induction 1 as [|w w' c c' [Hs Hw] _ IH]; constructor; auto.
  split; [exact Hs|]. destruct Hw; auto.
Qed.

(** Queries by sponsor code alone see only the shape. *)
Lemma subReferrals_shape (c c' : list User.doc) (r : User.doc) :
  map shape c = map shape c' ->
  Leveling.subReferrals c' r = Leveling.subReferrals c r.
Proof.
  intros H. unfold Leveling.subReferrals, User.findBySponsorBy.
  assert (Hf : forall l,
             map shape
               (filter (fun u => String.eqb (User.sponsorBy u)
                                   (User.sponsorId r)) l)
             = filter (fun u => String.eqb (User.sponsorBy u)
                                  (User.sponsorId r)) (map shape l)).
  { induction l as [|a l IH]; [reflexivity|]. cbn [filter map].
    change (User.sponsorBy (shape a)) with (User.sponsorBy a).
    destruct (String.eqb (User.sponsorBy a) (User.sponsorId r)); cbn [map];
      now rewrite IH. }
  transitivity
    (List.length
       (map shape
          (filter (fun u => String.eqb (User.sponsorBy u) (User.sponsorId r))
             c'))); [symmetry; apply length_map|].
  rewrite Hf, <- H, <- Hf. apply length_map.
Qed.

(** In two collections of the same shape, a document of one has its
    counterpart in the other. *)
Lemma shape_In (c c' : list User.doc) (w' : User.doc) :
  map shape c = map shape c' -> In w' c' ->
  exists w, In w c /\ shape w = shape w'.
Proof.
  intros H Hin. apply (in_map shape) in Hin. rewrite <- H in Hin.
  apply in_map_iff in Hin as (w & Hw & Hin). eauto.
Qed.

Section EvaluateFacts.

Import User Leveling.

(** A stable user is left as it is. *)
Lemma evaluate_stable (c : list doc) (u : doc) :
  stable c u -> evaluate c u = c.
Proof.
  intros (S1 & S5 & Sx). unfold evaluate.
  rewrite promoteReferrals_idle.
  2:{ intros r Hr. apply filter_In in Hr as [Hin Hby].
      apply String.eqb_eq in Hby.
      destruct (Sx r Hin Hby) as (S2 & _ & _). unfold qualifies.
      destruct (Nat.leb_spec 3 (subReferrals c r)); [|reflexivity].
      destruct (Nat.ltb_spec (level r) 2); [|reflexivity].
      exfalso. apply S2. now split. }
  rewrite promoteReferrals_idle.
  2:{ intros r Hr. apply filter_In in Hr as [Hin Hq].
      apply andb_true_iff in Hq as [Hl Hby].
      apply Nat.eqb_eq in Hl. apply String.eqb_eq in Hby.
      destruct (Sx r Hin Hby) as (_ & S3 & _). unfold qualifies.
      destruct (Nat.leb_spec 3 (subReferralsAt 2 c r)); [|reflexivity].
      specialize (S3 Hl). lia. }
  rewrite promoteReferrals_idle.
  2:{ intros r Hr. apply filter_In in Hr as [Hin Hq].
      apply andb_true_iff in Hq as [Hl Hby].
      apply Nat.eqb_eq in Hl. apply String.eqb_eq in Hby.
      destruct (Sx r Hin Hby) as (_ & _ & S4). unfold qualifies.
      destruct (Nat.leb_spec 3 (subReferralsAt 3 c r)); [|reflexivity].
      specialize (S4 Hl). lia. }
  assert (H1 : (3 <=? List.length (sponsorTree u)) && (level u <? 1) = false).
  { destruct (Nat.leb_spec 3 (List.length (sponsorTree u)));
      [|reflexivity].
    destruct (Nat.ltb_spec (level u) 1); [|reflexivity].
    exfalso. apply S1. now split. }
  rewrite H1. cbn [Nat.leb andb].
  destruct (Nat.ltb_spec 4 (level u)); [lia|].
  now rewrite Nat.eqb_refl.
Qed.

(** When sponsor codes are unique and [u] does not sponsor itself, nobody
    sponsored by [u] carries the code of [u]. *)
Lemma referral_code_differs (c c' : list doc) (u r : doc) :
  NoDup (map sponsorId c) -> In u c -> sponsorBy u <> sponsorId u ->
  map shape c = map shape c' -> In r c' ->
  sponsorBy r = sponsorId u -> sponsorId r <> sponsorId u.
Proof.
  intros Hnd Hu Hself Hs Hr Hby Hcode.
  destruct (shape_In c c' r Hs Hr) as (r0 & Hr0 & Hsh).
  assert (E : sponsorId r0 = sponsorId u)
    by (change (sponsorId (shape r0) = sponsorId u); now rewrite Hsh).
  pose proof (unique_key sponsorId c Hnd r0 u Hr0 Hu E) as ->.
  apply Hself.
  change (sponsorBy (shape u) = sponsorId u). now rewrite Hsh.
Qed.

(** One evaluation as three passes over the collection and a final
    write. *)
Lemma evaluate_stages (c : list doc) (u : doc) :
  NoDup (map _id c) -> NoDup (map sponsorId c) -> In u c ->
  sponsorBy u <> sponsorId u ->
  let c2 :=
    promoted 2 (fun w => String.eqb (sponsorBy w) (sponsorId u))
      subReferrals c in
  let c3 :=
    promoted 3 (fun w => (level w =? 2)
                         && String.eqb (sponsorBy w) (sponsorId u))
      (subReferralsAt 2) c2 in
  let c4 :=
    promoted 4 (fun w => (level w =? 3)
                         && String.eqb (sponsorBy w) (sponsorId u))
      (subReferralsAt 3) c3 in
  exists lv5,
    lv5 <= 4
    /\ (3 <= List.length (sponsorTree u) -> 1 <= lv5)
    /\ evaluate c u
       = if lv5 =? level u then c4 else saveLevel c4 (_id u) lv5.
Proof.
  intros Hid Hcode Hu Hself c2 c3 c4.
  set (may := fun w : doc => sponsorBy w = sponsorId u).
  assert (T2 : touches may c c2).
  { apply touches_promoted. intros w Hw. now apply String.eqb_eq in Hw. }
  assert (T3 : touches may c2 c3).
  { apply touches_promoted. intros w Hw.
    apply andb_true_iff in Hw as [_ Hw]. now apply String.eqb_eq in Hw. }
  pose proof (touches_shape may _ _ T2) as Sh2.
  pose proof (touches_shape may _ _ T3) as Sh3.
  assert (Sh3' : map shape c = map shape c3) by congruence.
  assert (Hid2 : NoDup (map _id c2))
    by (now rewrite <- (shape_map _id c c2 (fun _ => eq_refl) Sh2)).
  assert (Hid3 : NoDup (map _id c3))
    by (now rewrite <- (shape_map _id c c3 (fun _ => eq_refl) Sh3')).
  (* the counts read inside the last two loops do not move *)
  assert (Hframe : forall c0 l target sel pre post r,
            map shape c = map shape c0 ->
            (forall w, sel w = true -> may w) ->
            c0 = pre ++ r :: post -> sel r = true ->
            subReferralsAt l
              (map (fun w => if sel w && qualifies target (subReferralsAt l)
                                            c0 w
                             then setLevel w target else w) pre
               ++ r :: post) r
            = subReferralsAt l c0 r).
  { intros c0 l target sel pre post r Hs0 Hsel Hc0 Hr.
    unfold subReferralsAt. f_equal.
    apply count_frame with may.
    - rewrite Hc0 at 1. now apply touches_promoted_upto.
    - intros z _ Hz Hmay. unfold may in Hmay.
      apply (referral_code_differs c c0 u r Hcode Hu Hself Hs0).
      + rewrite Hc0. apply in_or_app. right. now left.
      + now apply Hsel.
      + congruence. }
  unfold evaluate.
  pose proof (promoteReferrals_promoted 2
                (fun w => String.eqb (sponsorBy w) (sponsorId u))
                subReferrals c 0 Hid) as E2.
  change (filter _ c) with (findBySponsorBy c (sponsorId u)) in E2.
  destruct (promoteReferrals 2 subReferrals _ c 0) as [c2' t2].
  cbn [fst] in E2. rewrite E2.
  2:{ intros pre post r Hc _. apply subReferrals_shape.
      rewrite Hc at 1.
      apply (touches_shape (fun _ => True)).
      apply touches_promoted_upto. trivial. }
  fold c2.
  pose proof (promoteReferrals_promoted 3
                (fun w => (level w =? 2)
                          && String.eqb (sponsorBy w) (sponsorId u))
                (subReferralsAt 2) c2 0 Hid2) as E3.
  change (filter _ c2) with (findByLevelAndSponsorBy c2 2 (sponsorId u))
    in E3.
  destruct (promoteReferrals 3 (subReferralsAt 2) _ c2 0) as [c3' t3].
  cbn [fst] in E3. rewrite E3.
  2:{ intros pre post r Hc Hr. apply Hframe; trivial.
      intros w Hw. apply andb_true_iff in Hw as [_ Hw].
      now apply String.eqb_eq in Hw. }
  fold c3.
  pose proof (promoteReferrals_promoted 4
                (fun w => (level w =? 3)
                          && String.eqb (sponsorBy w) (sponsorId u))
                (subReferralsAt 3) c3 0 Hid3) as E4.
  change (filter _ c3) with (findByLevelAndSponsorBy c3 3 (sponsorId u))
    in E4.
  destruct (promoteReferrals 4 (subReferralsAt 3) _ c3 0) as [c4' t4].
  cbn [fst] in E4. rewrite E4.
  2:{ intros pre post r Hc Hr. apply Hframe; trivial.
      intros w Hw. apply andb_true_iff in Hw as [_ Hw].
      now apply String.eqb_eq in Hw. }
  fold c4.
  match goal with
  | |- exists lv5, _ /\ _ /\ (if ?x =? _ then _ else _) = _ => exists x
  end.
  split; [|split; [|reflexivity]].
  - match goal with |- (if 4 <? ?x then _ else _) <= 4 =>
      destruct (Nat.ltb_spec 4 x); lia end.
  - intros Htree.
    remember (level u) as l0 eqn:El0. clear El0.
    name_levels.
    match goal with H : _ /\ (?b = true -> _) |- _ =>
      match b with
      | 3 <=? List.length (sponsorTree u) =>
          destruct H as [? Hb];
          specialize (Hb (proj2 (Nat.leb_le _ _) Htree))
      end end.
    match goal with |- _ <= (if 4 <? ?x then _ else _) =>
      destruct (Nat.ltb_spec 4 x); lia end.
Qed.

End EvaluateFacts.

Section Settling.

Import User Leveling.

Variables (c : list doc) (u : doc).
Hypothesis ids_unique : NoDup (map _id c).
Hypothesis codes_unique : NoDup (map sponsorId c).
Hypothesis u_stored : In u c.
Hypothesis not_own_sponsor : sponsorBy u <> sponsorId u.
Hypothesis not_sponsored_by_referral :
  forall x, In x c -> sponsorBy x = sponsorId u -> sponsorBy u <> sponsorId x.

Let may : doc -> Prop :=
  fun w => sponsorBy w = sponsorId u \/ _id w = _id u.

Lemma may_shape (w w' : doc) : shape w = shape w' -> may w' -> may w.
Proof.
  intros Hs. unfold may.
  change (sponsorBy w') with (sponsorBy (shape w')).
  change (_id w') with (_id (shape w')). now rewrite <- Hs.
Qed.

(** The counts read for a referral of [u] are those of [c] in every
    collection that differs from [c] on the referrals of [u] and on [u]
    at most. *)
Lemma referral_counts (c' : list doc) (x y : doc) (l : nat) :
  touches may c c' -> In x c -> sponsorBy x = sponsorId u ->
  sponsorId y = sponsorId x ->
  subReferrals c' y = subReferrals c x
  /\ subReferralsAt l c' y = subReferralsAt l c x.
Proof.
  intros T Hx Hby Hy. split.
  - unfold subReferrals. rewrite Hy.
    apply (subReferrals_shape c c' x). now apply touches_shape with may.
  - unfold subReferralsAt. rewrite Hy. f_equal.
    apply count_frame with may; [exact T|].
    intros z Hz Hzx [Hm|Hm].
    + apply (referral_code_differs c c u x codes_unique u_stored
               not_own_sponsor eq_refl Hx Hby). congruence.
    + pose proof (unique_key _id c ids_unique z u Hz u_stored Hm) as ->.
      now apply (not_sponsored_by_referral x Hx Hby).
Qed.

Let c2 : list doc :=
  promoted 2 (fun w => String.eqb (sponsorBy w) (sponsorId u))
    subReferrals c.
Let c3 : list doc :=
  promoted 3 (fun w => (level w =? 2)
                       && String.eqb (sponsorBy w) (sponsorId u))
    (subReferralsAt 2) c2.
Let c4 : list doc :=
  promoted 4 (fun w => (level w =? 3)
                       && String.eqb (sponsorBy w) (sponsorId u))
    (subReferralsAt 3) c3.

Lemma stage2_touches : touches may c c2.
Proof.
  apply touches_promoted. intros w Hw. left. now apply String.eqb_eq in Hw.
Qed.

Lemma stage3_touches : touches may c c3.
Proof.
  apply touches_trans with c2; [exact may_shape | exact stage2_touches |].
  apply touches_promoted. intros w Hw. left.
  apply andb_true_iff in Hw as [_ Hw]. now apply String.eqb_eq in Hw.
Qed.

Lemma stage4_touches : touches may c c4.
Proof.
  apply touches_trans with c3; [exact may_shape | exact stage3_touches |].
  apply touches_promoted. intros w Hw. left.
  apply andb_true_iff in Hw as [_ Hw]. now apply String.eqb_eq in Hw.
Qed.

Lemma evaluate_touches : touches may c (evaluate c u).
Proof.
  destruct (evaluate_stages c u ids_unique codes_unique u_stored
              not_own_sponsor) as (lv5 & _ & _ & ->).
  fold c2. fold c3. fold c4.
  destruct (lv5 =? level u); [exact stage4_touches|].
  apply touches_trans with c4; [exact may_shape | exact stage4_touches |].
  apply touches_saveLevel. intros w Hw. now right.
Qed.

Let F2 : doc -> doc :=
  fun w => if String.eqb (sponsorBy w) (sponsorId u)
              && qualifies 2 subReferrals c w
           then setLevel w 2 else w.
Let F3 : doc -> doc :=
  fun w => if ((level w =? 2) && String.eqb (sponsorBy w) (sponsorId u))
              && qualifies 3 (subReferralsAt 2) c2 w
           then setLevel w 3 else w.
Let F4 : doc -> doc :=
  fun w => if ((level w =? 3) && String.eqb (sponsorBy w) (sponsorId u))
              && qualifies 4 (subReferralsAt 3) c3 w
           then setLevel w 4 else w.

Lemma stage4_In (w4 : doc) :
  In w4 c4 -> exists w, In w c /\ w4 = F4 (F3 (F2 w)).
Proof.
  intros H. apply in_map_iff in H as (w3 & <- & H).
  apply in_map_iff in H as (w2 & <- & H).
  apply in_map_iff in H as (w & <- & H). now exists w.
Qed.

Lemma stages_keep_shape (w : doc) : shape (F4 (F3 (F2 w))) = shape w.
Proof.
  unfold F4, F3, F2.
  repeat match goal with
         | |- context [if ?b then setLevel ?a ?k else ?a] =>
             destruct b; rewrite ?shape_setLevel
         end; reflexivity.
Qed.

Lemma stages_skip_u : F4 (F3 (F2 u)) = u.
Proof.
  assert (E : String.eqb (sponsorBy u) (sponsorId u) = false)
    by (now apply String.eqb_neq).
  unfold F4, F3, F2. rewrite E. cbn [andb]. rewrite E.
  rewrite !andb_false_r. cbn [andb]. rewrite E.
  now rewrite !andb_false_r.
Qed.

(** Where a referral of [u] stands after the three passes. *)
Lemma referral_settled (x : doc) :
  In x c -> sponsorBy x = sponsorId u ->
  let x4 := F4 (F3 (F2 x)) in
  ~ (3 <= subReferrals c x /\ level x4 < 2)
  /\ (level x4 = 2 -> subReferralsAt 2 c x < 3)
  /\ (level x4 = 3 -> subReferralsAt 3 c x < 3).
Proof.
  intros Hx Hby.
  assert (Hsel : forall w, shape w = shape x ->
            String.eqb (sponsorBy w) (sponsorId u) = true).
  { intros w Hw. apply String.eqb_eq.
    change (sponsorBy (shape w) = sponsorId u). now rewrite Hw. }
  assert (Hcode : forall w, shape w = shape x -> sponsorId w = sponsorId x).
  { intros w Hw. change (sponsorId (shape w) = sponsorId (shape x)).
    now rewrite Hw. }
  assert (S2 : shape (F2 x) = shape x)
    by (unfold F2; destruct (_ && _); reflexivity).
  assert (S3 : shape (F3 (F2 x)) = shape x)
    by (unfold F3; destruct (_ && _); [rewrite shape_setLevel|]; exact S2).
  assert (L2 : level (F2 x)
               = if (3 <=? subReferrals c x) && (level x <? 2)
                 then 2 else level x).
  { unfold F2, qualifies. rewrite (Hsel x eq_refl). cbn [andb].
    destruct ((3 <=? subReferrals c x) && (level x <? 2)); reflexivity. }
  assert (L3 : level (F3 (F2 x))
               = if (level (F2 x) =? 2)
                    && ((3 <=? subReferralsAt 2 c x) && (level (F2 x) <? 3))
                 then 3 else level (F2 x)).
  { unfold F3, qualifies. rewrite (Hsel _ S2), andb_true_r.
    rewrite (proj2 (referral_counts c2 x (F2 x) 2 stage2_touches Hx Hby
                      (Hcode _ S2))).
    match goal with |- level (if ?b then _ else _) = _ =>
      destruct b; reflexivity end. }
  assert (L4 : level (F4 (F3 (F2 x)))
               = if (level (F3 (F2 x)) =? 3)
                    && ((3 <=? subReferralsAt 3 c x)
                        && (level (F3 (F2 x)) <? 4))
                 then 4 else level (F3 (F2 x))).
  { unfold F4, qualifies. rewrite (Hsel _ S3), andb_true_r.
    rewrite (proj2 (referral_counts c3 x (F3 (F2 x)) 3 stage3_touches Hx Hby
                      (Hcode _ S3))).
    match goal with |- level (if ?b then _ else _) = _ =>
      destruct b; reflexivity end. }
  cbv zeta.
  remember (level (F4 (F3 (F2 x)))) as a4 eqn:E4. clear E4.
  remember (level (F3 (F2 x))) as a3 eqn:E3. clear E3.
  remember (level (F2 x)) as a2 eqn:E2. clear E2.
  destruct (Nat.leb_spec 3 (subReferrals c x)),
    (Nat.leb_spec 3 (subReferralsAt 2 c x)),
    (Nat.leb_spec 3 (subReferralsAt 3 c x)),
    (Nat.ltb_spec (level x) 2),
    (Nat.eqb_spec a2 2), (Nat.ltb_spec a2 3),
    (Nat.eqb_spec a3 3), (Nat.ltb_spec a3 4);
    cbn [andb] in L2, L3, L4; repeat split; lia.
Qed.

(** After its evaluation [u] is stable. *)
Lemma evaluate_settles (u' : doc) :
  In u' (evaluate c u) -> _id u' = _id u -> stable (evaluate c u) u'.
Proof.
  intros Hu' Hid. pose proof evaluate_touches as T.
  destruct (evaluate_stages c u ids_unique codes_unique u_stored
              not_own_sponsor) as (lv5 & Hcap & Htree & E).
  fold c2 in E. fold c3 in E. fold c4 in E.
  assert (Hw4 : forall w4, In w4 c4 -> _id w4 = _id u -> w4 = u).
  { intros w4 Hin Hw. apply stage4_In in Hin as (w & Hin & ->).
    assert (Hwid : _id w = _id u).
    { rewrite <- Hw. change (_id (shape w) = _id (shape (F4 (F3 (F2 w))))).
      now rewrite stages_keep_shape. }
    rewrite (unique_key _id c ids_unique w u Hin u_stored Hwid).
    apply stages_skip_u. }
  assert (Hu : shape u' = shape u /\ level u' = lv5).
  { rewrite E in Hu'. destruct (Nat.eqb_spec lv5 (level u)) as [El|El].
    - rewrite (Hw4 u' Hu' Hid). now split.
    - apply in_map_iff in Hu' as (w4 & <- & Hin).
      destruct (Nat.eqb_spec (_id w4) (_id u)) as [Ew|Ew].
      + rewrite (Hw4 w4 Hin Ew). now split.
      + now destruct Ew. }
  destruct Hu as [Hshape Hlevel].
  assert (Hsid : sponsorId u' = sponsorId u)
    by (change (sponsorId (shape u') = sponsorId (shape u));
        now rewrite Hshape).
  assert (Hst : sponsorTree u' = sponsorTree u)
    by (change (sponsorTree (shape u') = sponsorTree (shape u));
        now rewrite Hshape).
  split; [|split].
  - rewrite Hst, Hlevel. intros [H3 H1]. specialize (Htree H3). lia.
  - now rewrite Hlevel.
  - intros x' Hx' Hby'. rewrite Hsid in Hby'.
    assert (Hx4 : In x' c4).
    { rewrite E in Hx'. destruct (lv5 =? level u); [exact Hx'|].
      apply in_map_iff in Hx' as (w4 & <- & Hin).
      destruct (Nat.eqb_spec (_id w4) (_id u)) as [Ew|Ew]; [|exact Hin].
      exfalso. rewrite (Hw4 w4 Hin Ew) in Hby'.
      now apply not_own_sponsor. }
    apply stage4_In in Hx4 as (x & Hx & ->).
    assert (Hby : sponsorBy x = sponsorId u).
    { rewrite <- Hby'.
      change (sponsorBy (shape x) = sponsorBy (shape (F4 (F3 (F2 x))))).
      now rewrite stages_keep_shape. }
    assert (Hcode : sponsorId (F4 (F3 (F2 x))) = sponsorId x).
    { change (sponsorId (shape (F4 (F3 (F2 x)))) = sponsorId (shape x)).
      now rewrite stages_keep_shape. }
    destruct (referral_counts (evaluate c u) x (F4 (F3 (F2 x))) 2 T Hx Hby
                Hcode) as [N N2].
    destruct (referral_counts (evaluate c u) x (F4 (F3 (F2 x))) 3 T Hx Hby
                Hcode) as [_ N3].
    rewrite N, N2, N3. now apply referral_settled.
Qed.

Lemma stages_bounds (w : doc) :
  level w <= level (F4 (F3 (F2 w))) <= Nat.max (level w) 4.
Proof.
  assert (H : forall (b : bool) k c0 cnt a,
            level a
            <= level (if b && qualifies k cnt c0 a then setLevel a k else a)
            <= Nat.max (level a) k).
  { intros b k c0 cnt a. unfold qualifies.
    destruct b; cbn [andb]; [|lia].
    destruct (3 <=? cnt c0 a); cbn [andb]; [|lia].
    destruct (Nat.ltb_spec (level a) k); cbn [level setLevel]; lia. }
  unfold F4, F3.
  pose proof (H (String.eqb (sponsorBy w) (sponsorId u)) 2 c subReferrals w)
    as H2. fold (F2 w) in H2.
  pose proof (H ((level (F2 w) =? 2)
                 && String.eqb (sponsorBy (F2 w)) (sponsorId u))
                3 c2 (subReferralsAt 2) (F2 w)) as H3.
  fold (F3 (F2 w)) in H3.
  pose proof (H ((level (F3 (F2 w)) =? 3)
                 && String.eqb (sponsorBy (F3 (F2 w))) (sponsorId u))
                4 c3 (subReferralsAt 3) (F3 (F2 w))) as H4.
  fold (F3 (F2 w)). lia.
Qed.

(** A user that is stable stays so when [u] is evaluated, provided [u]
    is neither that user, nor one of its referrals, nor a referral of
    one of them. *)
Lemma evaluate_keeps_stable (s s' : doc) :
  In s c -> _id u <> _id s -> sponsorBy u <> sponsorId s ->
  (forall x, In x c -> sponsorBy x = sponsorId s ->
             sponsorBy u <> sponsorId x) ->
  stable c s ->
  In s' (evaluate c u) -> _id s' = _id s -> stable (evaluate c u) s'.
Proof.
  intros Hs Hne Hnot1 Hnot2 (S1 & S5 & Sx) Hs' Hid.
  pose proof evaluate_touches as T.
  destruct (evaluate_stages c u ids_unique codes_unique u_stored
              not_own_sponsor) as (lv5 & _ & _ & E).
  fold c2 in E. fold c3 in E. fold c4 in E.
  assert (Hs4 : s' = F4 (F3 (F2 s))).
  { rewrite E in Hs'.
    assert (H4 : In s' c4).
    { destruct (lv5 =? level u); [exact Hs'|].
      apply in_map_iff in Hs' as (w4 & <- & Hin).
      destruct (Nat.eqb_spec (_id w4) (_id u)) as [Ew|Ew]; [|exact Hin].
      cbn [_id setLevel] in Hid. congruence. }
    apply stage4_In in H4 as (w & Hin & ->). f_equal. f_equal. f_equal.
    apply (unique_key _id c ids_unique w s Hin Hs).
    rewrite <- Hid. change (_id (shape w) = _id (shape (F4 (F3 (F2 w))))).
    now rewrite stages_keep_shape. }
  pose proof (stages_keep_shape s) as Hshape. rewrite <- Hs4 in Hshape.
  pose proof (stages_bounds s) as Hb. rewrite <- Hs4 in Hb.
  assert (Hsid : sponsorId s' = sponsorId s)
    by (change (sponsorId (shape s') = sponsorId (shape s));
        now rewrite Hshape).
  assert (Hst : sponsorTree s' = sponsorTree s)
    by (change (sponsorTree (shape s') = sponsorTree (shape s));
        now rewrite Hshape).
  split; [|split].
  - rewrite Hst. intros [H3 H1]. apply S1. split; [exact H3 | lia].
  - lia.
  - intros x' Hx' Hby'. rewrite Hsid in Hby'.
    destruct (touches_In may c _ x' T Hx') as (x & Hx & Hsh & Hsame).
    assert (Hby : sponsorBy x = sponsorId s).
    { rewrite <- Hby'. change (sponsorBy (shape x) = sponsorBy (shape x')).
      now rewrite Hsh. }
    assert (Hxx : x' = x).
    { destruct Hsame as [->|[Hm|Hm]]; [reflexivity| |]; exfalso.
      - apply Hne. f_equal.
        apply (unique_key sponsorId c codes_unique u s u_stored Hs).
        congruence.
      - apply Hnot1.
        now rewrite <- (unique_key _id c ids_unique x u Hx u_stored Hm). }
    subst x'.
    assert (N : subReferrals (evaluate c u) x = subReferrals c x).
    { apply subReferrals_shape. now apply touches_shape with may. }
    assert (Nl : forall l, subReferralsAt l (evaluate c u) x
                           = subReferralsAt l c x).
    { intros l. unfold subReferralsAt. f_equal.
      apply count_frame with may; [exact T|].
      intros z Hz Hzx [Hm|Hm].
      - apply Hnot1. rewrite <- Hby. f_equal.
        apply (unique_key sponsorId c codes_unique u x u_stored Hx).
        congruence.
      - pose proof (unique_key _id c ids_unique z u Hz u_stored Hm) as ->.
        now apply (Hnot2 x Hx Hby). }
    rewrite N, !Nl. now apply Sx.
Qed.

End Settling.

Section ChainFacts.

Import User Leveling.

Lemma forest_shape (c c' : list doc) :
  map shape c = map shape c' -> forest c -> forest c'.
Proof.
  intros H (Hid & Hcode & Hroot).
  rewrite (shape_map _id c c' (fun _ => eq_refl) H) in Hid.
  pose proof (shape_map sponsorId c c' (fun _ => eq_refl) H) as Hc.
  rewrite Hc in Hcode. repeat split; trivial.
  apply Forall_forall. intros w Hw Hr.
  apply (in_map sponsorId) in Hw. rewrite <- Hc in Hw.
  apply in_map_iff in Hw as (w0 & E & Hw0).
  rewrite Forall_forall in Hroot. apply (Hroot w0 Hw0). congruence.
Qed.

Lemma find_unique_key (key : doc -> string) (c : list doc) (u : doc) :
  NoDup (map key c) -> In u c ->
  find (fun w => String.eqb (key w) (key u)) c = Some u.
Proof.
  induction c as [|w c IH]; intros Hnd Hin; [destruct Hin|].
  cbn [map] in Hnd. apply NoDup_cons_iff in Hnd as [Hnot Hnd].
  cbn [find]. destruct (String.eqb_spec (key w) (key u)) as [E|E].
  - destruct Hin as [->|Hin]; [reflexivity|].
    exfalso. apply Hnot. rewrite E. now apply in_map.
  - destruct Hin as [->|Hin]; [easy|]. now apply IH.
Qed.

Lemma findById_stored (c : list doc) (u : doc) :
  NoDup (map _id c) -> In u c -> findById c (_id u) = Some u.
Proof.
  unfold findById. induction c as [|w c IH]; intros Hnd Hin;
    [destruct Hin|].
  cbn [map] in Hnd. apply NoDup_cons_iff in Hnd as [Hnot Hnd].
  cbn [find]. destruct (Nat.eqb_spec (_id w) (_id u)) as [E|E].
  - destruct Hin as [->|Hin]; [reflexivity|].
    exfalso. apply Hnot. rewrite E. now apply in_map.
  - destruct Hin as [->|Hin]; [easy|]. now apply IH.
Qed.

Lemma walkLength_shape (fuel : nat) (c c' : list doc) :
  map shape c = map shape c' ->
  forall i, walkLength fuel c' i = walkLength fuel c i.
Proof.
  intros H. induction fuel as [|fuel IH]; intros i; [reflexivity|].
  cbn [walkLength].
  pose proof (findById_shape c c' i H) as Hi.
  destruct (findById c i) as [u|], (findById c' i) as [u'|];
    cbn [option_map] in Hi; try discriminate; [|reflexivity].
  assert (Hu : shape u = shape u') by congruence.
  assert (Hby : sponsorBy u' = sponsorBy u)
    by (change (sponsorBy (shape u') = sponsorBy (shape u));
        now rewrite Hu).
  rewrite Hby. destruct (String.eqb (sponsorBy u) "root"); [reflexivity|].
  pose proof (findOneBySponsorId_shape c c' (sponsorBy u) H) as Hp.
  destruct (findOneBySponsorId c (sponsorBy u)) as [p|],
    (findOneBySponsorId c' (sponsorBy u)) as [p'|];
    cbn [option_map] in Hp; try discriminate; [|reflexivity].
  assert (Hq : shape p = shape p') by congruence.
  assert (Hid : _id p' = _id p)
    by (change (_id (shape p') = _id (shape p)); now rewrite Hq).
  now rewrite Hid, IH.
Qed.

Lemma walkLength_more (c : list doc) (fuel : nat) :
  forall i n, walkLength fuel c i = Some n ->
              walkLength (S fuel) c i = Some n.
Proof.
  induction fuel as [|fuel IH]; intros i n H; [discriminate|].
  cbn [walkLength] in H. remember (S fuel) as f1. cbn [walkLength].
  destruct (findById c i) as [u|]; [|exact H].
  destruct (String.eqb (sponsorBy u) "root"); [exact H|].
  destruct (findOneBySponsorId c (sponsorBy u)) as [p|]; [|exact H].
  subst f1. destruct (walkLength fuel c (_id p)) as [m|] eqn:E;
    [|discriminate].
  now rewrite (IH _ _ E).
Qed.

Lemma walkLength_plus (c : list doc) (k fuel : nat) (i : ObjectId)
    (n : nat) :
  walkLength fuel c i = Some n -> walkLength (k + fuel) c i = Some n.
Proof.
  intros H. induction k as [|k IH]; [exact H|].
  now apply walkLength_more.
Qed.

(** The number of evaluations does not depend on the fuel that was
    enough. *)
Lemma walkLength_same (c : list doc) (f f' : nat) (i : ObjectId)
    (n n' : nat) :
  walkLength f c i = Some n -> walkLength f' c i = Some n' -> n = n'.
Proof.
  intros H H'. apply (walkLength_plus c f') in H.
  apply (walkLength_plus c f) in H'.
  rewrite Nat.add_comm in H'. congruence.
Qed.

Lemma walkLength_ends (fuel : nat) (c : list doc) :
  forall i, walkEnds fuel c i
            = match walkLength fuel c i with
              | Some _ => true
              | None => false
              end.
Proof.
  induction fuel as [|fuel IH]; intros i; [reflexivity|].
  cbn [walkEnds walkLength].
  destruct (findById c i) as [u|]; [|reflexivity].
  destruct (String.eqb (sponsorBy u) "root"); [reflexivity|].
  destruct (findOneBySponsorId c (sponsorBy u)) as [p|]; [|reflexivity].
  rewrite IH. now destruct (walkLength fuel c (_id p)).
Qed.

Lemma updateSponsorLevels_length (fuel : nat) (c c1 : list doc)
    (i : ObjectId) :
  updateSponsorLevels fuel c i = (true, c1) ->
  exists n, walkLength fuel c i = Some n.
Proof.
  intros H.
  pose proof (updateSponsorLevels_ends fuel c c i eq_refl) as He.
  rewrite H, walkLength_ends in He. cbn [fst] in He.
  destruct (walkLength fuel c i) as [n|]; [now exists n | discriminate].
Qed.

(** In a forest a referral is one evaluation further from the end of
    the walk than its sponsor. *)
Lemma referral_walkLength (c : list doc) (x p : doc) (fuel n : nat) :
  forest c -> In x c -> In p c -> sponsorBy x = sponsorId p ->
  walkLength fuel c (_id p) = Some n ->
  walkLength (S fuel) c (_id x) = Some (S n).
Proof.
  intros (Hid & Hcode & Hroot) Hx Hp Hby Hn. cbn [walkLength].
  rewrite (findById_stored c x Hid Hx).
  rewrite Forall_forall in Hroot.
  destruct (String.eqb_spec (sponsorBy x) "root") as [E|_].
  { exfalso. apply (Hroot p Hp). congruence. }
  unfold findOneBySponsorId. rewrite Hby.
  rewrite (find_unique_key sponsorId c p Hcode Hp). now rewrite Hn.
Qed.

Section Distances.

Variables (c : list doc) (u v : doc) (fu fv n m : nat).
Hypothesis c_forest : forest c.
Hypothesis u_stored : In u c.
Hypothesis v_stored : In v c.
Hypothesis u_length : walkLength fu c (_id u) = Some n.
Hypothesis v_length : walkLength fv c (_id v) = Some m.

Lemma ending_not_own_sponsor : sponsorBy u <> sponsorId u.
Proof.
  intros E.
  pose proof (referral_walkLength c u u fu n c_forest u_stored u_stored E
                u_length) as H.
  pose proof (walkLength_same c _ _ _ _ _ u_length H). lia.
Qed.

Lemma ending_not_sponsored_by_referral (x : doc) :
  In x c -> sponsorBy x = sponsorId u -> sponsorBy u <> sponsorId x.
Proof.
  intros Hx Hxu E.
  pose proof (referral_walkLength c x u fu n c_forest Hx u_stored Hxu
                u_length) as H1.
  pose proof (referral_walkLength c u x _ _ c_forest u_stored Hx E H1)
    as H2.
  pose proof (walkLength_same c _ _ _ _ _ u_length H2). lia.
Qed.

Hypothesis v_nearer : m < n.

Lemma nearer_is_other : _id v <> _id u.
Proof.
  intros E. rewrite E in v_length.
  pose proof (walkLength_same c _ _ _ _ _ u_length v_length). lia.
Qed.

Lemma nearer_is_no_referral : sponsorBy v <> sponsorId u.
Proof.
  intros E.
  pose proof (referral_walkLength c v u fu n c_forest v_stored u_stored E
                u_length) as H.
  pose proof (walkLength_same c _ _ _ _ _ v_length H). lia.
Qed.

Lemma nearer_is_no_second_referral (x : doc) :
  In x c -> sponsorBy x = sponsorId u -> sponsorBy v <> sponsorId x.
Proof.
  intros Hx Hxu E.
  pose proof (referral_walkLength c x u fu n c_forest Hx u_stored Hxu
                u_length) as H1.
  pose proof (referral_walkLength c v x _ _ c_forest v_stored Hx E H1)
    as H2.
  pose proof (walkLength_same c _ _ _ _ _ v_length H2). lia.
Qed.

End Distances.

End ChainFacts.

Section Idempotence.

Import User Leveling.

Lemma stableAt_evaluate_self (c : list doc) (u : doc) (fuel n : nat) :
  forest c -> In u c -> walkLength fuel c (_id u) = Some n ->
  stableAt (evaluate c u) (_id u).
Proof.
  intros Hf Hu Hn u' Hu'. apply findById_In in Hu' as [Hin Hid].
  pose proof Hf as (Hid' & Hcode & _).
  apply evaluate_settles; trivial.
  - exact (ending_not_own_sponsor c u fuel n Hf Hu Hn).
  - exact (ending_not_sponsored_by_referral c u fuel n Hf Hu Hn).
Qed.

Lemma stableAt_evaluate_other (c : list doc) (v : doc) (j : ObjectId)
    (fv fj m n : nat) :
  forest c -> In v c ->
  walkLength fv c (_id v) = Some m -> walkLength fj c j = Some n ->
  m < n ->
  stableAt c j -> stableAt (evaluate c v) j.
Proof.
  intros Hf Hv Hm Hn Hlt Hst u' Hu'.
  apply findById_In in Hu' as [Hin Hid].
  pose proof Hf as (Hid' & Hcode & _).
  destruct (shape_In c (evaluate c v) u'
              (eq_sym (shape_evaluate c v)) Hin) as (u & Hu & Hsh).
  assert (Huid : _id u = j)
    by (rewrite <- Hid; change (_id (shape u) = _id (shape u'));
        now rewrite Hsh).
  subst j.
  assert (Hid2 : _id u' = _id u) by congruence.
  rewrite Hid2 in Hn, Hst.
  apply (evaluate_keeps_stable c v Hid' Hcode Hv
           (ending_not_own_sponsor c v fv m Hf Hv Hm) u u'); trivial.
  - exact (nearer_is_other c u v fj fv n m Hn Hm Hlt).
  - exact (nearer_is_no_referral c u v fj fv n m Hf Hu Hv Hn Hm Hlt).
  - exact (nearer_is_no_second_referral c u v fj fv n m Hf Hu Hv Hn Hm Hlt).
  - apply Hst. now apply findById_stored.
Qed.

(** A user that is stable, and further from the end of the walk than
    its start, is still stable when the walk has ended. *)
Lemma walk_keeps_stable (fuel : nat) :
  forall (c c1 : list doc) (p j : ObjectId) (fj n m : nat),
    forest c ->
    updateSponsorLevels fuel c p = (true, c1) ->
    walkLength fuel c p = Some m -> walkLength fj c j = Some n -> m < n ->
    stableAt c j -> stableAt c1 j.
Proof.
  induction fuel as [|fuel IH]; intros c c1 p j fj n m Hf Hrun Hm Hn Hlt Hst;
    [discriminate|].
  cbn [updateSponsorLevels] in Hrun. cbn [walkLength] in Hm.
  destruct (findById c p) as [v|] eqn:Hv; [|now injection Hrun as <-].
  apply findById_In in Hv as [Hv Hvid]. subst p.
  assert (Hm' : exists fv m', walkLength fv c (_id v) = Some m' /\ m' = m).
  { exists (S fuel), m. split; [|reflexivity]. cbn [walkLength].
    pose proof Hf as (Hid & _ & _).
    now rewrite (findById_stored c v Hid Hv). }
  destruct Hm' as (fv & m' & Hvm & ->).
  pose proof (stableAt_evaluate_other c v j fv fj m n Hf Hv Hvm Hn Hlt Hst)
    as Hst'.
  destruct (String.eqb (sponsorBy v) "root"); [now injection Hrun as <-|].
  pose proof (findOneBySponsorId_shape c (evaluate c v) (sponsorBy v)
                (eq_sym (shape_evaluate c v))) as Hp.
  destruct (findOneBySponsorId (evaluate c v) (sponsorBy v)) as [q'|],
    (findOneBySponsorId c (sponsorBy v)) as [q|];
    cbn [option_map] in Hp; try discriminate;
    [|now injection Hrun as <-].
  assert (Hq : _id q' = _id q).
  { assert (Hs : shape q = shape q') by congruence.
    change (_id (shape q') = _id (shape q)). now rewrite Hs. }
  rewrite Hq in Hrun.
  destruct (walkLength fuel c (_id q)) as [mq|] eqn:Hmq; [|discriminate].
  cbn [option_map] in Hm. injection Hm as <-.
  apply (IH (evaluate c v) c1 (_id q) j fj n mq).
  - exact (forest_shape c _ (eq_sym (shape_evaluate c v)) Hf).
  - exact Hrun.
  - now rewrite (walkLength_shape fuel c _ (eq_sym (shape_evaluate c v))).
  - now rewrite (walkLength_shape fj c _ (eq_sym (shape_evaluate c v))).
  - lia.
  - exact Hst'.
Qed.

Lemma walk_settles (fuel : nat) :
  forall (c c1 : list doc) (i : ObjectId),
    forest c ->
    updateSponsorLevels fuel c i = (true, c1) ->
    updateSponsorLevels fuel c1 i = (true, c1).
Proof.
  induction fuel as [|fuel IH]; intros c c1 i Hf Hrun; [discriminate|].
  pose proof (shape_updateSponsorLevels (S fuel) c i) as Hshape.
  rewrite Hrun in Hshape. cbn [snd] in Hshape.
  destruct (updateSponsorLevels_length _ _ _ _ Hrun) as [n Hn].
  cbn [updateSponsorLevels] in Hrun |- *. cbn [walkLength] in Hn.
  pose proof (findById_shape c1 c i Hshape) as Hi.
  destruct (findById c i) as [u|] eqn:Hu, (findById c1 i) as [u1|] eqn:Hu1;
    cbn [option_map] in Hi; try discriminate;
    [|now injection Hrun as <-].
  assert (Hs : shape u1 = shape u) by congruence.
  assert (Hby : sponsorBy u1 = sponsorBy u)
    by (change (sponsorBy (shape u1) = sponsorBy (shape u));
        now rewrite Hs).
  pose proof (findById_In c i u Hu) as [Hin Hid]. subst i.
  assert (Hlen : walkLength (S fuel) c (_id u) = Some n)
    by (cbn [walkLength]; now rewrite Hu).
  pose proof (stableAt_evaluate_self c u (S fuel) n Hf Hin Hlen) as Hst.
  pose proof (forest_shape c _ (eq_sym (shape_evaluate c u)) Hf) as Hf'.
  assert (Hstable : stableAt c1 (_id u) ->
            evaluate c1 u1 = c1).
  { intros H. apply evaluate_stable. now apply H. }
  rewrite Hby.
  destruct (String.eqb (sponsorBy u) "root").
  { injection Hrun as <-. now rewrite (Hstable Hst). }
  pose proof (findOneBySponsorId_shape c (evaluate c u) (sponsorBy u)
                (eq_sym (shape_evaluate c u))) as Hp.
  destruct (findOneBySponsorId (evaluate c u) (sponsorBy u)) as [q'|] eqn:Hq',
    (findOneBySponsorId c (sponsorBy u)) as [q|];
    cbn [option_map] in Hp; try discriminate.
  - assert (Hq : _id q' = _id q).
    { assert (Hsq : shape q = shape q') by congruence.
      change (_id (shape q') = _id (shape q)). now rewrite Hsq. }
    destruct (walkLength fuel c (_id q)) as [mq|] eqn:Hmq; [|discriminate].
    cbn [option_map] in Hn. injection Hn as <-.
    assert (Hst1 : stableAt c1 (_id u)).
    { apply (walk_keeps_stable fuel (evaluate c u) c1 (_id q') (_id u)
               (S fuel) (S mq) mq); trivial.
      - rewrite Hq.
        now rewrite (walkLength_shape fuel c _
                       (eq_sym (shape_evaluate c u))).
      - now rewrite (walkLength_shape (S fuel) c _
                       (eq_sym (shape_evaluate c u))).
      - lia. }
    rewrite (Hstable Hst1).
    pose proof (findOneBySponsorId_shape (evaluate c u) c1 (sponsorBy u))
      as Hp1.
    rewrite Hq' in Hp1.
    destruct (findOneBySponsorId c1 (sponsorBy u)) as [q1|].
    + assert (Hq1 : _id q1 = _id q').
      { assert (Hsq : shape q' = shape q1).
        { assert (Hsh : map shape (evaluate c u) = map shape c1)
            by (rewrite shape_evaluate; now symmetry).
          specialize (Hp1 Hsh). cbn [option_map] in Hp1. congruence. }
        change (_id (shape q1) = _id (shape q')). now rewrite Hsq. }
      rewrite Hq1. now apply (IH (evaluate c u)).
    + assert (Hsh : map shape (evaluate c u) = map shape c1)
        by (rewrite shape_evaluate; now symmetry).
      specialize (Hp1 Hsh). discriminate.
  - injection Hrun as <-. rewrite (Hstable Hst). now rewrite Hq'.
Qed.

End Idempotence.

(** C4.  Idempotent leveling: on a sponsor forest (unique identifiers,
    unique referral codes, no user carrying the code of the synthetic root),
    when a run of the walk from a user comes to its end, a second run from
    the same user with nothing changed in between ends too and leaves every
    document, hence every rank, as the first run left it. *)
Theorem leveling_is_idempotent (fuel : nat) (c c1 : list User.doc)
    (i : ObjectId) :
  forest c ->
  Leveling.updateSponsorLevels fuel c i = (true, c1) ->
  Leveling.updateSponsorLevels fuel c1 i = (true, c1)
  /\ forall j, levelOf (snd (Leveling.updateSponsorLevels fuel c1 i)) j
               = levelOf c1 j.
Proof.
  intros Hf Hrun. pose proof (walk_settles fuel c c1 i Hf Hrun) as H.
  split; [exact H|]. intros j. now rewrite H.
Qed.

Lemma leveling_is_idempotent_witness :
  forest Sample.twoGenerations
  /\ Leveling.updateSponsorLevels 5
       (snd (Leveling.updateSponsorLevels 5 Sample.twoGenerations 1)) 1
     = (true, snd (Leveling.updateSponsorLevels 5 Sample.twoGenerations 1))
  /\ levelOf (snd (Leveling.updateSponsorLevels 5 Sample.twoGenerations 1)) 1
     = Some 2.
Proof.
  assert (Hf : forest Sample.twoGenerations).
  { repeat split.
    - cbn. repeat (constructor; [cbn; intuition discriminate|]). constructor.
    - cbn. repeat (constructor; [cbn; intuition discriminate|]). constructor.
    - repeat constructor; discriminate. }
  split; [exact Hf|]. split; [|reflexivity].
  exact (proj1 (leveling_is_idempotent 5 Sample.twoGenerations
                  (snd (Leveling.updateSponsorLevels 5 Sample.twoGenerations
                          1)) 1 Hf eq_refl)).
Defined.

(** ** More on the leveling walk *)

(** X1.  A run of the walk writes levels and nothing else: the collection
    it leaves holds the same documents in the same order, each with every
    path but [level] as before. *)
Theorem walk_writes_levels_only (fuel : nat) (c : list User.doc)
    (i : ObjectId) :
  map shape (snd (Leveling.updateSponsorLevels fuel c i)) = map shape c.
Proof. apply shape_updateSponsorLevels. Qed.

Lemma subReferralsAt_le (l : nat) (c : list User.doc) (r : User.doc) :
  Leveling.subReferralsAt l c r <= Leveling.subReferrals c r.
Proof.
  unfold Leveling.subReferralsAt, Leveling.subReferrals,
    User.findByLevelAndSponsorBy, User.findBySponsorBy.
  induction c as [|w c IH]; cbn [filter]; [constructor|].
  destruct (User.sponsorBy w =? User.sponsorId r)%string;
    destruct (User.level w =? l); cbn [andb List.length]; lia.
Qed.

(** Where nobody has three listed children or three referrals, every
    evaluation finds nothing to do. *)
Lemma quiet_is_stable (c : list User.doc) (u : User.doc) :
  capped c ->
  Forall (fun w => List.length (User.sponsorTree w) < 3
                   /\ Leveling.subReferrals c w < 3) c ->
  In u c -> stable c u.
Proof.
  intros Hc Hq Hu. rewrite Forall_forall in Hq. unfold capped in Hc.
  rewrite Forall_forall in Hc.
  split; [intros [H _]; destruct (Hq u Hu); lia|].
  split; [now apply Hc|].
  intros x Hx _. destruct (Hq x Hx) as [_ Hlt].
  pose proof (subReferralsAt_le 2 c x). pose proof (subReferralsAt_le 3 c x).
  repeat split; intros; lia.
Qed.

(** X2.  No promotion below three: on a collection with levels of at most
    4 where no user has three entries in its stored child list and no user
    is named as sponsor by three users, a run of the walk from anywhere
    leaves every document as it was. *)
Theorem no_promotion_below_three (fuel : nat) (c : list User.doc)
    (i : ObjectId) :
  capped c ->
  Forall (fun w => List.length (User.sponsorTree w) < 3
                   /\ Leveling.subReferrals c w < 3) c ->
  snd (Leveling.updateSponsorLevels fuel c i) = c.
Proof.
  intros Hc Hq. revert i.
  induction fuel as [|fuel IH]; intros i; cbn [Leveling.updateSponsorLevels];
    [reflexivity|].
  destruct (User.findById c i) as [u|] eqn:Hu; [|reflexivity].
  apply findById_In in Hu as [Hin _].
  rewrite (evaluate_stable c u (quiet_is_stable c u Hc Hq Hin)).
  destruct (User.sponsorBy u =? "root")%string; [reflexivity|].
  destruct (User.findOneBySponsorId c (User.sponsorBy u)); [apply IH|];
    reflexivity.
Qed.

Lemma no_promotion_below_three_witness :
  capped Fixture.twoReferrals
  /\ Forall (fun w => List.length (User.sponsorTree w) < 3
                      /\ Leveling.subReferrals Fixture.twoReferrals w < 3)
       Fixture.twoReferrals
  /\ snd (Leveling.updateSponsorLevels 5 Fixture.twoReferrals 11)
     = Fixture.twoReferrals.
Proof.
  assert (Hc : capped Fixture.twoReferrals) by (repeat constructor).
  assert (Hq : Forall (fun w => List.length (User.sponsorTree w) < 3
                      /\ Leveling.subReferrals Fixture.twoReferrals w < 3)
                 Fixture.twoReferrals)
    by (repeat constructor).
  split; [exact Hc|]. split; [exact Hq|].
  exact (no_promotion_below_three 5 Fixture.twoReferrals 11 Hc Hq).
Defined.

(** When a run from [i] has come to its end, an evaluation of [i] on what
    it left would find nothing to do. *)
Lemma walk_leaves_start_stable (fuel : nat) (c c1 : list User.doc)
    (i : ObjectId) :
  forest c ->
  Leveling.updateSponsorLevels fuel c i = (true, c1) ->
  stableAt c1 i.
Proof.
  intros Hf Hrun.
  destruct (updateSponsorLevels_length _ _ _ _ Hrun) as [n Hn].
  destruct fuel as [|fuel]; [discriminate|].
  cbn [Leveling.updateSponsorLevels] in Hrun.
  destruct (User.findById c i) as [u|] eqn:Hu.
  2:{ injection Hrun as <-. intros u' Hu'. congruence. }
  pose proof (findById_In c i u Hu) as [Hin Hid]. subst i.
  pose proof (stableAt_evaluate_self c u (S fuel) n Hf Hin Hn) as Hst.
  pose proof Hn as Hlen. cbn [walkLength] in Hn. rewrite Hu in Hn.
  destruct (User.sponsorBy u =? "root")%string;
    [now injection Hrun as <-|].
  pose proof (findOneBySponsorId_shape c (Leveling.evaluate c u)
                (User.sponsorBy u) (eq_sym (shape_evaluate c u))) as Hp.
  destruct (User.findOneBySponsorId (Leveling.evaluate c u)
              (User.sponsorBy u)) as [q'|],
    (User.findOneBySponsorId c (User.sponsorBy u)) as [q|];
    cbn [option_map] in Hp; try discriminate;
    [|now injection Hrun as <-].
  assert (Hq : User._id q' = User._id q).
  { assert (Hsq : shape q = shape q') by congruence.
    change (User._id (shape q') = User._id (shape q)). now rewrite Hsq. }
  destruct (walkLength fuel c (User._id q)) as [mq|] eqn:Hmq;
    [|discriminate].
  cbn [option_map] in Hn. injection Hn as <-.
  apply (walk_keeps_stable fuel (Leveling.evaluate c u) c1 (User._id q')
           (User._id u) (S fuel) (S mq) mq); trivial.
  - exact (forest_shape c _ (eq_sym (shape_evaluate c u)) Hf).
  - rewrite Hq.
    now rewrite (walkLength_shape fuel c _ (eq_sym (shape_evaluate c u))).
  - now rewrite (walkLength_shape (S fuel) c _
                   (eq_sym (shape_evaluate c u))).
  - lia.
Qed.

(** X3.  What a finished run leaves behind, on a sponsor forest: the user
    it started from is at level 1 or more if its stored child list has
    three entries, and each of its referrals is at level 2 or more if
    three users name it as sponsor, and at level 3 or more if three users
    at level 2 do. *)
Theorem finished_run_settles_referrals (fuel : nat) (c c1 : list User.doc)
    (i : ObjectId) (u1 : User.doc) :
  forest c ->
  Leveling.updateSponsorLevels fuel c i = (true, c1) ->
  User.findById c1 i = Some u1 ->
  (3 <= List.length (User.sponsorTree u1) -> 1 <= User.level u1)
  /\ forall x, In x c1 -> User.sponsorBy x = User.sponsorId u1 ->
       (3 <= Leveling.subReferrals c1 x -> 2 <= User.level x)
       /\ (3 <= Leveling.subReferralsAt 2 c1 x -> 3 <= User.level x).
Proof.
  intros Hf Hrun Hu1.
  destruct (walk_leaves_start_stable fuel c c1 i Hf Hrun u1 Hu1)
    as (S1 & _ & Sx).
  split; [lia|]. intros x Hx Hby. destruct (Sx x Hx Hby) as (S2 & S3 & _).
  pose proof (subReferralsAt_le 2 c1 x). split; lia.
Qed.

Lemma finished_run_settles_referrals_witness :
  forest Sample.twoGenerations
  /\ Leveling.updateSponsorLevels 5 Sample.twoGenerations 0
     = (true, snd (Leveling.updateSponsorLevels 5 Sample.twoGenerations 0))
  /\ In (User.setLevel (Sample.member 1 "C" "P" [] 0) 2)
       (snd (Leveling.updateSponsorLevels 5 Sample.twoGenerations 0))
  /\ 2 <= User.level (User.setLevel (Sample.member 1 "C" "P" [] 0) 2).
Proof.
  assert (Hf : forest Sample.twoGenerations).
  { repeat split.
    - cbn. repeat (constructor; [cbn; intuition discriminate|]). constructor.
    - cbn. repeat (constructor; [cbn; intuition discriminate|]). constructor.
    - repeat constructor; discriminate. }
  assert (Hin : In (User.setLevel (Sample.member 1 "C" "P" [] 0) 2)
                  (snd (Leveling.updateSponsorLevels 5 Sample.twoGenerations
                          0)))
    by (right; left; reflexivity).
  split; [exact Hf|]. split; [reflexivity|]. split; [exact Hin|].
  refine (proj1 (proj2 (finished_run_settles_referrals 5 Sample.twoGenerations
                          (snd (Leveling.updateSponsorLevels 5
                                  Sample.twoGenerations 0))
                          0 (Sample.member 0 "P" "root" [] 0) Hf eq_refl
                          eq_refl) _ Hin eq_refl) _).
  vm_compute. lia.
Defined.

(** ** How long the walk can be *)

Section TrailFacts.

Import User Leveling.

Variable c : list doc.

Lemma trail_length (fuel : nat) :
  forall i n, walkLength fuel c i = Some n ->
              List.length (trail fuel c i) = n.
Proof.
  induction fuel as [|fuel IH]; intros i n H; [discriminate|].
  cbn [walkLength] in H. cbn [trail].
  destruct (findById c i) as [u|]; [|now injection H as <-].
  destruct (String.eqb (sponsorBy u) "root"); [now injection H as <-|].
  destruct (findOneBySponsorId c (sponsorBy u)) as [p|];
    [|now injection H as <-].
  destruct (walkLength fuel c (_id p)) as [m|] eqn:E; [|discriminate].
  injection H as <-. cbn [List.length]. now rewrite (IH _ _ E).
Qed.

Lemma trail_stored (fuel : nat) :
  forall i j, In j (trail fuel c i) -> In j (map _id c).
Proof.
  induction fuel as [|fuel IH]; intros i j H; [destruct H|].
  cbn [trail] in H.
  destruct (findById c i) as [u|] eqn:Hu; [|destruct H].
  destruct H as [<-|H].
  - apply findById_In in Hu as [Hin <-]. now apply in_map.
  - destruct (String.eqb (sponsorBy u) "root"); [destruct H|].
    destruct (findOneBySponsorId c (sponsorBy u)) as [p|]; [|destruct H].
    exact (IH _ _ H).
Qed.

(** Whoever the walk evaluates is no further from its end than its
    start. *)
Lemma trail_nearer (fuel : nat) :
  forall i n j, walkLength fuel c i = Some n -> In j (trail fuel c i) ->
    exists m, walkLength fuel c j = Some m /\ 1 <= m <= n.
Proof.
  induction fuel as [|fuel IH]; intros i n j H Hj; [discriminate|].
  pose proof H as Hi. cbn [walkLength] in H. cbn [trail] in Hj.
  destruct (findById c i) as [u|]; [|destruct Hj].
  destruct Hj as [<-|Hj].
  - exists n. split; [exact Hi|].
    destruct (String.eqb (sponsorBy u) "root");
      [injection H as <-; lia|].
    destruct (findOneBySponsorId c (sponsorBy u)) as [p|];
      [|injection H as <-; lia].
    destruct (walkLength fuel c (_id p)); [|discriminate].
    injection H as <-. lia.
  - destruct (String.eqb (sponsorBy u) "root"); [destruct Hj|].
    destruct (findOneBySponsorId c (sponsorBy u)) as [p|]; [|destruct Hj].
    destruct (walkLength fuel c (_id p)) as [k|] eqn:E; [|discriminate].
    injection H as <-.
    destruct (IH _ _ _ E Hj) as (m & Hm & Hle).
    exists m. split; [now apply walkLength_more | lia].
Qed.

Lemma trail_NoDup (fuel : nat) :
  forall i n, walkLength fuel c i = Some n -> NoDup (trail fuel c i).
Proof.
  induction fuel as [|fuel IH]; intros i n H; [discriminate|].
  pose proof H as Hi. cbn [walkLength] in H. cbn [trail].
  destruct (findById c i) as [u|]; [|constructor].
  destruct (String.eqb (sponsorBy u) "root");
    [constructor; [intros []|constructor]|].
  destruct (findOneBySponsorId c (sponsorBy u)) as [p|];
    [|constructor; [intros []|constructor]].
  destruct (walkLength fuel c (_id p)) as [k|] eqn:E; [|discriminate].
  injection H as <-. constructor; [|exact (IH _ _ E)].
  intros Hin. destruct (trail_nearer fuel _ _ _ E Hin) as (m & Hm & Hle).
  pose proof (walkLength_same c fuel (S fuel) i m (S k) Hm Hi). lia.
Qed.

(** A walk that ends evaluates no user twice, so at most as many as are
    stored. *)
Lemma walkLength_bound (fuel : nat) (i : ObjectId) (n : nat) :
  walkLength fuel c i = Some n -> n <= List.length c.
Proof.
  intros H. rewrite <- (trail_length fuel i n H).
  transitivity (List.length (map _id c)); [|now rewrite length_map].
  apply NoDup_incl_length; [exact (trail_NoDup fuel i n H)|].
  intros j. apply trail_stored.
Qed.

Lemma walkLength_tight (fuel : nat) :
  forall i n, walkLength fuel c i = Some n ->
              walkLength (S n) c i = Some n.
Proof.
  induction fuel as [|fuel IH]; intros i n H; [discriminate|].
  cbn [walkLength] in H.
  destruct (findById c i) as [u|] eqn:Hu.
  2:{ injection H as <-. cbn [walkLength]. now rewrite Hu. }
  destruct (String.eqb (sponsorBy u) "root") eqn:Hr.
  { injection H as <-. cbn [walkLength]. now rewrite Hu, Hr. }
  destruct (findOneBySponsorId c (sponsorBy u)) as [p|] eqn:Hp.
  2:{ injection H as <-. cbn [walkLength]. now rewrite Hu, Hr, Hp. }
  destruct (walkLength fuel c (_id p)) as [k|] eqn:E; [|discriminate].
  injection H as <-. specialize (IH _ _ E).
  remember (S k) as f. cbn [walkLength]. rewrite Hu, Hr, Hp. subst f.
  now rewrite IH.
Qed.

End TrailFacts.

(** More fuel than a finished run had changes nothing. *)
Lemma updateSponsorLevels_more (fuel : nat) :
  forall (fuel' : nat) (c : list User.doc) (i : ObjectId),
    fst (Leveling.updateSponsorLevels fuel c i) = true -> fuel <= fuel' ->
    Leveling.updateSponsorLevels fuel' c i
    = Leveling.updateSponsorLevels fuel c i.
Proof.
  induction fuel as [|fuel IH]; intros fuel' c i H Hle; [discriminate|].
  destruct fuel' as [|fuel']; [lia|].
  cbn [Leveling.updateSponsorLevels] in *.
  destruct (User.findById c i) as [u|]; [|reflexivity].
  destruct (User.sponsorBy u =? "root")%string; [reflexivity|].
  destruct (User.findOneBySponsorId _ _) as [p|]; [|reflexivity].
  apply IH; [exact H | lia].
Qed.

(** X4.  A run of the walk that ends evaluates no user twice, hence no
    more users than are stored: allowed one evaluation more than there are
    users, it ends as well and leaves the same collection. *)
Theorem walk_ends_within_collection_size (fuel : nat) (c : list User.doc)
    (i : ObjectId) :
  fst (Leveling.updateSponsorLevels fuel c i) = true ->
  NoDup (trail fuel c i)
  /\ List.length (trail fuel c i) <= List.length c
  /\ Leveling.updateSponsorLevels (S (List.length c)) c i
     = Leveling.updateSponsorLevels fuel c i.
Proof.
  intros H. pose proof H as He.
  rewrite (updateSponsorLevels_ends fuel c c i eq_refl) in He.
  rewrite walkLength_ends in He.
  destruct (walkLength fuel c i) as [n|] eqn:Hn; [|discriminate].
  pose proof (walkLength_bound c fuel i n Hn) as Hb.
  split; [exact (trail_NoDup c fuel i n Hn)|].
  split; [now rewrite (trail_length c fuel i n Hn)|].
  pose proof (walkLength_plus c (List.length c - n) (S n) i n
                (walkLength_tight c fuel i n Hn)) as Hs.
  replace (List.length c - n + S n) with (S (List.length c)) in Hs by lia.
  assert (H' : fst (Leveling.updateSponsorLevels (S (List.length c)) c i)
               = true).
  { rewrite (updateSponsorLevels_ends _ c c i eq_refl), walkLength_ends.
    now rewrite Hs. }
  destruct (Nat.le_ge_cases fuel (S (List.length c))) as [Hle|Hle].
  - now apply updateSponsorLevels_more.
  - symmetry. now apply updateSponsorLevels_more.
Qed.

Lemma walk_ends_within_collection_size_witness :
  fst (Leveling.updateSponsorLevels 9 Sample.twoGenerations 2) = true
  /\ trail 9 Sample.twoGenerations 2 = [2; 1; 0]
  /\ Leveling.updateSponsorLevels 6 Sample.twoGenerations 2
     = Leveling.updateSponsorLevels 9 Sample.twoGenerations 2.
Proof.
  split; [reflexivity|]. split; [reflexivity|].
  exact (proj2 (proj2 (walk_ends_within_collection_size 9
                         Sample.twoGenerations 2 eq_refl))).
Defined.

(** ** The stored child lists, over histories *)

Lemma childless_shape (c c' : list User.doc) :
  map shape c = map shape c' -> childless c -> childless c'.
Proof.
  intros H Hc. apply Forall_forall. intros w' Hw'.
  destruct (shape_In c c' w' H Hw') as (w & Hw & Hs).
  unfold childless in Hc. rewrite Forall_forall in Hc.
  change (User.sponsorTree (shape w') = []). rewrite <- Hs.
  exact (Hc w Hw).
Qed.

Lemma childless_verifyOTPUser fuel now fresh code body db :
  childless (users db) ->
  childless
    (users (snd (UserController.verifyOTPUser fuel now fresh code body db))).
Proof.
  intros Hc. unfold UserController.verifyOTPUser.
  destruct (negb _); [exact Hc|].
  destruct (TempUser.findOneByTempId _ _) as [t|]; [|exact Hc].
  destruct (_ >? _)%Z; [exact Hc|].
  destruct (negb _); [exact Hc|].
  destruct (User.findOneByEmailOrPhone _ _ _); [exact Hc|].
  set (user := User.create _ _ _ _ _ _ _ _ _ _).
  assert (Hn : childless (users db ++ [user])).
  { apply Forall_app. split; [exact Hc|]. now constructor. }
  destruct (User.findOneBySponsorId _ _) as [sponsor|]; [|exact Hn].
  pose proof (shape_updateSponsorLevels fuel (users db ++ [user])
                (User._id (User.pushSponsorTree sponsor (User._id user))))
    as Hs.
  destruct (Leveling.updateSponsorLevels _ _ _) as [ended leveled].
  cbn [snd] in Hs.
  destruct ended; cbn [snd users withUsers];
    exact (childless_shape _ _ (eq_sym Hs) Hn).
Qed.

(** X5.  No history of admissions and leveling runs ever stores a child:
    from a state in which every [sponsorTree] is empty, and so from the
    empty collection, every [sponsorTree] is empty after any number of
    calls of [verifyOTPUser] and [updateSponsorLevels]. *)
Theorem history_never_stores_a_child (ops : list History.Op) (db : Db) :
  childless (users db) -> childless (users (History.run ops db)).
Proof.
  revert db. induction ops as [|op ops IH]; intros db Hc; [exact Hc|].
  unfold History.run. cbn [fold_left]. apply IH.
  destruct op as [fuel now fresh code body|fuel userId]; cbn [History.step].
  - now apply childless_verifyOTPUser.
  - cbn [users withUsers].
    exact (childless_shape _ _
             (eq_sym (shape_updateSponsorLevels fuel (users db) userId)) Hc).
Qed.

Lemma history_never_stores_a_child_witness :
  childless (users Sample.threePending)
  /\ childless
       (users (History.run (Sample.threeAdmissions ++ [History.Relevel 5 1])
                 Sample.threePending)).
Proof.
  assert (Hc : childless (users Sample.threePending))
    by (repeat constructor).
  split; [exact Hc|].
  exact (history_never_stores_a_child
           (Sample.threeAdmissions ++ [History.Relevel 5 1])
           Sample.threePending Hc).
Defined.

(** ** The walk ends on what admissions build *)

Section SeniorityFacts.

Import User Leveling.

Lemma walkEnds_plus (c : list doc) (k fuel : nat) (i : ObjectId) :
  walkEnds fuel c i = true -> walkEnds (k + fuel) c i = true.
Proof.
  rewrite !walkLength_ends.
  destruct (walkLength fuel c i) as [n|] eqn:E; [|discriminate].
  now rewrite (walkLength_plus c k fuel i n E).
Qed.

Lemma find_snoc_some (p : doc -> bool) (c : list doc) (u w : doc) :
  find p c = Some w -> find p (c ++ [u]) = Some w.
Proof.
  induction c as [|v c IH]; cbn [find app]; [discriminate|].
  destruct (p v); [trivial | exact IH].
Qed.

Lemma find_snoc_none (p : doc -> bool) (c : list doc) (u : doc) :
  find p c = None ->
  find p (c ++ [u]) = if p u then Some u else None.
Proof.
  induction c as [|v c IH]; cbn [find app]; [reflexivity|].
  destruct (p v); [discriminate | exact IH].
Qed.

Section Snoc.

Variables (c : list doc) (u : doc).
Hypothesis not_own : sponsorBy u <> sponsorId u.
Hypothesis not_named :
  forall w, In w c -> sponsorBy w <> sponsorId u.

(** From a user stored before [u], the walk does not see [u]. *)
Lemma walkEnds_snoc (fuel : nat) :
  forall i w, findById c i = Some w ->
              walkEnds fuel (c ++ [u]) i = walkEnds fuel c i.
Proof.
  induction fuel as [|fuel IH]; intros i w Hw; [reflexivity|].
  cbn [walkEnds]. unfold findById in *.
  rewrite (find_snoc_some _ c u w Hw), Hw.
  destruct (String.eqb (sponsorBy w) "root"); [reflexivity|].
  apply find_some in Hw as [Hin _].
  unfold findOneBySponsorId.
  destruct (find (fun v => sponsorId v =? sponsorBy w)%string c)
    as [p|] eqn:Hp.
  - rewrite (find_snoc_some _ c u p Hp).
    apply find_some in Hp as [Hpin _].
    destruct (find_exists (fun v => _id v =? _id p) c p Hpin
                (Nat.eqb_refl _)) as [q Hq].
    exact (IH _ q Hq).
  - rewrite (find_snoc_none _ c u Hp).
    destruct (String.eqb_spec (sponsorId u) (sponsorBy w)) as [E|_];
      [|reflexivity].
    exfalso. exact (not_named w Hin (eq_sym E)).
Qed.

Lemma walkEnds_seniority_snoc :
  (forall i, walkEnds (S (List.length c)) c i = true) ->
  forall i, walkEnds (S (S (List.length c))) (c ++ [u]) i = true.
Proof.
  intros IH i.
  destruct (findById c i) as [w|] eqn:Hw.
  { rewrite (walkEnds_snoc _ i w Hw).
    exact (walkEnds_plus c 1 _ i (IH i)). }
  remember (S (List.length c)) as n. cbn [walkEnds].
  unfold findById in *. rewrite (find_snoc_none _ c u Hw).
  destruct (_id u =? i); [|reflexivity].
  destruct (String.eqb (sponsorBy u) "root"); [reflexivity|].
  unfold findOneBySponsorId.
  destruct (find (fun v => sponsorId v =? sponsorBy u)%string c)
    as [p|] eqn:Hp.
  - rewrite (find_snoc_some _ c u p Hp).
    apply find_some in Hp as [Hpin _].
    destruct (find_exists (fun v => _id v =? _id p) c p Hpin
                (Nat.eqb_refl _)) as [q Hq].
    rewrite (walkEnds_snoc n _ q Hq). subst n. apply IH.
  - rewrite (find_snoc_none _ c u Hp).
    destruct (String.eqb_spec (sponsorId u) (sponsorBy u)) as [E|_];
      [|reflexivity].
    exfalso. exact (not_own (eq_sym E)).
Qed.

End Snoc.

(** Where every sponsor was stored before those it sponsors, the walk
    from anywhere ends within one evaluation more than there are
    users. *)
Lemma walkEnds_seniority (c : list doc) :
  seniority c -> forall i, walkEnds (S (List.length c)) c i = true.
Proof.
  induction 1 as [|c u Hs IH Hown Hnamed]; intros i; [reflexivity|].
  rewrite length_app, Nat.add_comm. cbn [List.length Nat.add].
  now apply walkEnds_seniority_snoc.
Qed.

Lemma seniority_shape (c : list doc) :
  seniority c -> forall c', map shape c = map shape c' -> seniority c'.
Proof.
  induction 1 as [|c u Hs IH Hown Hnamed]; intros c' H.
  - destruct c'; [constructor | discriminate].
  - rewrite map_app in H. symmetry in H.
    apply map_eq_app in H as (c0 & l & -> & H0 & H1).
    destruct l as [|u' [|? ?]]; try discriminate.
    cbn [map] in H1. assert (Hu : shape u' = shape u) by congruence.
    constructor.
    + apply IH. now symmetry.
    + change (sponsorBy (shape u') <> sponsorId (shape u')).
      now rewrite Hu.
    + intros w' Hw'.
      destruct (shape_In c c0 w' (eq_sym H0) Hw') as (w & Hw & Hsw).
      change (sponsorBy (shape w') <> sponsorId (shape u')).
      rewrite Hu, <- Hsw. exact (Hnamed w Hw).
Qed.

(** With one user more, stored last, the walk still ends. *)
Lemma walkEnds_created (c : list doc) (u : doc) (fuel : nat)
    (i : ObjectId) :
  seniority c -> sponsorBy u <> sponsorId u ->
  (forall w, In w c -> sponsorBy w <> sponsorId u) ->
  List.length c + 2 <= fuel ->
  walkEnds fuel (c ++ [u]) i = true.
Proof.
  intros Hs Hown Hnamed Hfuel.
  replace fuel
    with (fuel - S (List.length (c ++ [u])) + S (List.length (c ++ [u])))
    by (rewrite length_app; cbn [List.length]; lia).
  apply walkEnds_plus. apply walkEnds_seniority. now constructor.
Qed.

End SeniorityFacts.

(** X6.  [verifyOTPUser] always answers on what admissions build.  When
    every stored user names as sponsor nobody stored after it, and the
    referral code generated for the new user is neither the sponsor code
    of the request nor one a stored user names already, the leveling walk
    ends within one evaluation more than there are users: the handler
    answers, and the stored users are again in that order.  The empty
    collection is such a state. *)
Theorem admission_always_answers (fuel : nat) (now : Z) (fresh : ObjectId)
    (code : string) (body : VerifyBody.t) (db : Db) :
  seniority (users db) ->
  (forall w, In w (users db) -> User.sponsorBy w <> code) ->
  VerifyBody.sponsorBy body <> Some code ->
  List.length (users db) + 2 <= fuel ->
  fst (UserController.verifyOTPUser fuel now fresh code body db) <> None
  /\ seniority
       (users (snd (UserController.verifyOTPUser fuel now fresh code body
                      db))).
Proof.
  intros Hs Hcode Hby Hfuel. unfold UserController.verifyOTPUser.
  destruct (negb (Js.truthy (VerifyBody.tempId body) && _ && _ && _ && _
                  && _ && _)) eqn:Hfields;
    [split; [discriminate | exact Hs]|].
  destruct (TempUser.findOneByTempId _ _) as [t|];
    [|split; [discriminate | exact Hs]].
  destruct (_ >? _)%Z; [split; [discriminate | exact Hs]|].
  destruct (negb (TempUser.otp t =? _)%string);
    [split; [discriminate | exact Hs]|].
  destruct (User.findOneByEmailOrPhone _ _ _);
    [split; [discriminate | exact Hs]|].
  set (user := User.create _ _ _ _ _ _ _ _ _ _).
  assert (Hn : seniority (users db ++ [user])).
  { constructor; [exact Hs| |exact Hcode].
    subst user. cbn [User.sponsorBy User.sponsorId User.create].
    destruct (VerifyBody.sponsorBy body) as [s|]; cbn [Js.value].
    - intros E. apply Hby. now rewrite E.
    - apply negb_false_iff in Hfields.
      rewrite !andb_true_iff in Hfields.
      destruct Hfields as [[_ Hf] _]. discriminate. }
  destruct (User.findOneBySponsorId _ _) as [sponsor|];
    [|split; [discriminate | exact Hn]].
  pose proof (shape_updateSponsorLevels fuel (users db ++ [user])
                (User._id (User.pushSponsorTree sponsor (User._id user))))
    as Hshape.
  pose proof (updateSponsorLevels_ends fuel (users db ++ [user])
                (users db ++ [user])
                (User._id (User.pushSponsorTree sponsor (User._id user)))
                eq_refl) as Hends.
  inversion Hn as [E|c0 u0 _ Hown Hnamed E]; [now destruct (users db)|].
  apply app_inj_tail in E as [-> ->].
  rewrite (walkEnds_created (users db) user fuel _ Hs Hown Hnamed Hfuel)
    in Hends.
  destruct (Leveling.updateSponsorLevels _ _ _) as [ended leveled].
  cbn [fst snd] in *. subst ended. cbn [fst snd users].
  split; [discriminate|].
  exact (seniority_shape _ Hn _ (eq_sym Hshape)).
Qed.

Lemma admission_always_answers_witness :
  seniority (users Sample.oneSession)
  /\ fst (UserController.verifyOTPUser 5 1000 11 "A"
            (Sample.verifyBody "1" "N") Sample.oneSession) <> None.
Proof.
  assert (Hs : seniority (users Sample.oneSession)).
  { apply (seniority_snoc [] (Sample.member 1 "N" "root" [] 0));
      [constructor | discriminate | intros w []]. }
  split; [exact Hs|].
  refine (proj1 (admission_always_answers 5 1000 11 "A"
                   (Sample.verifyBody "1" "N") Sample.oneSession Hs _ _ _)).
  - intros w [<-|[]]. discriminate.
  - discriminate.
  - cbn. lia.
Defined.

(** ** Consuming a verification session: every outcome *)

Lemma findByIdAndDelete_others (c : list TempUser.doc) (i : ObjectId)
    (t : TempUser.doc) :
  In t (TempUser.findByIdAndDelete c i) <-> In t c /\ TempUser._id t <> i.
Proof.
  unfold TempUser.findByIdAndDelete. rewrite filter_In.
  rewrite negb_true_iff, Nat.eqb_neq. reflexivity.
Qed.

Lemma findOneByEmailOrPhone_nobody (c : list User.doc) (e p : string) :
  (forall u, In u c -> User.email u <> e /\ User.phoneNumber u <> p) ->
  User.findOneByEmailOrPhone c e p = None.
Proof.
  intros H. apply find_none_iff. intros u Hu.
  destruct (H u Hu) as [He Hp].
  apply String.eqb_neq in He, Hp. now rewrite He, Hp.
Qed.

(** In a collection with unique referral codes the lookup of a code gives
    its holder; a code that nobody holds gives nothing. *)
Lemma findOneBySponsorId_holder (c : list User.doc) (s : User.doc) :
  NoDup (map User.sponsorId c) -> In s c ->
  User.findOneBySponsorId c (User.sponsorId s) = Some s.
Proof. apply (find_unique_key User.sponsorId). Qed.

Lemma findOneBySponsorId_nobody (c : list User.doc) (code : string) :
  (forall s, In s c -> User.sponsorId s <> code) ->
  User.findOneBySponsorId c code = None.
Proof.
  intros H. apply find_none_iff. intros s Hs.
  apply String.eqb_neq. now apply H.
Qed.

(** C6.  [verifyOTPUser] on a request that carries every field.  No
    session for the [tempId]: NotFound, nothing changed.  A session older
    than ten minutes: Expired, that session deleted and every other one
    kept, users untouched.  A different OTP: InvalidOtp, nothing changed.
    A stored user with the session's email or phone: Conflict, nothing
    changed.  Otherwise, on users whose referral codes are distinct and
    none of whom names as sponsor its own code or the code of a user
    stored after it, with a generated code that is new and that neither
    the request nor a stored user names as sponsor, and within an
    allowance of two evaluations more than there are users: the answer is
    201, that session is deleted and every other one kept, the user is
    stored verified with the session's email and phone, and the leveling
    walk has run to its end from the holder of the sponsor code, on the
    collection that holds the new user, its result being what is stored;
    when nobody holds the sponsor code the users are the stored ones and
    the new one. *)
Theorem consume_outcomes (fuel : nat) (now : Z) (fresh : ObjectId)
    (code tempId otp firstName lastName password sponsorBy gender : string)
    (db : Db) :
  tempId <> "" -> otp <> "" -> firstName <> "" -> lastName <> "" ->
  password <> "" -> sponsorBy <> "" -> gender <> "" ->
  let body :=
    VerifyBody.mk (Some tempId) (Some otp) (Some firstName) (Some lastName)
      (Some password) (Some sponsorBy) (Some gender) in
  let r := UserController.verifyOTPUser fuel now fresh code body db in
  (TempUser.findOneByTempId (tempUsers db) tempId = None ->
   r = (Some NotFound, db))
  /\ forall t,
      TempUser.findOneByTempId (tempUsers db) tempId = Some t ->
      ((now > TempUser.createdAt t + 10 * 60 * 1000)%Z ->
       fst r = Some Expired
       /\ users (snd r) = users db
       /\ outbox (snd r) = outbox db
       /\ forall t', In t' (tempUsers (snd r))
                     <-> In t' (tempUsers db)
                         /\ TempUser._id t' <> TempUser._id t)
      /\ ((now <= TempUser.createdAt t + 10 * 60 * 1000)%Z ->
          (TempUser.otp t <> otp -> r = (Some InvalidOtp, db))
          /\ (TempUser.otp t = otp ->
              (forall u, In u (users db) -> User.isVerified u = true ->
                 User.email u = TempUser.email t
                 \/ User.phoneNumber u = TempUser.phoneNumber t ->
                 r = (Some Conflict, db))
              /\ ((forall u, In u (users db) ->
                     User.email u <> TempUser.email t
                     /\ User.phoneNumber u <> TempUser.phoneNumber t) ->
                  seniority (users db) ->
                  NoDup (map User.sponsorId (users db)) ->
                  ~ In code (map User.sponsorId (users db)) ->
                  (forall w, In w (users db) -> User.sponsorBy w <> code) ->
                  sponsorBy <> code ->
                  List.length (users db) + 2 <= fuel ->
                  let user :=
                    User.create fresh code firstName lastName
                      (TempUser.email t) (TempUser.phoneNumber t) password
                      sponsorBy (Some gender) true in
                  let created := users db ++ [user] in
                  fst r = Some (Json 201 "Registration completed successfully")
                  /\ (forall t', In t' (tempUsers (snd r))
                                 <-> In t' (tempUsers db)
                                     /\ TempUser._id t' <> TempUser._id t)
                  /\ outbox (snd r) = outbox db
                  /\ (forall s, In s (users db) ->
                        User.sponsorId s = sponsorBy ->
                        Leveling.updateSponsorLevels fuel created (User._id s)
                        = (true, users (snd r)))
                  /\ ((forall s, In s (users db) ->
                         User.sponsorId s <> sponsorBy) ->
                      users (snd r) = created)
                  /\ exists u,
                      In u (users (snd r)) /\ User._id u = fresh
                      /\ User.isVerified u = true
                      /\ User.email u = TempUser.email t
                      /\ User.phoneNumber u = TempUser.phoneNumber t
                      /\ User.sponsorBy u = sponsorBy
                      /\ User.sponsorId u = code))).
Proof.
  intros H1 H2 H3 H4 H5 H6 H7 body r. split.
  { now apply consume_not_found. }
  intros t Ht. split.
  { intros Hexp. subst r body.
    rewrite (consume_expired fuel now fresh code tempId otp firstName lastName
               password sponsorBy gender db H1 H2 H3 H4 H5 H6 H7 t Ht Hexp).
    cbn [fst snd users outbox tempUsers withTempUsers].
    split; [reflexivity|]. split; [reflexivity|]. split; [reflexivity|].
    intros t'. apply findByIdAndDelete_others. }
  intros Hlive. split.
  { now apply consume_invalid_otp. }
  intros Hotp. split.
  { intros u Hin _ Hu. now apply consume_conflict with t u. }
  intros Hnobody Hs Hcodes Hnewcode Hnamed Hby Hfuel user created.
  pose proof (findOneByEmailOrPhone_nobody _ _ _ Hnobody) as Hnone.
  assert (Hcreated : NoDup (map User.sponsorId created)).
  { subst created. rewrite map_app. cbn [map].
    apply NoDup_app; [exact Hcodes | repeat constructor; intros [] |].
    intros c Hc [<-|[]]. now apply Hnewcode. }
  assert (Hnew : forall leveled, map shape leveled = map shape created ->
            exists u, In u leveled /\ User._id u = fresh
                      /\ User.isVerified u = true
                      /\ User.email u = TempUser.email t
                      /\ User.phoneNumber u = TempUser.phoneNumber t
                      /\ User.sponsorBy u = sponsorBy
                      /\ User.sponsorId u = code).
  { intros leveled Hsh.
    assert (Hin : In (shape user) (map shape leveled)).
    { rewrite Hsh. apply in_map. subst created. apply in_or_app. right.
      now left. }
    apply in_map_iff in Hin as (u & Hu & Hin). exists u.
    split; [exact Hin|].
    change (User._id (shape u) = fresh /\ User.isVerified (shape u) = true
            /\ User.email (shape u) = TempUser.email t
            /\ User.phoneNumber (shape u) = TempUser.phoneNumber t
            /\ User.sponsorBy (shape u) = sponsorBy
            /\ User.sponsorId (shape u) = code).
    rewrite Hu. repeat split. }
  destruct (User.findOneBySponsorId created sponsorBy) as [s|] eqn:Hsp.
  - destruct (consume_sponsored fuel now fresh code tempId otp firstName
                lastName password sponsorBy gender db H1 H2 H3 H4 H5 H6 H7
                t Ht Hlive Hotp Hnone s Hsp
                (walkEnds_created (users db) user fuel (User._id s) Hs Hby
                   Hnamed Hfuel)) as [Hend Hr].
    subst r body. rewrite Hr. cbn [fst snd users tempUsers outbox].
    split; [reflexivity|].
    split; [intros t'; apply findByIdAndDelete_others|].
    split; [reflexivity|]. split; [|split].
    + intros s' Hs' Hcode'.
      assert (Hfound : User.findOneBySponsorId created sponsorBy = Some s').
      { rewrite <- Hcode'. apply findOneBySponsorId_holder; [exact Hcreated|].
        subst created. apply in_or_app. now left. }
      assert (s' = s) by congruence. subst s'.
      apply injective_projections; [exact Hend | reflexivity].
    + intros Hnoone. exfalso.
      apply find_some in Hsp as [Hin Hcode']. apply String.eqb_eq in Hcode'.
      subst created. apply in_app_or in Hin as [Hin|[<-|[]]].
      * exact (Hnoone s Hin Hcode').
      * now apply Hby.
    + apply Hnew. apply shape_updateSponsorLevels.
  - subst r body.
    rewrite (consume_unsponsored fuel now fresh code tempId otp firstName
               lastName password sponsorBy gender db H1 H2 H3 H4 H5 H6 H7
               t Ht Hlive Hotp Hnone Hsp).
    cbn [fst snd users tempUsers outbox].
    split; [reflexivity|].
    split; [intros t'; apply findByIdAndDelete_others|].
    split; [reflexivity|]. split; [|split].
    + intros s' Hs' Hcode'. exfalso.
      assert (Hfound : User.findOneBySponsorId created sponsorBy = Some s').
      { rewrite <- Hcode'. apply findOneBySponsorId_holder; [exact Hcreated|].
        subst created. apply in_or_app. now left. }
      congruence.
    + reflexivity.
    + now apply Hnew.
Qed.

Lemma consume_outcomes_witness :
  let r := UserController.verifyOTPUser 9 1000 11 "A"
             (Sample.verifyBody "1" "C") Fixture.thirdPending in
  seniority (users Fixture.thirdPending)
  /\ levelOf (users Fixture.thirdPending) 1 = Some 0
  /\ fst r = Some (Json 201 "Registration completed successfully")
  /\ (forall t', In t' (tempUsers (snd r))
                 <-> In t' (tempUsers Fixture.thirdPending)
                     /\ TempUser._id t' <> 100)
  /\ In (Sample.pending 101 "2" 0) (tempUsers (snd r))
  /\ Leveling.updateSponsorLevels 9
       (users Fixture.thirdPending
        ++ [User.create 11 "A" "Bea" "Roy" "c1@x.io" "+11" "pw" "C"
              (Some "f") true]) 1
     = (true, users (snd r))
  /\ levelOf (users (snd r)) 1 = Some 2.
Proof.
  assert (Hs : seniority (users Fixture.thirdPending)).
  { apply (seniority_snoc
             [Sample.member 0 "P" "root" [] 0; Sample.member 1 "C" "P" [] 0;
              Sample.member 2 "G1" "C" [] 0]
             (Sample.member 3 "G2" "C" [] 0)).
    - apply (seniority_snoc
               [Sample.member 0 "P" "root" [] 0; Sample.member 1 "C" "P" [] 0]
               (Sample.member 2 "G1" "C" [] 0)).
      + apply (seniority_snoc [Sample.member 0 "P" "root" [] 0]
                 (Sample.member 1 "C" "P" [] 0)).
        * apply (seniority_snoc [] (Sample.member 0 "P" "root" [] 0));
            [constructor | discriminate | intros w []].
        * discriminate.
        * intros w [<-|[]]. discriminate.
      + discriminate.
      + intros w [<-|[<-|[]]]; discriminate.
    - discriminate.
    - intros w [<-|[<-|[<-|[]]]]; discriminate. }
  destruct (consume_outcomes 9 1000 11 "A" "T1" "111111" "Bea" "Roy" "pw" "C"
              "f" Fixture.thirdPending)
    as [_ H]; try discriminate.
  destruct (H (Sample.pending 100 "1" 0) eq_refl) as [_ Hlive].
  assert (Hnow : Z.le 1000 (TempUser.createdAt (Sample.pending 100 "1" 0)
                              + 10 * 60 * 1000)) by (cbn; lia).
  destruct (Hlive Hnow) as [_ Hok].
  destruct (Hok eq_refl) as [_ Hnew].
  destruct Hnew as (Hr & Hgone & _ & Hrun & _ & _).
  - intros u [<-|[<-|[<-|[<-|[]]]]]; split; discriminate.
  - exact Hs.
  - cbn. repeat (constructor; [cbn; intuition discriminate|]). constructor.
  - cbn. intuition discriminate.
  - intros w [<-|[<-|[<-|[<-|[]]]]]; discriminate.
  - discriminate.
  - cbn. lia.
  - cbv zeta. split; [exact Hs|]. split; [reflexivity|].
    split; [exact Hr|]. split; [exact Hgone|].
    split; [apply Hgone; split; [right; now left | discriminate]|].
    split; [|reflexivity].
    exact (Hrun (Sample.member 1 "C" "P" [] 0)
             (or_intror (or_introl eq_refl)) eq_refl).
Defined.

(** ** From signup to the stored user *)

Lemma findOneByTempId_snoc (c : list TempUser.doc) (t : TempUser.doc) :
  ~ In (TempUser.tempId t) (map TempUser.tempId c) ->
  TempUser.findOneByTempId (c ++ [t]) (TempUser.tempId t) = Some t.
Proof.
  intros H. unfold TempUser.findOneByTempId.
  induction c as [|o c IH]; cbn [app find].
  - now rewrite String.eqb_refl.
  - destruct (String.eqb_spec (TempUser.tempId o) (TempUser.tempId t))
      as [E|_].
    + exfalso. apply H. left. exact E.
    + apply IH. intros Hin. apply H. now right.
Qed.

Lemma findByIdAndDelete_snoc (c : list TempUser.doc) (t : TempUser.doc) :
  ~ In (TempUser._id t) (map TempUser._id c) ->
  TempUser.findByIdAndDelete (c ++ [t]) (TempUser._id t) = c.
Proof.
  intros H. unfold TempUser.findByIdAndDelete.
  rewrite filter_app. cbn [filter]. rewrite Nat.eqb_refl. cbn [negb].
  rewrite app_nil_r. apply forallb_filter_id. apply forallb_forall.
  intros o Ho. apply negb_true_iff, Nat.eqb_neq. intros E. apply H.
  rewrite <- E. now apply in_map.
Qed.

(** A first signup for an address: the session is appended and the OTP
    mailed. *)
Lemma signup_fresh (now : Z) (fresh : ObjectId) (tempId otp : string)
    (firstName lastName mail phone password sponsorBy gender : string)
    (db : Db) :
  firstName <> "" -> lastName <> "" -> mail <> "" -> phone <> "" ->
  password <> "" -> sponsorBy <> "" -> gender <> "" ->
  TempUser.findOneByEmail (tempUsers db) mail = None ->
  ~ In phone (map TempUser.phoneNumber (tempUsers db)) ->
  ~ In tempId (map TempUser.tempId (tempUsers db)) ->
  UserController.signupUser now fresh tempId otp None
    (SignupBody.mk (Some firstName) (Some lastName) (Some mail) (Some phone)
       (Some password) (Some sponsorBy) (Some gender)) db
  = (Json 200 "OTP sent. Please verify to complete registration.",
     mkDb (tempUsers db ++ [TempUser.mk fresh mail phone tempId otp now])
       (users db)
       (outbox db ++ [mkMail mail "Your OTP for Account Verification" otp])).
Proof.
  intros H1 H2 H3 H4 H5 H6 H7 Hmail Hphone Htemp.
  unfold UserController.signupUser.
  rewrite (signup_fields_pass firstName lastName mail phone password
             sponsorBy gender H1 H2 H3 H4 H5 H6 H7).
  cbn [SignupBody.email SignupBody.phoneNumber Js.value]. rewrite Hmail.
  unfold TempUser.create. rewrite !taken_false; [reflexivity| | |].
  - intros o Ho _ E. apply Htemp. rewrite <- E. now apply in_map.
  - intros o Ho _ E. apply Hphone. rewrite <- E. now apply in_map.
  - intros o Ho _ E. apply (find_none _ _ Hmail) in Ho.
    apply String.eqb_neq in Ho. contradiction.
Qed.

(** X7.  The round trip of a registration.  A first signup, with every
    field, for an email and phone held by no session and no user, the
    generated session [_id] and [tempId] not being in use; then
    [verifyOTPUser] with the [tempId] and the OTP of that signup and the
    same names, password, sponsor and gender, within ten minutes.  The
    stored users are such that none names as sponsor its own code or the
    code of a user stored after it; the referral code generated for the
    new user is neither the sponsor code of the request nor one a stored
    user names; and the leveling walk is allowed two evaluations more
    than there are users.  Then the OTP is mailed to the address, the
    registration completes with 201, the sessions are as they were before
    the signup, and a verified user with that email, phone, password,
    sponsor and code is stored. *)
Theorem signup_then_verify_registers (fuel : nat) (now now' : Z)
    (session fresh : ObjectId)
    (tempId otp code firstName lastName mail phone password sponsorBy
       gender : string)
    (db : Db) :
  tempId <> "" -> otp <> "" -> firstName <> "" -> lastName <> "" ->
  mail <> "" -> phone <> "" -> password <> "" -> sponsorBy <> "" ->
  gender <> "" ->
  TempUser.findOneByEmail (tempUsers db) mail = None ->
  ~ In phone (map TempUser.phoneNumber (tempUsers db)) ->
  ~ In tempId (map TempUser.tempId (tempUsers db)) ->
  ~ In session (map TempUser._id (tempUsers db)) ->
  User.findOneByEmailOrPhone (users db) mail phone = None ->
  (now' <= now + 10 * 60 * 1000)%Z ->
  seniority (users db) ->
  (forall w, In w (users db) -> User.sponsorBy w <> code) ->
  sponsorBy <> code ->
  List.length (users db) + 2 <= fuel ->
  let r1 :=
    UserController.signupUser now session tempId otp None
      (SignupBody.mk (Some firstName) (Some lastName) (Some mail)
         (Some phone) (Some password) (Some sponsorBy) (Some gender)) db in
  let r2 :=
    UserController.verifyOTPUser fuel now' fresh code
      (VerifyBody.mk (Some tempId) (Some otp) (Some firstName)
         (Some lastName) (Some password) (Some sponsorBy) (Some gender))
      (snd r1) in
  fst r1 = Json 200 "OTP sent. Please verify to complete registration."
  /\ outbox (snd r1)
     = outbox db ++ [mkMail mail "Your OTP for Account Verification" otp]
  /\ fst r2 = Some (Json 201 "Registration completed successfully")
  /\ tempUsers (snd r2) = tempUsers db
  /\ exists u,
       In u (users (snd r2)) /\ User._id u = fresh
       /\ User.isVerified u = true /\ User.email u = mail
       /\ User.phoneNumber u = phone /\ User.password u = password
       /\ User.sponsorBy u = sponsorBy /\ User.sponsorId u = code.
Proof.
  intros Ht Ho H1 H2 H3 H4 H5 H6 H7 Hmail Hphone Htemp Hsession Huser Hlive
    Hs Hcode Hby Hfuel r1 r2.
  assert (E1 : r1 = (Json 200 "OTP sent. Please verify to complete registration.",
                     mkDb (tempUsers db
                           ++ [TempUser.mk session mail phone tempId otp now])
                       (users db)
                       (outbox db
                        ++ [mkMail mail "Your OTP for Account Verification"
                              otp])))
    by (now apply signup_fresh).
  set (t := TempUser.mk session mail phone tempId otp now) in *.
  set (db1 := mkDb _ _ _) in E1.
  split; [now rewrite E1|]. split; [now rewrite E1|].
  assert (Hfound : TempUser.findOneByTempId (tempUsers db1) tempId = Some t)
    by exact (findOneByTempId_snoc (tempUsers db) t Htemp).
  set (user := User.create fresh code firstName lastName mail phone password
                 sponsorBy (Some gender) true).
  assert (Hnew : forall leveled,
            map shape leveled = map shape (users db ++ [user]) ->
            exists u, In u leveled /\ User._id u = fresh
              /\ User.isVerified u = true /\ User.email u = mail
              /\ User.phoneNumber u = phone /\ User.password u = password
              /\ User.sponsorBy u = sponsorBy /\ User.sponsorId u = code).
  { intros leveled Hsh.
    assert (Hin : In (shape user) (map shape leveled)).
    { rewrite Hsh. apply in_map, in_or_app. right. now left. }
    apply in_map_iff in Hin as (u & Hu & Hin). exists u.
    split; [exact Hin|].
    change (User._id (shape u) = fresh /\ User.isVerified (shape u) = true
            /\ User.email (shape u) = mail
            /\ User.phoneNumber (shape u) = phone
            /\ User.password (shape u) = password
            /\ User.sponsorBy (shape u) = sponsorBy
            /\ User.sponsorId (shape u) = code).
    rewrite Hu. repeat split. }
  subst r2. rewrite E1. cbn [snd].
  destruct (User.findOneBySponsorId (users db ++ [user]) sponsorBy)
    as [s|] eqn:Hsp.
  - destruct (consume_sponsored fuel now' fresh code tempId otp firstName
                lastName password sponsorBy gender db1 Ht Ho H1 H2 H5 H6 H7
                t Hfound Hlive eq_refl Huser s Hsp
                (walkEnds_created (users db) user fuel (User._id s) Hs Hby
                   Hcode Hfuel)) as [_ Hr].
    rewrite Hr. cbn [fst snd tempUsers users].
    split; [reflexivity|].
    split; [exact (findByIdAndDelete_snoc (tempUsers db) t Hsession)|].
    apply Hnew. apply shape_updateSponsorLevels.
  - rewrite (consume_unsponsored fuel now' fresh code tempId otp firstName
               lastName password sponsorBy gender db1 Ht Ho H1 H2 H5 H6 H7
               t Hfound Hlive eq_refl Huser Hsp).
    cbn [fst snd tempUsers users].
    split; [reflexivity|].
    split; [exact (findByIdAndDelete_snoc (tempUsers db) t Hsession)|].
    now apply Hnew.
Qed.


Lemma signup_then_verify_registers_witness :
  seniority (users Sample.oneSession)
  /\ fst (UserController.verifyOTPUser 5 1000 21 "Z"
            (VerifyBody.mk (Some "T9") (Some "424242") (Some "Bea")
               (Some "Roy") (Some "pw") (Some "N") (Some "f"))
            (snd (UserController.signupUser 0 200 "T9" "424242" None
                    (SignupBody.mk (Some "Bea") (Some "Roy") (Some "z@x.io")
                       (Some "+7") (Some "pw") (Some "N") (Some "f"))
                    Sample.oneSession)))
     = Some (Json 201 "Registration completed successfully").
Proof.
  assert (Hs : seniority (users Sample.oneSession)).
  { apply (seniority_snoc [] (Sample.member 1 "N" "root" [] 0));
      [constructor | discriminate | intros w []]. }
  split; [exact Hs|].
  refine (proj1 (proj2 (proj2
            (signup_then_verify_registers 5 0 1000 200 21 "T9" "424242" "Z"
               "Bea" "Roy" "z@x.io" "+7" "pw" "N" "f" Sample.oneSession
               _ _ _ _ _ _ _ _ _ _ _ _ _ _ _ Hs _ _ _))));
    try discriminate; try reflexivity.
  - cbn. intuition discriminate.
  - cbn. intuition discriminate.
  - cbn. intuition discriminate.
  - intros w [<-|[]]. discriminate.
  - cbn. lia.
Defined.

(** ** A session is used once *)

Lemma findOneByTempId_deleted (c : list TempUser.doc) (t : TempUser.doc)
    (tempId : string) :
  NoDup (map TempUser.tempId c) ->
  TempUser.findOneByTempId c tempId = Some t ->
  TempUser.findOneByTempId
    (TempUser.findByIdAndDelete c (TempUser._id t)) tempId = None.
Proof.
  intros Hnd Hf. apply find_some in Hf as [Hin Ht].
  apply String.eqb_eq in Ht.
  apply find_none_iff. intros o Ho.
  apply String.eqb_neq. intros E.
  pose proof (findByIdAndDelete_gone _ _ _ Ho) as Hne.
  apply filter_In in Ho as [Ho _]. apply Hne. f_equal.
  apply (unique_key TempUser.tempId c Hnd o t Ho Hin). congruence.
Qed.

(** X8.  A session is used once.  On sessions with distinct [tempId]s,
    when [verifyOTPUser] has completed a registration or has found the
    session expired, the same request sent again, at any time, is answered
    with NotFound and changes nothing. *)
Theorem consumed_session_is_gone (fuel fuel' : nat) (now now' : Z)
    (fresh fresh' : ObjectId) (code code' : string) (body : VerifyBody.t)
    (db : Db) :
  NoDup (map TempUser.tempId (tempUsers db)) ->
  let r := UserController.verifyOTPUser fuel now fresh code body db in
  fst r = Some (Json 201 "Registration completed successfully")
  \/ fst r = Some Expired ->
  UserController.verifyOTPUser fuel' now' fresh' code' body (snd r)
  = (Some NotFound, snd r).
Proof.
  intros Hnd r Hr.
  assert (H : negb (Js.truthy (VerifyBody.tempId body)
                    && Js.truthy (VerifyBody.otp body)
                    && Js.truthy (VerifyBody.firstName body)
                    && Js.truthy (VerifyBody.lastName body)
                    && Js.truthy (VerifyBody.password body)
                    && Js.truthy (VerifyBody.sponsorBy body)
                    && Js.truthy (VerifyBody.gender body)) = false
              /\ exists t,
                  TempUser.findOneByTempId (tempUsers db)
                    (Js.value (VerifyBody.tempId body)) = Some t
                  /\ tempUsers (snd r)
                     = TempUser.findByIdAndDelete (tempUsers db)
                         (TempUser._id t)).
  { subst r. revert Hr. unfold UserController.verifyOTPUser.
    destruct (negb (Js.truthy (VerifyBody.tempId body) && _ && _ && _ && _
                    && _ && _));
      [intros [Hr|Hr]; discriminate|].
    split; [reflexivity|]. revert Hr.
    destruct (TempUser.findOneByTempId _ _) as [t|];
      [|intros [Hr|Hr]; discriminate].
    intros Hr. exists t. split; [reflexivity|]. revert Hr.
    destruct (_ >? _)%Z; [reflexivity|].
    destruct (negb (TempUser.otp t =? _)%string);
      [intros [Hr|Hr]; discriminate|].
    destruct (User.findOneByEmailOrPhone _ _ _);
      [intros [Hr|Hr]; discriminate|].
    destruct (User.findOneBySponsorId _ _) as [sponsor|]; [|reflexivity].
    destruct (Leveling.updateSponsorLevels _ _ _) as [ended leveled].
    destruct ended; [reflexivity|].
    intros [Hr|Hr]; discriminate. }
  destruct H as (Hfields & t & Ht & E).
  unfold UserController.verifyOTPUser.
  rewrite Hfields, E, (findOneByTempId_deleted _ _ _ Hnd Ht). reflexivity.
Qed.

Lemma consumed_session_is_gone_witness :
  fst (UserController.verifyOTPUser 5 1000 11 "A"
         (Sample.verifyBody "1" "N") Sample.oneSession)
  = Some (Json 201 "Registration completed successfully")
  /\ fst (UserController.verifyOTPUser 5 2000 12 "B"
            (Sample.verifyBody "1" "N")
            (snd (UserController.verifyOTPUser 5 1000 11 "A"
                    (Sample.verifyBody "1" "N") Sample.oneSession)))
     = Some NotFound.
Proof.
  split; [reflexivity|].
  rewrite (consumed_session_is_gone 5 5 1000 2000 11 12 "A" "B"
             (Sample.verifyBody "1" "N") Sample.oneSession);
    [reflexivity | repeat constructor; intros [] | left; reflexivity].
Defined.

(** ** After a resend *)

(** X9.  A resend leaves the session unusable with the OTP that was
    mailed.  On sessions with distinct identifiers and [tempId]s, after
    [resendOtp] for a live session with an OTP other than the stored one,
    nothing more is in the outbox, and [verifyOTPUser] with the OTP the
    session had before is answered with InvalidOtp and changes nothing. *)
Theorem resend_invalidates_mailed_otp (fuel : nat) (now : Z)
    (fresh : ObjectId)
    (newOtp code tempId firstName lastName password sponsorBy gender : string)
    (mailError : option string) (t : TempUser.doc) (db : Db) :
  tempId <> "" -> TempUser.otp t <> "" -> firstName <> "" ->
  lastName <> "" -> password <> "" -> sponsorBy <> "" -> gender <> "" ->
  NoDup (map TempUser._id (tempUsers db)) ->
  NoDup (map TempUser.tempId (tempUsers db)) ->
  TempUser.findOneByTempId (tempUsers db) tempId = Some t ->
  newOtp <> TempUser.otp t ->
  (now <= TempUser.createdAt t + 10 * 60 * 1000)%Z ->
  let db1 := snd (UserController.resendOtp newOtp mailError (Some tempId) db) in
  outbox db1 = outbox db
  /\ UserController.verifyOTPUser fuel now fresh code
       (VerifyBody.mk (Some tempId) (Some (TempUser.otp t)) (Some firstName)
          (Some lastName) (Some password) (Some sponsorBy) (Some gender)) db1
     = (Some InvalidOtp, db1).
Proof.
  intros Ht Ho H1 H2 H5 H6 H7 Hid Htid Hf Hne Hlive db1.
  assert (E : db1 = withTempUsers db
                      (TempUser.saveOtp (tempUsers db)
                         (TempUser.setOtp t newOtp))).
  { subst db1. unfold UserController.resendOtp.
    rewrite truthy_Some by exact Ht. cbn [negb Js.value]. rewrite Hf.
    change (Js.bound _ "firstName") with false. reflexivity. }
  split; [now rewrite E|].
  apply find_some in Hf as Hin. destruct Hin as [Hin Hkey].
  apply String.eqb_eq in Hkey.
  assert (Hfound : TempUser.findOneByTempId (tempUsers db1) tempId
                   = Some (TempUser.setOtp t newOtp)).
  { rewrite E. cbn [tempUsers withTempUsers]. unfold TempUser.saveOtp.
    apply find_put with t; trivial.
    - cbn. rewrite Hkey. apply String.eqb_refl.
    - intros o Hoin Hdiff. apply String.eqb_neq. intros Eo. apply Hdiff.
      f_equal. apply (unique_key TempUser.tempId _ Htid o t Hoin Hin).
      congruence. }
  apply (consume_invalid_otp fuel now fresh code tempId (TempUser.otp t)
           firstName lastName password sponsorBy gender db1 Ht Ho H1 H2 H5
           H6 H7 (TempUser.setOtp t newOtp) Hfound Hlive).
  exact Hne.
Qed.

Lemma resend_invalidates_mailed_otp_witness :
  TempUser.findOneByTempId (tempUsers Sample.oneSession) "T1"
  = Some (Sample.pending 100 "1" 0)
  /\ fst (UserController.verifyOTPUser 5 1000 11 "A"
            (Sample.verifyBody "1" "N")
            (snd (UserController.resendOtp "654321" None (Some "T1")
                    Sample.oneSession)))
     = Some InvalidOtp.
Proof.
  split; [reflexivity|].
  refine (f_equal fst
            (proj2 (resend_invalidates_mailed_otp 5 1000 11 "654321" "A"
                      "T1" "Bea" "Roy" "pw" "N" "f" None
                      (Sample.pending 100 "1" 0) Sample.oneSession
                      _ _ _ _ _ _ _ _ _ eq_refl _ _)));
    try discriminate.
  - repeat constructor. intros [].
  - repeat constructor. intros [].
Defined.

(** ** What a signup keeps *)

(** X10.  Of a signup request only the email and the phone number are
    stored: two requests that both pass the field check and agree on
    these two get the same response, leave the same sessions and the same
    users, and have their mail handed over to the same address with the
    same subject and the same OTP, whatever names, password, sponsor and
    gender they carry. *)
Theorem signup_keeps_contact_only (now : Z) (fresh : ObjectId)
    (tempId otp : string) (mailError : option string)
    (body body' : SignupBody.t) (db : Db) :
  let r := UserController.signupUser now fresh tempId otp mailError body db in
  let r' :=
    UserController.signupUser now fresh tempId otp mailError body' db in
  fst r <> Throw (Some 400) "All fields are required" ->
  fst r' <> Throw (Some 400) "All fields are required" ->
  SignupBody.email body = SignupBody.email body' ->
  SignupBody.phoneNumber body = SignupBody.phoneNumber body' ->
  fst r = fst r'
  /\ tempUsers (snd r) = tempUsers (snd r')
  /\ users (snd r) = users (snd r')
  /\ map mailTo (outbox (snd r)) = map mailTo (outbox (snd r'))
  /\ map mailSubject (outbox (snd r)) = map mailSubject (outbox (snd r'))
  /\ map mailOtp (outbox (snd r)) = map mailOtp (outbox (snd r')).
Proof.
  intros r r'. subst r r'. unfold UserController.signupUser.
  intros H H' He Hp.
  destruct (negb (Js.truthy (SignupBody.firstName body) && _ && _ && _ && _
                  && _ && _)); [now contradiction H|].
  destruct (negb (Js.truthy (SignupBody.firstName body') && _ && _ && _
                  && _ && _ && _)); [now contradiction H'|].
  rewrite He, Hp. repeat split.
Qed.

Lemma signup_keeps_contact_only_witness :
  tempUsers
    (snd (UserController.signupUser 0 200 "T9" "424242" None
            (Sample.signupBody "z@x.io" "+7") Sample.oneSession))
  = tempUsers
      (snd (UserController.signupUser 0 200 "T9" "424242" None
              (SignupBody.mk (Some "Cy") (Some "Lo") (Some "z@x.io")
                 (Some "+7") (Some "other") (Some "N") (Some "m"))
              Sample.oneSession)).
Proof.
  refine (proj1 (proj2
            (signup_keeps_contact_only 0 200 "T9" "424242" None
               (Sample.signupBody "z@x.io" "+7")
               (SignupBody.mk (Some "Cy") (Some "Lo") (Some "z@x.io")
                  (Some "+7") (Some "other") (Some "N") (Some "m"))
               Sample.oneSession _ _ eq_refl eq_refl)));
    discriminate.
Defined.

(** ** Password reset and login *)

Lemma findOneByEmail_In (c : list User.doc) (e : string) (u : User.doc) :
  findOneByEmail c e = Some u -> In u c /\ User.email u = e.
Proof.
  intros H. apply find_some in H as [Hin He]. split; [exact Hin|].
  now apply String.eqb_eq.
Qed.

(** Saving a document that differs from the stored one in paths a query
    does not read leaves the answer to the query the saved document. *)
Lemma find_save (p : User.doc -> bool) (c : list User.doc)
    (u u' : User.doc) :
  NoDup (map User._id c) -> User._id u' = User._id u -> p u' = p u ->
  find p c = Some u -> find p (User.save c u') = Some u'.
Proof.
  intros Hnd Hid Hp Hf. apply find_some in Hf as Hin.
  destruct Hin as [Hin _]. unfold User.save. revert Hnd Hin Hf.
  induction c as [|w c IH]; intros Hnd Hin Hf; [destruct Hin|].
  cbn [map] in Hnd. apply NoDup_cons_iff in Hnd as [Hnot Hnd].
  cbn [map find] in *. rewrite Hid.
  destruct (Nat.eqb_spec (User._id w) (User._id u)) as [E|E].
  - destruct Hin as [->|Hin].
    + rewrite Hp. destruct (p u); [reflexivity|].
      apply find_some in Hf as [Hf _]. exfalso. apply Hnot.
      now apply in_map.
    + exfalso. apply Hnot. rewrite E. now apply in_map.
  - destruct Hin as [->|Hin]; [contradiction|].
    destruct (p w); [injection Hf as ->; contradiction|].
    rewrite <- Hid. now apply IH.
Qed.

(** A login by email alone looks the user up as [forgotPassword] does. *)
Lemma findOneByEmailOrPhoneGiven_email (c : list User.doc) (e : string) :
  findOneByEmailOrPhoneGiven c (Some e) None = findOneByEmail c e.
Proof.
  unfold findOneByEmailOrPhoneGiven, findOneByEmail.
  induction c as [|w c IH]; cbn [find]; [reflexivity|].
  rewrite IH. cbn [selects]. now rewrite orb_false_r.
Qed.

Section Reset.

Variables (now : Z) (otp mail : string) (s : Site.t) (u : User.doc).
Hypothesis mail_given : mail <> "".
Hypothesis stored : findOneByEmail (users (Site.db s)) mail = Some u.

(** What [forgotPassword] writes, whether or not the mail leaves. *)
Lemma forgotPassword_written (mailError : option string) :
  let s1 := snd (Accounts.forgotPassword now otp mailError (Some mail) s) in
  users (Site.db s1) = users (Site.db s)
  /\ Site.resetOtp s1 (User._id u) = Held otp
  /\ Site.resetOtpExpires s1 (User._id u)
     = Some (now + 10 * 60 * 1000)%Z.
Proof.
  unfold Accounts.forgotPassword.
  rewrite truthy_Some by exact mail_given. cbn [negb Js.value].
  rewrite stored.
  destruct mailError; cbn [snd Site.db Site.withDb Site.withReset users
    sendMail Site.resetOtp Site.resetOtpExpires]; unfold Site.put;
    now rewrite Nat.eqb_refl.
Qed.

End Reset.

(** X11.  The round trip of a password reset.  For a stored, verified
    user found by its email, on users with distinct identifiers:
    [forgotPassword] mails the OTP to the address; [resetPassword] with
    that OTP within ten minutes succeeds; and [loginUser] with the email
    and the new password then succeeds, given that a password compares
    equal to itself. *)
Theorem reset_then_login (compare : ComparePassword) (now now' : Z)
    (otp mail password : string) (s : Site.t) (u : User.doc) :
  mail <> "" -> otp <> "" -> password <> "" ->
  NoDup (map User._id (users (Site.db s))) ->
  findOneByEmail (users (Site.db s)) mail = Some u ->
  User.isVerified u = true ->
  (now' <= now + 10 * 60 * 1000)%Z ->
  compare password password = true ->
  let r1 := Accounts.forgotPassword now otp None (Some mail) s in
  let r2 :=
    Accounts.resetPassword now' (Some (User._id u)) (Some otp)
      (Some password) (snd r1) in
  fst r1 = Json 200 "Reset OTP sent to email"
  /\ outbox (Site.db (snd r1))
     = outbox (Site.db s) ++ [mkMail mail "Your OTP for Password Reset" otp]
  /\ fst r2 = Json 200 "Password reset successful"
  /\ Accounts.loginUser compare (Some mail) None (Some password)
       (users (Site.db (snd r2)))
     = Json 200 "Login successful".
Proof.
  intros Hmail Hotp Hpw Hnd Hu Hver Hlive Hcmp r1 r2.
  destruct (forgotPassword_written now otp mail s u Hmail Hu None)
    as (Husers & Hheld & Hexp). fold r1 in Husers, Hheld, Hexp.
  destruct (findOneByEmail_In _ _ _ Hu) as [Hin Hemail].
  assert (E1 : fst r1 = Json 200 "Reset OTP sent to email"
               /\ outbox (Site.db (snd r1))
                  = outbox (Site.db s)
                    ++ [mkMail mail "Your OTP for Password Reset" otp]).
  { subst r1. unfold Accounts.forgotPassword.
    rewrite truthy_Some by exact Hmail. cbn [negb Js.value]. rewrite Hu.
    split; reflexivity. }
  destruct E1 as [E1 Eout]. split; [exact E1|]. split; [exact Eout|].
  assert (E2 : r2 = (Json 200 "Password reset successful",
                     Site.withReset
                       (Site.withDb (snd r1)
                          (withUsers (Site.db (snd r1))
                             (User.save (users (Site.db (snd r1)))
                                (setPassword u password))))
                       (User._id u) Null None)).
  { subst r2. unfold Accounts.resetPassword.
    rewrite !truthy_Some by assumption. cbn [andb negb Js.value].
    rewrite Husers, (findById_stored _ u Hnd Hin), Hheld, Hexp.
    cbn [differs]. rewrite String.eqb_refl. cbn [negb orb].
    destruct (Z.ltb_spec (now + 10 * 60 * 1000) now') as [Hlt|_]; [lia|].
    reflexivity. }
  rewrite E2. cbn [fst snd Site.db Site.withReset Site.withDb users
    withUsers]. split; [reflexivity|].
  rewrite Husers. unfold Accounts.loginUser, Accounts.loginUserWith.
  rewrite !truthy_Some by assumption. cbn [negb andb orb Js.value].
  unfold findOneByEmailOrPhoneGiven.
  rewrite (find_save
             (fun w => selects (User.email w) (Some mail)
                       || selects (User.phoneNumber w) None)
             (users (Site.db s)) u (setPassword u password) Hnd
             eq_refl eq_refl).
  - cbn [User.isVerified User.password setPassword]. rewrite Hver, Hcmp.
    reflexivity.
  - rewrite <- Hu. apply findOneByEmailOrPhoneGiven_email.
Qed.

Lemma reset_then_login_witness :
  findOneByEmail (users (Site.db (Fixture.site (Sample.atKyc 1)))) "a@x.io"
  = Some (Fixture.ada 1)
  /\ Accounts.loginUser Fixture.samePassword (Some "a@x.io") None
       (Some "fresh")
       (users
          (Site.db
             (snd (Accounts.resetPassword 1000 (Some 7) (Some "999999")
                     (Some "fresh")
                     (snd (Accounts.forgotPassword 0 "999999" None
                             (Some "a@x.io")
                             (Fixture.site (Sample.atKyc 1))))))))
     = Json 200 "Login successful".
Proof.
  split; [reflexivity|].
  refine (proj2 (proj2 (proj2
            (reset_then_login Fixture.samePassword 0 1000 "999999" "a@x.io"
               "fresh" (Fixture.site (Sample.atKyc 1)) (Fixture.ada 1)
               _ _ _ _ eq_refl eq_refl _ eq_refl))));
    try discriminate.
  repeat constructor. intros [].
Defined.

(** X12.  The password changes only with the live reset OTP.  Whatever the
    request, [resetPassword] either changes nothing and does not answer
    200, or the user exists, the OTP of the request is the one stored for
    it and has not expired, and then the password of that user is the only
    path of any user that is written, while the reset OTP is cleared and
    roles and vehicles are as before. *)
Theorem password_changes_only_with_live_otp (now : Z)
    (userId : option ObjectId) (resetOtp password : option string)
    (s : Site.t) :
  let r := Accounts.resetPassword now userId resetOtp password s in
  (snd r = s /\ forall m, fst r <> Json 200 m)
  \/ exists u otp p expires,
       userId = Some (User._id u)
       /\ User.findById (users (Site.db s)) (User._id u) = Some u
       /\ resetOtp = Some otp /\ password = Some p
       /\ Site.resetOtp s (User._id u) = Held otp
       /\ Site.resetOtpExpires s (User._id u) = Some expires
       /\ (now <= expires)%Z
       /\ fst r = Json 200 "Password reset successful"
       /\ users (Site.db (snd r))
          = User.save (users (Site.db s)) (setPassword u p)
       /\ Site.resetOtp (snd r) (User._id u) = Null
       /\ Site.role (snd r) = Site.role s
       /\ Site.vehicles (snd r) = Site.vehicles s.
Proof.
  intros r. subst r. unfold Accounts.resetPassword.
  destruct userId as [i|]; [|left; split; [reflexivity | discriminate]].
  destruct (negb (Js.truthy resetOtp && Js.truthy password)) eqn:Hgiven;
    [left; split; [reflexivity | discriminate]|].
  destruct (User.findById (users (Site.db s)) i) as [u|] eqn:Hu;
    [|left; split; [reflexivity | discriminate]].
  destruct (findById_In _ _ _ Hu) as [_ <-].
  destruct (differs (Site.resetOtp s (User._id u)) resetOtp) eqn:Hd;
    [left; split; [reflexivity | discriminate]|].
  destruct (Site.resetOtpExpires s (User._id u)) as [expires|] eqn:He;
    [|left; split; [reflexivity | discriminate]].
  cbn [orb].
  destruct (Z.ltb_spec expires now) as [Hlt|Hle];
    [left; split; [reflexivity | discriminate]|].
  right.
  destruct resetOtp as [otp|];
    [|destruct (Site.resetOtp s (User._id u)); discriminate].
  destruct password as [p|];
    [|cbn in Hgiven; rewrite andb_false_r in Hgiven; discriminate].
  destruct (Site.resetOtp s (User._id u)) as [| |held] eqn:Hheld;
    try discriminate.
  cbn [differs] in Hd. apply negb_false_iff, String.eqb_eq in Hd. subst held.
  exists u, otp, p, expires.
  cbn [fst snd Site.db Site.withReset Site.withDb users withUsers
    Site.resetOtp Site.role Site.vehicles Js.value].
  unfold Site.put. rewrite Nat.eqb_refl. repeat split; trivial.
Qed.

(** X13.  A reset OTP is used once: after [resetPassword] has succeeded
    for a user, any further [resetPassword] for that user, with whatever
    OTP, password and time, changes nothing and does not answer 200. *)
Theorem reset_otp_is_single_use (now now' : Z) (i : ObjectId)
    (otp password otp' password' : option string) (s : Site.t) :
  let r := Accounts.resetPassword now (Some i) otp password s in
  fst r = Json 200 "Password reset successful" ->
  let r' := Accounts.resetPassword now' (Some i) otp' password' (snd r) in
  snd r' = snd r /\ forall m, fst r' <> Json 200 m.
Proof.
  intros r Hr r'.
  assert (H : exists u p,
            User.findById (users (Site.db s)) i = Some u
            /\ snd r
               = Site.withReset
                   (Site.withDb s
                      (withUsers (Site.db s)
                         (User.save (users (Site.db s)) (setPassword u p))))
                   (User._id u) Null None).
  { subst r. revert Hr. unfold Accounts.resetPassword.
    destruct (negb _); [discriminate|].
    destruct (User.findById (users (Site.db s)) i) as [u|];
      [|discriminate].
    destruct (differs _ _ || _); [discriminate|].
    intros _. exists u, (Js.value password). split; reflexivity. }
  destruct H as (u & p & Hu & E). subst r'. rewrite E.
  unfold Accounts.resetPassword.
  destruct (negb _); [split; [reflexivity | discriminate]|].
  cbn [Site.db Site.withReset Site.withDb users withUsers].
  rewrite (findById_save _ i u (setPassword u p) Hu eq_refl).
  cbn [Site.resetOtp Site.withReset setPassword User._id].
  unfold Site.put. rewrite !Nat.eqb_refl.
  replace (differs Null otp') with true by (now destruct otp').
  cbn [orb fst snd]. split; [reflexivity | discriminate].
Qed.

Lemma reset_otp_is_single_use_witness :
  fst (Accounts.resetPassword 1000 (Some 7) (Some "999999") (Some "fresh")
         (snd (Accounts.forgotPassword 0 "999999" None (Some "a@x.io")
                 (Fixture.site (Sample.atKyc 1)))))
  = Json 200 "Password reset successful"
  /\ fst (Accounts.resetPassword 2000 (Some 7) (Some "999999") (Some "again")
            (snd (Accounts.resetPassword 1000 (Some 7) (Some "999999")
                    (Some "fresh")
                    (snd (Accounts.forgotPassword 0 "999999" None
                            (Some "a@x.io")
                            (Fixture.site (Sample.atKyc 1)))))))
     <> Json 200 "Password reset successful".
Proof.
  split; [reflexivity|].
  exact (proj2 (reset_otp_is_single_use 1000 2000 7 (Some "999999")
                  (Some "fresh") (Some "999999") (Some "again")
                  (snd (Accounts.forgotPassword 0 "999999" None
                          (Some "a@x.io") (Fixture.site (Sample.atKyc 1))))
                  eq_refl) "Password reset successful").
Defined.

(** X14.  A later request replaces the reset OTP: after two calls of
    [forgotPassword] for the same stored email with different OTPs,
    whether or not their mails left, [resetPassword] with the first OTP
    is refused and changes nothing. *)
Theorem later_request_replaces_reset_otp (now1 now2 now : Z)
    (otp1 otp2 mail password : string) (mailError1 mailError2 : option string)
    (s : Site.t) (u : User.doc) :
  mail <> "" -> otp1 <> "" -> password <> "" ->
  findOneByEmail (users (Site.db s)) mail = Some u ->
  otp1 <> otp2 ->
  let s1 := snd (Accounts.forgotPassword now1 otp1 mailError1 (Some mail) s) in
  let s2 := snd (Accounts.forgotPassword now2 otp2 mailError2 (Some mail) s1) in
  Accounts.resetPassword now (Some (User._id u)) (Some otp1) (Some password)
    s2
  = (Throw (Some 400) "Invalid or expired reset OTP", s2).
Proof.
  intros Hmail Hotp Hpw Hu Hne s1 s2.
  destruct (forgotPassword_written now1 otp1 mail s u Hmail Hu mailError1)
    as (Husers1 & _ & _). fold s1 in Husers1.
  assert (Hu1 : findOneByEmail (users (Site.db s1)) mail = Some u)
    by (now rewrite Husers1).
  destruct (forgotPassword_written now2 otp2 mail s1 u Hmail Hu1 mailError2)
    as (Husers2 & Hheld & _). fold s2 in Husers2, Hheld.
  unfold Accounts.resetPassword.
  rewrite !truthy_Some by assumption. cbn [andb negb].
  destruct (findOneByEmail_In _ _ _ Hu) as [Hin _].
  destruct (find_exists (fun w => User._id w =? User._id u) _ u Hin
              (Nat.eqb_refl _)) as [v Hv].
  rewrite Husers2, Husers1. unfold User.findById. rewrite Hv.
  apply find_some in Hv as [_ Hid]. apply Nat.eqb_eq in Hid.
  rewrite Hid, Hheld. cbn [differs].
  destruct (String.eqb_spec otp2 otp1) as [E|_]; [now elim Hne|].
  reflexivity.
Qed.

Lemma later_request_replaces_reset_otp_witness :
  findOneByEmail (users (Site.db (Fixture.site (Sample.atKyc 1)))) "a@x.io"
  = Some (Fixture.ada 1)
  /\ fst (Accounts.resetPassword 1000 (Some 7) (Some "111111") (Some "fresh")
            (snd (Accounts.forgotPassword 500 "222222" None (Some "a@x.io")
                    (snd (Accounts.forgotPassword 0 "111111" None
                            (Some "a@x.io")
                            (Fixture.site (Sample.atKyc 1)))))))
     = Throw (Some 400) "Invalid or expired reset OTP".
Proof.
  split; [reflexivity|].
  refine (f_equal fst
            (later_request_replaces_reset_otp 0 500 1000 "111111" "222222"
               "a@x.io" "fresh" None None (Fixture.site (Sample.atKyc 1))
               (Fixture.ada 1) _ _ _ eq_refl _));
    discriminate.
Defined.

(** X15.  No login without a verified user and its password: when
    [loginUser], in either copy of the controller, answers 200, a stored
    user has the email or the phone number of the request, is verified,
    and its password compares equal to the one of the request. *)
Theorem login_needs_verified_user_and_password (unverified : string)
    (compare : ComparePassword) (email phoneNumber password : option string)
    (c : list User.doc) (m : string) :
  Accounts.loginUserWith unverified compare email phoneNumber password c
  = Json 200 m ->
  exists u p,
    In u c
    /\ (email = Some (User.email u)
        \/ phoneNumber = Some (User.phoneNumber u))
    /\ User.isVerified u = true
    /\ password = Some p
    /\ compare (User.password u) p = true.
Proof.
  unfold Accounts.loginUserWith.
  destruct password as [p|];
    [|rewrite orb_true_r; discriminate].
  destruct (_ || _); [discriminate|].
  destruct (findOneByEmailOrPhoneGiven c email phoneNumber) as [u|] eqn:Hu;
    [|discriminate].
  destruct (User.isVerified u) eqn:Hv; [|discriminate]. cbn [negb].
  destruct (compare _ _) eqn:Hc; [|discriminate]. intros _.
  apply find_some in Hu as [Hin Hsel].
  exists u, p. repeat split; trivial.
  apply orb_true_iff in Hsel as [H|H]; [left|right].
  - destruct email as [e|]; [|discriminate]. cbn in H.
    apply String.eqb_eq in H. now subst.
  - destruct phoneNumber as [e|]; [|discriminate]. cbn in H.
    apply String.eqb_eq in H. now subst.
Qed.

Lemma login_needs_verified_user_and_password_witness :
  Accounts.loginUser Fixture.samePassword (Some "a@x.io") None (Some "pw")
    (users (Sample.atKyc 1))
  = Json 200 "Login successful"
  /\ exists u p,
       In u (users (Sample.atKyc 1))
       /\ (Some "a@x.io" = Some (User.email u)
           \/ None = Some (User.phoneNumber u))
       /\ User.isVerified u = true
       /\ Some "pw" = Some p
       /\ Fixture.samePassword (User.password u) p = true.
Proof.
  split; [reflexivity|].
  exact (login_needs_verified_user_and_password
           "User not verified. Please complete registration."
           Fixture.samePassword (Some "a@x.io") None (Some "pw")
           (users (Sample.atKyc 1)) "Login successful" eq_refl).
Defined.

(** ** Level 1 of the KYC *)

(** X16.  [submitKYC], in either copy, writes one user or nothing.
    Whatever the request, either nothing changes and the answer is not
    200, or the user of the request exists, the three uploads succeeded,
    the answer is 200 and that user alone is saved, with the first two
    tokens of the full name, the country, the gender, the three URLs and
    [kycLevel] 1, verified if it was or if the copy is the earlier one. *)
Theorem kyc_writes_one_user_or_nothing (alsoVerify : bool) (cloud : Cloud)
    (body : KycBody.t) (db : Db) :
  let r := UserController.submitKYCWith alsoVerify cloud body db in
  (snd r = db /\ forall m, fst r <> Json 200 m)
  \/ exists i u frontImage backImage selfieImage first last front back selfie,
       KycBody.userId body = Some i
       /\ User.findById (users db) i = Some u
       /\ KycBody.frontImage body = Some frontImage
       /\ KycBody.backImage body = Some backImage
       /\ KycBody.selfieImage body = Some selfieImage
       /\ Js.destructure2
            (Js.filterBoolean
               (Js.split " " (Js.value (KycBody.fullName body))))
          = (Some first, Some last)
       /\ cloud frontImage "kyc/front" = SecureUrl front
       /\ cloud backImage "kyc/back" = SecureUrl back
       /\ cloud selfieImage "kyc/selfie" = SecureUrl selfie
       /\ fst r = Json 200 "KYC Level 1 completed successfully"
       /\ snd r
          = withUsers db
              (User.save (users db)
                 (User.setKyc1 u first last (KycBody.country body)
                    (KycBody.gender body) front back selfie
                    (alsoVerify || User.isVerified u))).
Proof.
  intros r. subst r. unfold UserController.submitKYCWith.
  destruct (KycBody.userId body) as [i|];
    [|left; split; [reflexivity | discriminate]].
  destruct (KycBody.frontImage body) as [frontImage|];
    [|left; split; [reflexivity | discriminate]].
  destruct (KycBody.backImage body) as [backImage|];
    [|left; split; [reflexivity | discriminate]].
  destruct (KycBody.selfieImage body) as [selfieImage|];
    [|left; split; [reflexivity | discriminate]].
  destruct (negb (Js.truthy (KycBody.fullName body) && _));
    [left; split; [reflexivity | discriminate]|].
  destruct (Js.destructure2 _) as [firstName lastName].
  destruct (negb (Js.truthy firstName && Js.truthy lastName)) eqn:Hn;
    [left; split; [reflexivity | discriminate]|].
  destruct firstName as [first|]; [|discriminate].
  destruct lastName as [last|];
    [|cbn in Hn; rewrite andb_false_r in Hn; discriminate].
  destruct (User.findById (users db) i) as [u|] eqn:Hu;
    [|left; split; [reflexivity | discriminate]].
  destruct (cloud frontImage "kyc/front") as [front|] eqn:Hf;
    [|left; split; [reflexivity | discriminate]].
  destruct (cloud backImage "kyc/back") as [back|] eqn:Hb;
    [|left; split; [reflexivity | discriminate]].
  destruct (cloud selfieImage "kyc/selfie") as [selfie|] eqn:Hs;
    [|left; split; [reflexivity | discriminate]].
  right.
  exists i, u, frontImage, backImage, selfieImage, first, last, front, back,
    selfie.
  repeat split; trivial.
Qed.

(** What the 200 of [submitKYC] means for the stored user. *)
Lemma submitKYC_saved (alsoVerify : bool) (cloud : Cloud) (body : KycBody.t)
    (db : Db) (m : string) :
  fst (UserController.submitKYCWith alsoVerify cloud body db) = Json 200 m ->
  exists i u u',
    KycBody.userId body = Some i
    /\ User.findById (users db) i = Some u
    /\ snd (UserController.submitKYCWith alsoVerify cloud body db)
       = withUsers db (User.save (users db) u')
    /\ User._id u' = User._id u /\ User.kycLevel u' = 1
    /\ User.isVerified u' = alsoVerify || User.isVerified u
    /\ User.email u' = User.email u
    /\ User.phoneNumber u' = User.phoneNumber u
    /\ User.password u' = User.password u.
Proof.
  unfold UserController.submitKYCWith.
  destruct (KycBody.userId body) as [i|]; [|discriminate].
  destruct (KycBody.frontImage body) as [frontImage|]; [|discriminate].
  destruct (KycBody.backImage body) as [backImage|]; [|discriminate].
  destruct (KycBody.selfieImage body) as [selfieImage|]; [|discriminate].
  destruct (negb (Js.truthy (KycBody.fullName body) && _)); [discriminate|].
  destruct (Js.destructure2 _) as [firstName lastName].
  destruct (negb (Js.truthy firstName && _)); [discriminate|].
  destruct (User.findById (users db) i) as [u|] eqn:Hu; [|discriminate].
  destruct (cloud frontImage "kyc/front") as [front|]; [|discriminate].
  destruct (cloud backImage "kyc/back") as [back|]; [|discriminate].
  destruct (cloud selfieImage "kyc/selfie") as [selfie|]; [|discriminate].
  intros _. exists i, u. eexists. repeat split; trivial.
Qed.

(** X17.  Submitting level 1 again takes level 2 away.  When [submitKYC],
    in either copy, has answered 200 for a user, whatever [kycLevel] that
    user had, [handleVehicleDecision] and [registerVehicle] for the same
    user are answered with 403 and change nothing, until a license is
    uploaded again. *)
Theorem kyc_resubmission_closes_level_2 (alsoVerify : bool) (cloud : Cloud)
    (body : KycBody.t) (s : Site.t) (i : ObjectId) (m : string) :
  KycBody.userId body = Some i ->
  let r := UserController.submitKYCWith alsoVerify cloud body (Site.db s) in
  fst r = Json 200 m ->
  let s' := Site.withDb s (snd r) in
  kycLevelOf (users (Site.db s')) i = Some 1
  /\ (forall hasVehicle,
        Vehicles.handleVehicleDecision (Some i) hasVehicle s'
        = (Vehicles.KycLevel2Required, s'))
  /\ (forall cloud' parseDate now fresh vehicle files,
        VehicleBody.userId vehicle = Some i ->
        Vehicles.registerVehicle cloud' parseDate now fresh vehicle files s'
        = (Vehicles.KycLevel2Required, s')).
Proof.
  intros Hi r Hr s'.
  destruct (submitKYC_saved alsoVerify cloud body (Site.db s) m Hr)
    as (j & u & u' & Hj & Hu & E & Hid & Hk & _).
  assert (j = i) by congruence. subst j.
  assert (Hu' : User.findById (users (Site.db s')) i = Some u').
  { subst s' r. rewrite E. cbn [Site.db Site.withDb users withUsers].
    now apply findById_save with u. }
  split; [unfold kycLevelOf; now rewrite Hu', <- Hk|]. split.
  - intros hasVehicle. unfold Vehicles.handleVehicleDecision.
    now rewrite Hu', Hk.
  - intros cloud' parseDate now fresh vehicle files Hv.
    unfold Vehicles.registerVehicle. now rewrite Hv, Hu', Hk.
Qed.

Lemma kyc_resubmission_closes_level_2_witness :
  kycLevelOf (users (Sample.atKyc 2)) 7 = Some 2
  /\ Vehicles.handleVehicleDecision (Some 7) (Some "no")
       (Site.withDb (Fixture.site (Sample.atKyc 2))
          (snd (UserController.submitKYC Sample.cloudOk
                  (Sample.kycBody 7 "Ada Khan") (Sample.atKyc 2))))
     = (Vehicles.KycLevel2Required,
        Site.withDb (Fixture.site (Sample.atKyc 2))
          (snd (UserController.submitKYC Sample.cloudOk
                  (Sample.kycBody 7 "Ada Khan") (Sample.atKyc 2)))).
Proof.
  split; [reflexivity|].
  exact (proj1 (proj2 (kyc_resubmission_closes_level_2 false Sample.cloudOk
                         (Sample.kycBody 7 "Ada Khan")
                         (Fixture.site (Sample.atKyc 2)) 7
                         "KYC Level 1 completed successfully" eq_refl
                         eq_refl)) (Some "no")).
Defined.

(** ** The earlier copy of the user controller *)

Section FirstSignup.

Variables (fresh : ObjectId) (code otp : string).
Variables (firstName lastName mail phone password sponsorBy : string).
Variable gender : option string.
Variable s : Site.t.

Hypothesis firstName_given : firstName <> "".
Hypothesis lastName_given : lastName <> "".
Hypothesis mail_given : mail <> "".
Hypothesis phone_given : phone <> "".
Hypothesis password_given : password <> "".
Hypothesis sponsorBy_given : sponsorBy <> "".
Hypothesis unknown :
  findOneByEmailOrPhoneGiven (users (Site.db s)) (Some mail) (Some phone)
  = None.
Hypothesis fresh_unused : ~ In fresh (map User._id (users (Site.db s))).

Let body : SignupBody.t :=
  SignupBody.mk (Some firstName) (Some lastName) (Some mail) (Some phone)
    (Some password) (Some sponsorBy) gender.

Let user : User.doc :=
  User.create fresh code firstName lastName mail phone password sponsorBy
    gender false.

Let stored : Site.t :=
  Site.withOtp
    (Site.withDb s
       (withUsers (Site.db s) (users (Site.db s) ++ [user])))
    fresh (Held otp).

(** A signup for an unknown email and phone creates the user before the
    mail is handed over. *)
Lemma first_signup_creates (mailError : option string) :
  FirstUserController.signupUser fresh code otp mailError body s
  = match mailError with
    | Some e => (Throw None e, stored)
    | None =>
        (Json 201 "User registered. Verify OTP sent to your email.",
         Site.withDb stored
           (sendMail (Site.db stored)
              (mkMail mail "Your OTP for Account Verification" otp)))
    end.
Proof.
  unfold FirstUserController.signupUser. subst body.
  cbn [SignupBody.firstName SignupBody.lastName SignupBody.email
    SignupBody.phoneNumber SignupBody.password SignupBody.sponsorBy
    SignupBody.gender].
  rewrite !truthy_Some by assumption. cbn [andb negb Js.value].
  rewrite unknown. reflexivity.
Qed.

Lemma first_signup_by_id :
  User.findById (users (Site.db s) ++ [user]) fresh = Some user.
Proof.
  unfold User.findById. rewrite find_snoc_none.
  - subst user. cbn [User._id User.create]. now rewrite Nat.eqb_refl.
  - apply find_none_iff. intros w Hw. apply Nat.eqb_neq. intros E.
    apply fresh_unused. rewrite <- E. now apply in_map.
Qed.

Lemma first_signup_by_email :
  findOneByEmailOrPhoneGiven (users (Site.db s) ++ [user]) (Some mail) None
  = Some user.
Proof.
  unfold findOneByEmailOrPhoneGiven. rewrite find_snoc_none.
  - subst user. cbn [User.email User.create selects].
    now rewrite String.eqb_refl.
  - apply find_none_iff. intros w Hw.
    pose proof (find_none _ _ unknown w Hw) as H. cbn beta in H.
    apply orb_false_iff in H as [H _]. cbn [selects] in *.
    now rewrite H.
Qed.

Lemma first_signup_ids :
  NoDup (map User._id (users (Site.db s))) ->
  NoDup (map User._id (users (Site.db s) ++ [user])).
Proof.
  intros Hnd. rewrite map_app. cbn [map].
  apply NoDup_app; [exact Hnd | repeat constructor; intros [] |].
  intros i Hi [<-|[]]. now apply fresh_unused.
Qed.

End FirstSignup.

(** X18.  The round trip of a registration in the earlier copy.  A signup
    for an email and phone no stored user has creates the user and mails
    the OTP; until [verifyOTPUser] is called the login is refused with
    403; [verifyOTPUser] with the user's id and that OTP succeeds, after
    which the login succeeds and a further verification is refused. *)
Theorem first_signup_then_verify_then_login (compare : ComparePassword)
    (fresh : ObjectId)
    (code otp firstName lastName mail phone password sponsorBy : string)
    (gender : option string) (s : Site.t) :
  firstName <> "" -> lastName <> "" -> mail <> "" -> phone <> "" ->
  password <> "" -> sponsorBy <> "" ->
  findOneByEmailOrPhoneGiven (users (Site.db s)) (Some mail) (Some phone)
  = None ->
  ~ In fresh (map User._id (users (Site.db s))) ->
  NoDup (map User._id (users (Site.db s))) ->
  compare password password = true ->
  let login (site : Site.t) :=
    FirstUserController.loginUser compare (Some mail) None (Some password)
      (users (Site.db site)) in
  let r1 :=
    FirstUserController.signupUser fresh code otp None
      (SignupBody.mk (Some firstName) (Some lastName) (Some mail)
         (Some phone) (Some password) (Some sponsorBy) gender) s in
  let r2 :=
    FirstUserController.verifyOTPUser (Some fresh) (Some otp) (snd r1) in
  let r3 :=
    FirstUserController.verifyOTPUser (Some fresh) (Some otp) (snd r2) in
  fst r1 = Json 201 "User registered. Verify OTP sent to your email."
  /\ outbox (Site.db (snd r1))
     = outbox (Site.db s)
       ++ [mkMail mail "Your OTP for Account Verification" otp]
  /\ login (snd r1) = Throw (Some 403) "Please verify your email with OTP"
  /\ fst r2 = Json 200 "OTP verified successfully"
  /\ login (snd r2) = Json 200 "Login successful"
  /\ r3 = (Throw (Some 400) "User already verified", snd r2).
Proof.
  intros H1 H2 H3 H4 H5 H6 Hnone Hfresh Hnd Hcmp login r1 r2 r3.
  set (user := User.create fresh code firstName lastName mail phone password
                 sponsorBy gender false).
  pose proof (first_signup_creates fresh code otp firstName lastName mail
                phone password sponsorBy gender s H1 H2 H3 H4 H5 H6 Hnone
                None) as E1.
  fold r1 in E1. cbn match in E1. fold user in E1.
  pose proof (first_signup_by_id fresh code firstName lastName mail phone
                password sponsorBy gender s Hfresh) as Hid.
  pose proof (first_signup_by_email fresh code firstName lastName mail phone
                password sponsorBy gender s Hnone) as Hmail.
  pose proof (first_signup_ids fresh code firstName lastName mail phone
                password sponsorBy gender s Hfresh Hnd) as Hnd1.
  fold user in Hid, Hmail, Hnd1.
  assert (Hlogin : forall c u,
            findOneByEmailOrPhoneGiven c (Some mail) None = Some u ->
            User.password u = password ->
            FirstUserController.loginUser compare (Some mail) None
              (Some password) c
            = if User.isVerified u then Json 200 "Login successful"
              else Throw (Some 403) "Please verify your email with OTP").
  { intros c u Hu Hp. unfold FirstUserController.loginUser,
      Accounts.loginUserWith.
    rewrite !truthy_Some by assumption. cbn [negb andb orb Js.value].
    rewrite Hu, Hp, Hcmp. now destruct (User.isVerified u). }
  assert (E2 : r2 = (Json 200 "OTP verified successfully",
                     Site.withOtp
                       (Site.withDb (snd r1)
                          (withUsers (Site.db (snd r1))
                             (User.save (users (Site.db s) ++ [user])
                                (setVerified user))))
                       fresh Null)).
  { subst r2. rewrite E1. unfold FirstUserController.verifyOTPUser.
    cbn [snd Site.db Site.withDb Site.withOtp users withUsers sendMail
      Site.otp].
    rewrite Hid. cbn [User.isVerified user User.create User._id].
    unfold Site.put. rewrite Nat.eqb_refl. cbn [differs].
    rewrite String.eqb_refl. reflexivity. }
  assert (Hmail2 : findOneByEmailOrPhoneGiven
                     (User.save (users (Site.db s) ++ [user])
                        (setVerified user)) (Some mail) None
                   = Some (setVerified user))
    by exact (find_save
                (fun w => selects (User.email w) (Some mail)
                          || selects (User.phoneNumber w) None)
                _ user (setVerified user) Hnd1 eq_refl eq_refl Hmail).
  split; [now rewrite E1|]. split; [now rewrite E1|].
  split; [subst login; cbv beta; rewrite E1; exact (Hlogin _ user Hmail eq_refl)|].
  split; [now rewrite E2|].
  split.
  - subst login. cbv beta. rewrite E2.
    exact (Hlogin _ (setVerified user) Hmail2 eq_refl).
  - subst r3. rewrite E2. unfold FirstUserController.verifyOTPUser.
    cbn [snd Site.db Site.withDb Site.withOtp users withUsers].
    rewrite (findById_save _ fresh user (setVerified user) Hid eq_refl).
    reflexivity.
Qed.

Lemma first_signup_then_verify_then_login_witness :
  findOneByEmailOrPhoneGiven (users (Sample.atKyc 0)) (Some "b@x.io")
    (Some "+922") = None
  /\ FirstUserController.loginUser Fixture.samePassword (Some "b@x.io") None
       (Some "pw2")
       (users
          (Site.db
             (snd (FirstUserController.verifyOTPUser (Some 8)
                     (Some "424242")
                     (snd (FirstUserController.signupUser 8 "B" "424242"
                             None
                             (SignupBody.mk (Some "Bea") (Some "Roy")
                                (Some "b@x.io") (Some "+922") (Some "pw2")
                                (Some "N") None)
                             (Fixture.site (Sample.atKyc 0))))))))
     = Json 200 "Login successful".
Proof.
  split; [reflexivity|].
  refine (proj1 (proj2 (proj2 (proj2 (proj2
            (first_signup_then_verify_then_login Fixture.samePassword 8 "B"
               "424242" "Bea" "Roy" "b@x.io" "+922" "pw2" "N" None
               (Fixture.site (Sample.atKyc 0)) _ _ _ _ _ _ eq_refl _ _
               eq_refl))))));
    try discriminate.
  - cbn. intuition discriminate.
  - repeat constructor. intros [].
Defined.

(** X19.  In the earlier copy a signup whose mail is refused still takes
    the address: the user is stored with an OTP that was never handed to
    the transport, and every later signup that passes the field check
    with the same email or the same phone number is answered with
    Conflict and changes nothing. *)
Theorem failed_mail_blocks_the_address (fresh fresh' : ObjectId)
    (code otp e code' otp' : string)
    (firstName lastName mail phone password sponsorBy : string)
    (gender : option string) (mailError' : option string)
    (body' : SignupBody.t) (s : Site.t) :
  firstName <> "" -> lastName <> "" -> mail <> "" -> phone <> "" ->
  password <> "" -> sponsorBy <> "" ->
  findOneByEmailOrPhoneGiven (users (Site.db s)) (Some mail) (Some phone)
  = None ->
  let r :=
    FirstUserController.signupUser fresh code otp (Some e)
      (SignupBody.mk (Some firstName) (Some lastName) (Some mail)
         (Some phone) (Some password) (Some sponsorBy) gender) s in
  SignupBody.email body' = Some mail
  \/ SignupBody.phoneNumber body' = Some phone ->
  fst (FirstUserController.signupUser fresh' code' otp' mailError' body'
         (snd r))
  <> Throw (Some 400) "All fields are required" ->
  fst r = Throw None e
  /\ outbox (Site.db (snd r)) = outbox (Site.db s)
  /\ Site.otp (snd r) fresh = Held otp
  /\ FirstUserController.signupUser fresh' code' otp' mailError' body'
       (snd r)
     = (Conflict, snd r).
Proof.
  intros H1 H2 H3 H4 H5 H6 Hnone r Hsame Hfields.
  pose proof (first_signup_creates fresh code otp firstName lastName mail
                phone password sponsorBy gender s H1 H2 H3 H4 H5 H6 Hnone
                (Some e)) as E.
  fold r in E. cbn match in E.
  set (user := User.create fresh code firstName lastName mail phone password
                 sponsorBy gender false) in E.
  split; [now rewrite E|]. split; [now rewrite E|].
  split.
  { rewrite E. cbn [snd Site.otp Site.withOtp]. unfold Site.put.
    now rewrite Nat.eqb_refl. }
  revert Hfields. unfold FirstUserController.signupUser.
  destruct (negb (Js.truthy (SignupBody.firstName body') && _ && _ && _ && _
                  && _)); [intros H; now contradiction H|].
  intros _.
  assert (Hfound : exists w,
            findOneByEmailOrPhoneGiven (users (Site.db (snd r)))
              (SignupBody.email body') (SignupBody.phoneNumber body')
            = Some w).
  { rewrite E. cbn [snd Site.db Site.withDb Site.withOtp users withUsers].
    apply find_exists with user; [apply in_or_app; right; now left|].
    subst user. cbn [User.email User.phoneNumber User.create].
    destruct Hsame as [-> | ->]; cbn [selects]; rewrite String.eqb_refl;
      [reflexivity | apply orb_true_r]. }
  destruct Hfound as [w Hw]. now rewrite Hw.
Qed.

Lemma failed_mail_blocks_the_address_witness :
  fst (FirstUserController.signupUser 8 "B" "424242" (Some "ECONNREFUSED")
         (SignupBody.mk (Some "Bea") (Some "Roy") (Some "b@x.io")
            (Some "+922") (Some "pw2") (Some "N") None)
         (Fixture.site (Sample.atKyc 0)))
  = Throw None "ECONNREFUSED"
  /\ fst (FirstUserController.signupUser 9 "C" "535353" None
            (SignupBody.mk (Some "Bea") (Some "Roy") (Some "b@x.io")
               (Some "+923") (Some "pw3") (Some "N") None)
            (snd (FirstUserController.signupUser 8 "B" "424242"
                    (Some "ECONNREFUSED")
                    (SignupBody.mk (Some "Bea") (Some "Roy") (Some "b@x.io")
                       (Some "+922") (Some "pw2") (Some "N") None)
                    (Fixture.site (Sample.atKyc 0)))))
     = Conflict.
Proof.
  split; [reflexivity|].
  refine (f_equal fst
            (proj2 (proj2 (proj2
               (failed_mail_blocks_the_address 8 9 "B" "424242"
                  "ECONNREFUSED" "C" "535353" "Bea" "Roy" "b@x.io" "+922"
                  "pw2" "N" None None
                  (SignupBody.mk (Some "Bea") (Some "Roy") (Some "b@x.io")
                     (Some "+923") (Some "pw3") (Some "N") None)
                  (Fixture.site (Sample.atKyc 0)) _ _ _ _ _ _ eq_refl
                  (or_introl eq_refl) _)))));
    discriminate.
Defined.

(** X20.  In the earlier copy the KYC submission verifies the account.
    After a signup, whether or not its mail left, a [submitKYC] answered
    with 200 for the new user lets [loginUser] succeed although
    [verifyOTPUser] was never called and the signup OTP is still
    pending. *)
Theorem first_copy_kyc_verifies_without_otp (compare : ComparePassword)
    (cloud : Cloud) (kyc : KycBody.t) (m : string) (fresh : ObjectId)
    (code otp firstName lastName mail phone password sponsorBy : string)
    (gender mailError : option string) (s : Site.t) :
  firstName <> "" -> lastName <> "" -> mail <> "" -> phone <> "" ->
  password <> "" -> sponsorBy <> "" ->
  findOneByEmailOrPhoneGiven (users (Site.db s)) (Some mail) (Some phone)
  = None ->
  ~ In fresh (map User._id (users (Site.db s))) ->
  NoDup (map User._id (users (Site.db s))) ->
  compare password password = true ->
  KycBody.userId kyc = Some fresh ->
  let r1 :=
    FirstUserController.signupUser fresh code otp mailError
      (SignupBody.mk (Some firstName) (Some lastName) (Some mail)
         (Some phone) (Some password) (Some sponsorBy) gender) s in
  let r2 :=
    UserController.submitKYC_controllers cloud kyc (Site.db (snd r1)) in
  fst r2 = Json 200 m ->
  Site.otp (snd r1) fresh = Held otp
  /\ FirstUserController.loginUser compare (Some mail) None (Some password)
       (users (snd r2))
     = Json 200 "Login successful".
Proof.
  intros H1 H2 H3 H4 H5 H6 Hnone Hfresh Hnd Hcmp Hkyc r1 r2 Hr2.
  set (user := User.create fresh code firstName lastName mail phone password
                 sponsorBy gender false).
  pose proof (first_signup_creates fresh code otp firstName lastName mail
                phone password sponsorBy gender s H1 H2 H3 H4 H5 H6 Hnone
                mailError) as E1.
  fold r1 user in E1.
  pose proof (first_signup_by_id fresh code firstName lastName mail phone
                password sponsorBy gender s Hfresh) as Hid.
  pose proof (first_signup_by_email fresh code firstName lastName mail phone
                password sponsorBy gender s Hnone) as Hmail.
  pose proof (first_signup_ids fresh code firstName lastName mail phone
                password sponsorBy gender s Hfresh Hnd) as Hnd1.
  fold user in Hid, Hmail, Hnd1.
  assert (Hdb : users (Site.db (snd r1)) = users (Site.db s) ++ [user]
                /\ Site.otp (snd r1) fresh = Held otp).
  { rewrite E1. destruct mailError;
      cbn [snd Site.db Site.withDb Site.withOtp users withUsers sendMail
        Site.otp]; unfold Site.put; now rewrite Nat.eqb_refl. }
  destruct Hdb as [Hdb Hotp]. split; [exact Hotp|].
  destruct (submitKYC_saved true cloud kyc (Site.db (snd r1)) m Hr2)
    as (j & u & u' & Hj & Hu & E & Hid' & _ & Hv & He & Hp & Hpw).
  assert (j = fresh) by congruence. subst j.
  rewrite Hdb, Hid in Hu. injection Hu as <-.
  subst r2. unfold UserController.submitKYC_controllers. rewrite E.
  cbn [users withUsers]. rewrite Hdb.
  unfold FirstUserController.loginUser, Accounts.loginUserWith.
  rewrite !truthy_Some by assumption. cbn [negb andb orb Js.value].
  unfold findOneByEmailOrPhoneGiven.
  rewrite (find_save
             (fun w => selects (User.email w) (Some mail)
                       || selects (User.phoneNumber w) None)
             _ user u' Hnd1 Hid').
  - rewrite Hv, Hpw. cbn [orb negb User.password user User.create].
    now rewrite Hcmp.
  - cbn beta. now rewrite He, Hp.
  - exact Hmail.
Qed.

Lemma first_copy_kyc_verifies_without_otp_witness :
  fst (UserController.submitKYC_controllers Sample.cloudOk
         (Sample.kycBody 8 "Bea Roy")
         (Site.db
            (snd (FirstUserController.signupUser 8 "B" "424242"
                    (Some "ECONNREFUSED")
                    (SignupBody.mk (Some "Bea") (Some "Roy") (Some "b@x.io")
                       (Some "+922") (Some "pw2") (Some "N") None)
                    (Fixture.site (Sample.atKyc 0))))))
  = Json 200 "KYC Level 1 completed successfully"
  /\ FirstUserController.loginUser Fixture.samePassword (Some "b@x.io") None
       (Some "pw2")
       (users
          (snd (UserController.submitKYC_controllers Sample.cloudOk
                  (Sample.kycBody 8 "Bea Roy")
                  (Site.db
                     (snd (FirstUserController.signupUser 8 "B" "424242"
                             (Some "ECONNREFUSED")
                             (SignupBody.mk (Some "Bea") (Some "Roy")
                                (Some "b@x.io") (Some "+922") (Some "pw2")
                                (Some "N") None)
                             (Fixture.site (Sample.atKyc 0))))))))
     = Json 200 "Login successful".
Proof.
  split; [reflexivity|].
  refine (proj2
            (first_copy_kyc_verifies_without_otp Fixture.samePassword
               Sample.cloudOk (Sample.kycBody 8 "Bea Roy")
               "KYC Level 1 completed successfully" 8 "B" "424242" "Bea"
               "Roy" "b@x.io" "+922" "pw2" "N" None (Some "ECONNREFUSED")
               (Fixture.site (Sample.atKyc 0)) _ _ _ _ _ _ eq_refl _ _
               eq_refl eq_refl eq_refl));
    try discriminate.
  - cbn. intuition discriminate.
  - repeat constructor. intros [].
Defined.

(** ** The rest of the drivers controller *)

(** X21.  [handleVehicleDecision] for a given user id.  It never answers
    200.  Without the user, or below KYC level 2, it answers 403 and
    changes nothing.  From level 2 on: the answer no sets the role to
    driver and then the handler throws, [jwt] not being bound in the
    module; the answer yes throws at once; anything else is answered with
    400; in the last two cases nothing changes. *)
Theorem vehicle_decision_outcomes (i : ObjectId) (hasVehicle : option string)
    (s : Site.t) :
  let r := Vehicles.handleVehicleDecision (Some i) hasVehicle s in
  (forall m, fst r <> Json 200 m)
  /\ (User.findById (users (Site.db s)) i = None ->
      r = (Vehicles.KycLevel2Required, s))
  /\ forall u,
      User.findById (users (Site.db s)) i = Some u ->
      (User.kycLevel u < 2 -> r = (Vehicles.KycLevel2Required, s))
      /\ (2 <= User.kycLevel u ->
          (hasVehicle = Some "no" ->
           fst r = Throw None "jwt is not defined"
           /\ Site.role (snd r) i = "driver"
           /\ (forall j, j <> i -> Site.role (snd r) j = Site.role s j)
           /\ Site.db (snd r) = Site.db s
           /\ Site.vehicles (snd r) = Site.vehicles s)
          /\ (hasVehicle = Some "yes" ->
              r = (Throw None "jwt is not defined", s))
          /\ (hasVehicle <> Some "no" -> hasVehicle <> Some "yes" ->
              r = (Json 400 "Please select Yes or No for vehicle ownership",
                   s))).
Proof.
  intros r. subst r. unfold Vehicles.handleVehicleDecision.
  change (Js.bound _ "jwt") with false. cbn [negb].
  split.
  { intros m. destruct (User.findById _ _) as [u|]; [|discriminate].
    destruct (User.kycLevel u <? 2); [discriminate|].
    destruct (strictEq hasVehicle "no"); [discriminate|].
    destruct (strictEq hasVehicle "yes"); discriminate. }
  split; [now intros ->|].
  intros u Hu. rewrite Hu. destruct (findById_In _ _ _ Hu) as [_ Hid].
  split.
  { intros Hk. apply Nat.ltb_lt in Hk. now rewrite Hk. }
  intros Hk. apply Nat.ltb_ge in Hk. rewrite Hk.
  split; [|split].
  - intros ->. cbn [strictEq String.eqb Ascii.eqb Bool.eqb fst snd
                 Site.role Site.withRole Site.db Site.vehicles].
    rewrite Hid. unfold Site.put. rewrite Nat.eqb_refl.
    repeat split; trivial. intros j Hj.
    now apply Nat.eqb_neq in Hj as ->.
  - now intros ->.
  - intros Hno Hyes.
    assert (Hn : strictEq hasVehicle "no" = false).
    { destruct hasVehicle as [v|]; [|reflexivity]. cbn [strictEq].
      apply String.eqb_neq. intros ->. now apply Hno. }
    assert (Hy : strictEq hasVehicle "yes" = false).
    { destruct hasVehicle as [v|]; [|reflexivity]. cbn [strictEq].
      apply String.eqb_neq. intros ->. now apply Hyes. }
    now rewrite Hn, Hy.
Qed.

Lemma vehicle_decision_outcomes_witness :
  User.findById (users (Sample.atKyc 2)) 7 = Some (Fixture.ada 2)
  /\ fst (Vehicles.handleVehicleDecision (Some 7) (Some "no")
            (Fixture.site (Sample.atKyc 2)))
     = Throw None "jwt is not defined"
  /\ Site.role
       (snd (Vehicles.handleVehicleDecision (Some 7) (Some "no")
               (Fixture.site (Sample.atKyc 2)))) 7
     = "driver".
Proof.
  split; [reflexivity|].
  destruct (vehicle_decision_outcomes 7 (Some "no")
              (Fixture.site (Sample.atKyc 2))) as (_ & _ & H).
  destruct (H (Fixture.ada 2) eq_refl) as [_ H2].
  destruct (H2 (le_n 2)) as [Hno _].
  destruct (Hno eq_refl) as (Hr & Hrole & _).
  split; [exact Hr | exact Hrole].
Defined.



(** X23.  Every field of a vehicle is optional.  For a user at KYC level
    2, a request without files whose body carries no date, the empty
    date or one that parses, stores a vehicle with exactly the fields of
    the body, absent ones absent, and makes the user a driver; with an
    empty body the vehicle holds the user's id and nothing else. *)
Theorem registerVehicle_without_files (cloud : Cloud)
    (parseDate : string -> option Z) (now : Z) (fresh : ObjectId)
    (body : VehicleBody.t) (s : Site.t) (i : ObjectId) (u : User.doc)
    (expiry : option Z) :
  VehicleBody.userId body = Some i ->
  User.findById (users (Site.db s)) i = Some u ->
  2 <= User.kycLevel u ->
  match VehicleBody.registrationExpiryDate body with
  | Some d => if (d =? "")%string then Some None
              else option_map Some (parseDate d)
  | None => Some None
  end = Some expiry ->
  Vehicles.registerVehicle cloud parseDate now fresh body Fixture.noFiles s
  = (Json 500 "jwt is not defined",
     Site.withRole
       (Site.withVehicle s
          (Vehicle.mk fresh i (VehicleBody.licenseImage body)
             (match VehicleBody.vehicleRegistrationCard body with
              | Some card => fst card
              | None => None
              end)
             (match VehicleBody.vehicleRegistrationCard body with
              | Some card => snd card
              | None => None
              end)
             (VehicleBody.roadAuthorityCertificate body)
             (VehicleBody.vehicleOwnerName body)
             (VehicleBody.companyName body)
             (VehicleBody.vehiclePlateNumber body)
             (VehicleBody.vehicleMakeModel body)
             (VehicleBody.chassisNumber body)
             (VehicleBody.vehicleColor body) expiry
             (VehicleBody.insuranceCertificate body)
             (VehicleBody.vehicleType body)
             (match VehicleBody.vehicleImages body with
              | Some given => given
              | None => []
              end) now))
       i "driver").
Proof.
  intros Hi Hu Hk Hd. unfold Vehicles.registerVehicle.
  rewrite Hi, Hu. apply Nat.ltb_ge in Hk. rewrite Hk.
  cbn [Fixture.noFiles VehicleFiles.licenseImage
    VehicleFiles.vehicleRegistrationCardFront
    VehicleFiles.vehicleRegistrationCardBack
    VehicleFiles.roadAuthorityCertificate VehicleFiles.insuranceCertificate
    VehicleFiles.vehicleImages Vehicles.uploadOr].
  rewrite Hd. change (Js.bound _ "jwt") with false. cbn [negb].
  destruct (findById_In _ _ _ Hu) as [_ ->]. reflexivity.
Qed.

Lemma registerVehicle_without_files_witness :
  User.findById (users (Sample.atKyc 2)) 7 = Some (Fixture.ada 2)
  /\ Site.vehicles
       (snd (Vehicles.registerVehicle Fixture.cloudDown Fixture.noDate 5000
               40 (Fixture.noBody 7) Fixture.noFiles
               (Fixture.site (Sample.atKyc 2))))
     = [Vehicle.mk 40 7 None None None None None None None None None None
          None None None [] 5000]
  /\ Site.role
       (snd (Vehicles.registerVehicle Fixture.cloudDown Fixture.noDate 5000
               40 (Fixture.noBody 7) Fixture.noFiles
               (Fixture.site (Sample.atKyc 2)))) 7
     = "driver".
Proof.
  split; [reflexivity|].
  rewrite (registerVehicle_without_files Fixture.cloudDown Fixture.noDate
             5000 40 (Fixture.noBody 7) (Fixture.site (Sample.atKyc 2)) 7
             (Fixture.ada 2) None eq_refl eq_refl (le_n 2) eq_refl).
  split; reflexivity.
Defined.

(** ** Signing up with the contact of a registered user *)

(** X27.  [signupUser] does not look at the registered users: for the
    email or the phone number of a stored user it still opens a session
    and mails an OTP, but [verifyOTPUser] with that [tempId] and OTP is
    answered with Conflict and leaves the session where it is, so that
    registration cannot complete. *)
Theorem signup_of_registered_contact_cannot_complete (fuel : nat)
    (now now' : Z) (session fresh : ObjectId)
    (tempId otp code firstName lastName mail phone password sponsorBy
       gender : string)
    (u : User.doc) (db : Db) :
  tempId <> "" -> otp <> "" -> firstName <> "" -> lastName <> "" ->
  mail <> "" -> phone <> "" -> password <> "" -> sponsorBy <> "" ->
  gender <> "" ->
  TempUser.findOneByEmail (tempUsers db) mail = None ->
  ~ In phone (map TempUser.phoneNumber (tempUsers db)) ->
  ~ In tempId (map TempUser.tempId (tempUsers db)) ->
  In u (users db) ->
  User.email u = mail \/ User.phoneNumber u = phone ->
  (now' <= now + 10 * 60 * 1000)%Z ->
  let r1 :=
    UserController.signupUser now session tempId otp None
      (SignupBody.mk (Some firstName) (Some lastName) (Some mail)
         (Some phone) (Some password) (Some sponsorBy) (Some gender)) db in
  fst r1 = Json 200 "OTP sent. Please verify to complete registration."
  /\ outbox (snd r1)
     = outbox db ++ [mkMail mail "Your OTP for Account Verification" otp]
  /\ UserController.verifyOTPUser fuel now' fresh code
       (VerifyBody.mk (Some tempId) (Some otp) (Some firstName)
          (Some lastName) (Some password) (Some sponsorBy) (Some gender))
       (snd r1)
     = (Some Conflict, snd r1).
Proof.
  intros Ht Ho H1 H2 H3 H4 H5 H6 H7 Hmail Hphone Htemp Hu Hsame Hlive r1.
  assert (E1 : r1 = (Json 200 "OTP sent. Please verify to complete registration.",
                     mkDb (tempUsers db
                           ++ [TempUser.mk session mail phone tempId otp now])
                       (users db)
                       (outbox db
                        ++ [mkMail mail "Your OTP for Account Verification"
                              otp])))
    by (now apply signup_fresh).
  set (t := TempUser.mk session mail phone tempId otp now) in *.
  set (db1 := mkDb _ _ _) in E1.
  rewrite E1. cbn [fst snd]. split; [reflexivity|].
  split; [reflexivity|].
  assert (Hfound : TempUser.findOneByTempId (tempUsers db1) tempId = Some t)
    by exact (findOneByTempId_snoc (tempUsers db) t Htemp).
  exact (consume_conflict fuel now' fresh code tempId otp firstName lastName
           password sponsorBy gender db1 Ht Ho H1 H2 H5 H6 H7 t Hfound
           Hlive eq_refl u Hu Hsame).
Qed.

Lemma signup_of_registered_contact_cannot_complete_witness :
  In (Sample.member 1 "N" "root" [] 0) (users Sample.oneSession)
  /\ fst (UserController.verifyOTPUser 5 1000 21 "Z"
            (VerifyBody.mk (Some "T9") (Some "424242") (Some "Bea")
               (Some "Roy") (Some "pw") (Some "N") (Some "f"))
            (snd (UserController.signupUser 0 200 "T9" "424242" None
                    (SignupBody.mk (Some "Bea") (Some "Roy")
                       (Some "uN@x.io") (Some "+7") (Some "pw") (Some "N")
                       (Some "f"))
                    Sample.oneSession)))
     = Some Conflict.
Proof.
  split; [now left|].
  refine (f_equal fst
            (proj2 (proj2
               (signup_of_registered_contact_cannot_complete 5 0 1000 200 21
                  "T9" "424242" "Z" "Bea" "Roy" "uN@x.io" "+7" "pw" "N" "f"
                  (Sample.member 1 "N" "root" [] 0) Sample.oneSession
                  _ _ _ _ _ _ _ _ _ eq_refl _ _ (or_introl eq_refl)
                  (or_introl eq_refl) _))));
    try discriminate.
  - cbn. intuition discriminate.
  - cbn. intuition discriminate.
Defined.

(** ** What no history undoes *)

(** One admission keeps the stored users, up to their levels, and adds at
    most one. *)
Lemma verifyOTPUser_keeps_users fuel now fresh code body db :
  exists more,
    map shape
      (users (snd (UserController.verifyOTPUser fuel now fresh code body db)))
    = map shape (users db) ++ more
    /\ List.length more <= 1.
Proof.
  assert (Hsame : exists more,
            map shape (users db) = map shape (users db) ++ more
            /\ List.length more <= 1)
    by (exists []; split; [now rewrite app_nil_r | cbn; lia]).
  unfold UserController.verifyOTPUser.
  destruct (negb (Js.truthy (VerifyBody.tempId body) && _ && _ && _ && _
                  && _ && _)); [exact Hsame|].
  destruct (TempUser.findOneByTempId _ _) as [t|]; [|exact Hsame].
  destruct (_ >? _)%Z; [exact Hsame|].
  destruct (negb (TempUser.otp t =? _)%string); [exact Hsame|].
  destruct (User.findOneByEmailOrPhone _ _ _); [exact Hsame|].
  set (user := User.create _ _ _ _ _ _ _ _ _ _).
  assert (Hn : forall leveled,
            map shape leveled = map shape (users db ++ [user]) ->
            exists more,
              map shape leveled = map shape (users db) ++ more
              /\ List.length more <= 1).
  { intros leveled ->. exists [shape user]. now rewrite map_app. }
  destruct (User.findOneBySponsorId _ _) as [sponsor|];
    [|now apply Hn].
  pose proof (shape_updateSponsorLevels fuel (users db ++ [user])
                (User._id (User.pushSponsorTree sponsor (User._id user))))
    as Hs.
  destruct (Leveling.updateSponsorLevels _ _ _) as [ended leveled].
  cbn [snd] in Hs. destruct ended; cbn [snd users withUsers]; now apply Hn.
Qed.

(** X28.  No history of admissions and leveling runs removes a user or
    rewrites anything but levels: the users stored at the start are still
    there afterwards, in the same order and with every path but [level]
    unchanged, followed by those stored since. *)
Theorem history_keeps_users (ops : list History.Op) (db : Db) :
  exists more,
    map shape (users (History.run ops db)) = map shape (users db) ++ more
    /\ List.length more <= List.length ops.
Proof.
  revert db. induction ops as [|op ops IH]; intros db.
  { exists []. split; [now rewrite app_nil_r | constructor]. }
  unfold History.run. cbn [fold_left].
  destruct (IH (History.step db op)) as (more & Hm & Hl).
  unfold History.run in Hm. rewrite Hm.
  assert (Hstep : exists one,
            map shape (users (History.step db op))
            = map shape (users db) ++ one /\ List.length one <= 1).
  { destruct op as [fuel now fresh code body|fuel userId];
      cbn [History.step].
    - apply verifyOTPUser_keeps_users.
    - exists []. cbn [users withUsers]. rewrite app_nil_r.
      split; [apply shape_updateSponsorLevels | constructor; constructor]. }
  destruct Hstep as (one & -> & Hone).
  exists (one ++ more). rewrite app_assoc. split; [reflexivity|].
  rewrite length_app. cbn [List.length]. lia.
Qed.

(** ** Ranks over an admission *)

Lemma levelOf_within (c : list User.doc) (j : ObjectId) (r : nat) :
  capped c -> levelOf c j = Some r -> r <= 4.
Proof.
  intros Hc H. unfold levelOf in H.
  destruct (User.findById c j) as [u|] eqn:Hu; [|discriminate].
  injection H as <-. apply findById_In in Hu as [Hin _].
  unfold capped in Hc. rewrite Forall_forall in Hc. now apply Hc.
Qed.

(** X29.  An admission never lowers a rank.  On users with distinct
    identifiers and levels of at most 4, when the identifier generated for
    the new user is not in use, [verifyOTPUser] leaves users with distinct
    identifiers and levels of at most 4, and every user that had a level
    has one that is no lower. *)
Theorem admission_never_lowers_a_rank (fuel : nat) (now : Z)
    (fresh : ObjectId) (code : string) (body : VerifyBody.t) (db : Db) :
  NoDup (map User._id (users db)) -> capped (users db) ->
  ~ In fresh (map User._id (users db)) ->
  let db' := snd (UserController.verifyOTPUser fuel now fresh code body db) in
  NoDup (map User._id (users db'))
  /\ capped (users db')
  /\ forall j r,
      levelOf (users db) j = Some r ->
      exists r', levelOf (users db') j = Some r' /\ r <= r' <= 4.
Proof.
  intros Hnd Hc Hfresh db'.
  pose proof (capped_verifyOTPUser fuel now fresh code body db Hc) as Hc'.
  fold db' in Hc'.
  assert (Hsame : NoDup (map User._id (users db))
                  /\ forall j r,
                      levelOf (users db) j = Some r ->
                      exists r', levelOf (users db) j = Some r'
                                 /\ r <= r' <= 4).
  { split; [exact Hnd|]. intros j r Hr. exists r. split; [exact Hr|].
    pose proof (levelOf_within _ _ _ Hc Hr). lia. }
  cut (NoDup (map User._id (users db'))
       /\ forall j r,
           levelOf (users db) j = Some r ->
           exists r', levelOf (users db') j = Some r' /\ r <= r' <= 4).
  { intros [H1 H2]. split; [exact H1|]. split; [exact Hc' | exact H2]. }
  clear Hc'. subst db'. unfold UserController.verifyOTPUser.
  destruct (negb (Js.truthy (VerifyBody.tempId body) && _ && _ && _ && _
                  && _ && _)); [exact Hsame|].
  destruct (TempUser.findOneByTempId _ _) as [t|]; [|exact Hsame].
  destruct (_ >? _)%Z; [exact Hsame|].
  destruct (negb (TempUser.otp t =? _)%string); [exact Hsame|].
  destruct (User.findOneByEmailOrPhone _ _ _); [exact Hsame|].
  set (user := User.create _ _ _ _ _ _ _ _ _ _).
  assert (Hnd1 : NoDup (map User._id (users db ++ [user]))).
  { rewrite map_app. cbn [map].
    apply NoDup_app; [exact Hnd | repeat constructor; intros [] |].
    intros i Hi [<-|[]]. now apply Hfresh. }
  assert (Hc1 : capped (users db ++ [user])).
  { apply Forall_app. split; [exact Hc|]. repeat constructor. }
  assert (Hn : forall leveled,
            raised (users db ++ [user]) leveled ->
            map shape leveled = map shape (users db ++ [user]) ->
            capped leveled ->
            NoDup (map User._id leveled)
            /\ forall j r,
                levelOf (users db) j = Some r ->
                exists r', levelOf leveled j = Some r' /\ r <= r' <= 4).
  { intros leveled Hr Hs Hcl. split.
    - now rewrite (shape_map User._id leveled _ (fun _ => eq_refl) Hs).
    - intros j r Hj. unfold levelOf in Hj |- *.
      destruct (User.findById (users db) j) as [w|] eqn:Hw; [|discriminate].
      injection Hj as <-.
      destruct (raised_findById _ _ j w Hr (findById_app _ user _ _ Hw))
        as (w' & Hw' & Hle).
      exists (User.level w'). rewrite Hw'. split; [reflexivity|].
      split; [exact Hle|].
      apply findById_In in Hw' as [Hin _].
      unfold capped in Hcl. rewrite Forall_forall in Hcl. now apply Hcl. }
  destruct (User.findOneBySponsorId _ _) as [sponsor|].
  2:{ cbn [snd users]. apply Hn; [|reflexivity | exact Hc1].
      clear. induction (users db ++ [user]) as [|w c IH]; constructor;
        [split; [reflexivity | constructor] | exact IH]. }
  pose proof (shape_updateSponsorLevels fuel (users db ++ [user])
                (User._id (User.pushSponsorTree sponsor (User._id user))))
    as Hs.
  pose proof (raised_updateSponsorLevels fuel (users db ++ [user])
                (User._id (User.pushSponsorTree sponsor (User._id user)))
                Hnd1 Hc1) as Hr.
  pose proof (capped_updateSponsorLevels fuel (users db ++ [user])
                (User._id (User.pushSponsorTree sponsor (User._id user)))
                Hc1) as Hcl.
  destruct (Leveling.updateSponsorLevels _ _ _) as [ended leveled].
  cbn [snd] in Hs, Hr, Hcl.
  destruct ended; cbn [snd users withUsers]; now apply Hn.
Qed.

Lemma admission_never_lowers_a_rank_witness :
  NoDup (map User._id (users Sample.oneSession))
  /\ capped (users Sample.oneSession)
  /\ exists r',
       levelOf
         (users (snd (UserController.verifyOTPUser 5 1000 11 "A"
                        (Sample.verifyBody "1" "N") Sample.oneSession))) 1
       = Some r'
       /\ 0 <= r' <= 4.
Proof.
  assert (Hnd : NoDup (map User._id (users Sample.oneSession)))
    by (repeat constructor; intros []).
  assert (Hc : capped (users Sample.oneSession)) by (repeat constructor).
  split; [exact Hnd|]. split; [exact Hc|].
  refine (proj2 (proj2
            (admission_never_lowers_a_rank 5 1000 11 "A"
               (Sample.verifyBody "1" "N") Sample.oneSession Hnd Hc _))
            1 0 eq_refl).
  cbn. intuition discriminate.
Defined.

(** ** The license upload as routed *)

Lemma uploadLicense_without_file (cloud : Cloud) (userId : option ObjectId)
    (db : Db) :
  snd (DriversController.uploadLicense cloud userId None db) = db.
Proof.
  unfold DriversController.uploadLicense.
  destruct (match userId with Some i => _ | None => _ end) as [user|];
    [|reflexivity].
  now destruct (User.kycLevel user <? 1).
Qed.

(** C9.  [uploadLicense] as the route delivers it.  The route hands the
    posted file over in [req.file], the handler looks for it in
    [req.files]: whatever is posted, nothing is written.  For a user at
    KYC level 0 the answer is PermissionDenied; for a user at level 1 or
    more, also with a license posted, the answer is 400 with the message
    that the license image is required, and the level stays where it
    was. *)
Theorem routed_license_upload_is_refused (cloud : Cloud) (userId : ObjectId)
    (posted : option string) (db : Db) (user : User.doc) :
  User.findById (users db) userId = Some user ->
  let r := DriversRoutes.uploadLicense cloud (Some userId) posted db in
  snd r = db
  /\ kycLevelOf (users (snd r)) userId = Some (User.kycLevel user)
  /\ (User.kycLevel user = 0 -> fst r = PermissionDenied)
  /\ (1 <= User.kycLevel user ->
      fst r = Json 400 "License image is required for KYC Level 2").
Proof.
  intros Hu r. subst r. unfold DriversRoutes.uploadLicense.
  cbn [Multer.single Multer.first Multer.files].
  split; [apply uploadLicense_without_file|].
  split; [rewrite uploadLicense_without_file; unfold kycLevelOf;
          now rewrite Hu|].
  unfold DriversController.uploadLicense. rewrite Hu. split.
  - now intros ->.
  - intros Hk. apply Nat.ltb_ge in Hk. now rewrite Hk.
Qed.

Lemma routed_license_upload_is_refused_witness :
  kycLevelOf (users (Sample.atKyc 1)) 7 = Some 1
  /\ fst (DriversRoutes.uploadLicense Sample.cloudOk (Some 7)
            (Some "lic.png") (Sample.atKyc 1))
     = Json 400 "License image is required for KYC Level 2"
  /\ kycLevelOf
       (users (snd (DriversRoutes.uploadLicense Sample.cloudOk (Some 7)
                      (Some "lic.png") (Sample.atKyc 1)))) 7
     = Some 1.
Proof.
  split; [reflexivity|].
  destruct (routed_license_upload_is_refused Sample.cloudOk 7
              (Some "lic.png") (Sample.atKyc 1) (Fixture.ada 1) eq_refl)
    as (_ & Hlevel & _ & H400).
  split; [exact (H400 (le_n 1)) | exact Hlevel].
Defined.

(** ** Nobody gets past KYC level 1 through the routes *)

Section BelowLevel2.

Lemma belowLevel2_save (c : list User.doc) (d : User.doc) :
  belowLevel2 c -> User.kycLevel d <= 1 -> belowLevel2 (User.save c d).
Proof.
  intros Hc Hd. unfold belowLevel2, User.save.
  apply Forall_forall. intros u Hu.
  apply in_map_iff in Hu as (w & <- & Hw).
  destruct (User._id w =? User._id d); [exact Hd|].
  unfold belowLevel2 in Hc. rewrite Forall_forall in Hc. now apply Hc.
Qed.

Lemma belowLevel2_found (c : list User.doc) (i : ObjectId) (u : User.doc) :
  belowLevel2 c -> User.findById c i = Some u ->
  (User.kycLevel u <? 2) = true.
Proof.
  intros Hc Hu. apply findById_In in Hu as [Hin _].
  unfold belowLevel2 in Hc. rewrite Forall_forall in Hc.
  apply Nat.ltb_lt. specialize (Hc u Hin). lia.
Qed.

Lemma belowLevel2_shape (c c' : list User.doc) :
  map shape c = map shape c' -> belowLevel2 c -> belowLevel2 c'.
Proof.
  intros H Hc. apply Forall_forall. intros w' Hw'.
  destruct (shape_In c c' w' H Hw') as (w & Hw & Hs).
  unfold belowLevel2 in Hc. rewrite Forall_forall in Hc.
  change (User.kycLevel (shape w') <= 1). rewrite <- Hs.
  exact (Hc w Hw).
Qed.

Lemma signupUser_keeps_users now fresh tempId otp mailError body db :
  users (snd (UserController.signupUser now fresh tempId otp mailError body
                db)) = users db.
Proof.
  unfold UserController.signupUser.
  destruct (negb _); [reflexivity|].
  destruct (match TempUser.findOneByEmail _ _ with
            | Some tempUser => _
            | None => _
            end); [|reflexivity].
  now destruct mailError.
Qed.

Lemma resendOtp_keeps_users newOtp mailError tempId db :
  users (snd (UserController.resendOtp newOtp mailError tempId db))
  = users db.
Proof.
  unfold UserController.resendOtp.
  destruct (negb (Js.truthy tempId)); [reflexivity|].
  destruct (TempUser.findOneByTempId _ _); [|reflexivity].
  change (Js.bound _ "firstName") with false. reflexivity.
Qed.

Lemma verifyOTPUser_belowLevel2 fuel now fresh code body db :
  belowLevel2 (users db) ->
  belowLevel2
    (users (snd (UserController.verifyOTPUser fuel now fresh code body
                   db))).
Proof.
  intros Hc. unfold UserController.verifyOTPUser.
  destruct (negb (Js.truthy (VerifyBody.tempId body) && _ && _ && _ && _
                  && _ && _)); [exact Hc|].
  destruct (TempUser.findOneByTempId _ _) as [t|]; [|exact Hc].
  destruct (_ >? _)%Z; [exact Hc|].
  destruct (negb (TempUser.otp t =? _)%string); [exact Hc|].
  destruct (User.findOneByEmailOrPhone _ _ _); [exact Hc|].
  set (user := User.create _ _ _ _ _ _ _ _ _ _).
  assert (Hn : belowLevel2 (users db ++ [user])).
  { apply Forall_app. split; [exact Hc|].
    constructor; [cbn; lia | constructor]. }
  destruct (User.findOneBySponsorId _ _) as [sponsor|]; [|exact Hn].
  pose proof (shape_updateSponsorLevels fuel (users db ++ [user])
                (User._id (User.pushSponsorTree sponsor (User._id user))))
    as Hs.
  destruct (Leveling.updateSponsorLevels _ _ _) as [ended leveled].
  cbn [snd] in Hs.
  destruct ended; cbn [snd users withUsers];
    exact (belowLevel2_shape _ _ (eq_sym Hs) Hn).
Qed.

Lemma submitKYC_belowLevel2 alsoVerify cloud body db :
  belowLevel2 (users db) ->
  belowLevel2
    (users (snd (UserController.submitKYCWith alsoVerify cloud body db))).
Proof.
  intros Hc. unfold UserController.submitKYCWith.
  destruct (KycBody.userId body) as [i|]; [|exact Hc].
  destruct (KycBody.frontImage body) as [frontImage|]; [|exact Hc].
  destruct (KycBody.backImage body) as [backImage|]; [|exact Hc].
  destruct (KycBody.selfieImage body) as [selfieImage|]; [|exact Hc].
  destruct (negb (Js.truthy (KycBody.fullName body) && _)); [exact Hc|].
  destruct (Js.destructure2 _) as [firstName lastName].
  destruct (negb (Js.truthy firstName && _)); [exact Hc|].
  destruct (User.findById (users db) i) as [u|]; [|exact Hc].
  destruct (cloud frontImage "kyc/front"); [|exact Hc].
  destruct (cloud backImage "kyc/back"); [|exact Hc].
  destruct (cloud selfieImage "kyc/selfie"); [|exact Hc].
  cbn [snd users withUsers]. apply belowLevel2_save; [exact Hc|].
  cbn [User.kycLevel User.setKyc1]. constructor.
Qed.

(** One request leaves the levels below 2, the roles and the
    vehicles. *)
Lemma serve_belowLevel2 (s : Site.t) (q : Routed.Request) :
  belowLevel2 (users (Site.db s)) ->
  belowLevel2 (users (Site.db (Routed.serve s q)))
  /\ Site.role (Routed.serve s q) = Site.role s
  /\ Site.vehicles (Routed.serve s q) = Site.vehicles s.
Proof.
  intros Hc.
  destruct q as [now fresh tempId otp mailError body
                |fuel now fresh code body
                |newOtp mailError tempId
                |now otp mailError email
                |now userId resetOtp password
                |cloud body
                |cloud userId posted
                |userId hasVehicle
                |cloud parseDate now fresh body files];
    cbn [Routed.serve].
  - cbn [Site.db Site.withDb Site.role Site.vehicles].
    now rewrite signupUser_keeps_users.
  - cbn [Site.db Site.withDb Site.role Site.vehicles].
    split; [now apply verifyOTPUser_belowLevel2 | now split].
  - cbn [Site.db Site.withDb Site.role Site.vehicles].
    now rewrite resendOtp_keeps_users.
  - unfold Accounts.forgotPassword.
    destruct (negb (Js.truthy email)); [now repeat split|].
    destruct (findOneByEmail _ _); [|now repeat split].
    now destruct mailError.
  - unfold Accounts.resetPassword.
    destruct userId as [i|]; [|now repeat split].
    destruct (negb _); [now repeat split|].
    destruct (User.findById (users (Site.db s)) i) as [u|] eqn:Hu;
      [|now repeat split].
    destruct (differs _ _ || _); [now repeat split|].
    cbn [snd Site.db Site.withDb Site.withReset Site.role Site.vehicles
      users withUsers].
    split; [|now split]. apply belowLevel2_save; [exact Hc|].
    cbn [User.kycLevel setPassword].
    pose proof (belowLevel2_found _ _ _ Hc Hu) as Hk.
    apply Nat.ltb_lt in Hk. lia.
  - cbn [Site.db Site.withDb Site.role Site.vehicles].
    split; [now apply submitKYC_belowLevel2 | now split].
  - cbn [Site.db Site.withDb Site.role Site.vehicles].
    unfold DriversRoutes.uploadLicense.
    cbn [Multer.single Multer.first Multer.files].
    now rewrite uploadLicense_without_file.
  - unfold Vehicles.handleVehicleDecision.
    destruct userId as [i|]; [|now repeat split].
    destruct (User.findById (users (Site.db s)) i) as [u|] eqn:Hu;
      [|now repeat split].
    rewrite (belowLevel2_found _ _ _ Hc Hu). now repeat split.
  - unfold Vehicles.registerVehicle.
    destruct (VehicleBody.userId body) as [i|]; [|now repeat split].
    destruct (User.findById (users (Site.db s)) i) as [u|] eqn:Hu;
      [|now repeat split].
    rewrite (belowLevel2_found _ _ _ Hc Hu). now repeat split.
Qed.

End BelowLevel2.

(** X24.  Through the routes whose handlers are in the sources nobody
    gets past KYC level 1.  From a state in which no user is at level 2,
    and so from the empty one, whatever requests reach the handlers of
    /signup, /verify-otp, /resend-otp, /forgot-password, /reset-password,
    /submit-kyc, /upload-license, /vehicle-decision and /register-vehicle,
    in whatever order: no user is at level 2 afterwards, no role has
    changed and no vehicle is stored that was not there.  The only
    assignment of level 2 is in [uploadLicense], behind a file that its
    route never hands over. *)
Theorem routes_never_reach_level_2 (qs : list Routed.Request) (s : Site.t) :
  belowLevel2 (users (Site.db s)) ->
  belowLevel2 (users (Site.db (Routed.run qs s)))
  /\ Site.role (Routed.run qs s) = Site.role s
  /\ Site.vehicles (Routed.run qs s) = Site.vehicles s.
Proof.
  revert s. induction qs as [|q qs IH]; intros s Hc; [now repeat split|].
  unfold Routed.run. cbn [fold_left].
  destruct (serve_belowLevel2 s q Hc) as (Hc' & Hrole & Hveh).
  destruct (IH (Routed.serve s q) Hc') as (H1 & H2 & H3).
  unfold Routed.run in H1, H2, H3.
  split; [exact H1|]. split; congruence.
Qed.

Lemma routes_never_reach_level_2_witness :
  belowLevel2 (users (Site.db (Fixture.site (Sample.atKyc 0))))
  /\ kycLevelOf
       (users
          (Site.db
             (Routed.run
                [Routed.SubmitKyc Sample.cloudOk
                   (Sample.kycBody 7 "Ada Khan");
                 Routed.UploadLicense Sample.cloudOk (Some 7)
                   (Some "lic.png");
                 Routed.VehicleDecision (Some 7) (Some "no");
                 Routed.RegisterVehicle Sample.cloudOk Fixture.noDate 5000
                   40 (Fixture.noBody 7) Fixture.noFiles]
                (Fixture.site (Sample.atKyc 0))))) 7
     = Some 1
  /\ Site.vehicles
       (Routed.run
          [Routed.SubmitKyc Sample.cloudOk (Sample.kycBody 7 "Ada Khan");
           Routed.UploadLicense Sample.cloudOk (Some 7) (Some "lic.png");
           Routed.VehicleDecision (Some 7) (Some "no");
           Routed.RegisterVehicle Sample.cloudOk Fixture.noDate 5000 40
             (Fixture.noBody 7) Fixture.noFiles]
          (Fixture.site (Sample.atKyc 0)))
     = [].
Proof.
  assert (Hc : belowLevel2 (users (Site.db (Fixture.site (Sample.atKyc 0)))))
    by (repeat constructor).
  split; [exact Hc|]. split; [reflexivity|].
  exact (proj2 (proj2
           (routes_never_reach_level_2
              [Routed.SubmitKyc Sample.cloudOk (Sample.kycBody 7 "Ada Khan");
               Routed.UploadLicense Sample.cloudOk (Some 7) (Some "lic.png");
               Routed.VehicleDecision (Some 7) (Some "no");
               Routed.RegisterVehicle Sample.cloudOk Fixture.noDate 5000 40
                 (Fixture.noBody 7) Fixture.noFiles]
              (Fixture.site (Sample.atKyc 0)) Hc))).
Defined.
